(** * RegageMetalls: descarga de expedientes MITECO

    Shallow embedding of [RegageMetalls.py] (both copies of the module: the
    one at the repository root and the one under [src/mains], which adds the
    [[INFO-nn]]/[[WARN-nn]]/[[ERR-nn]] log tags and archives per producer)
    and the properties its specification states about it. *)

From Stdlib Require Import ZArith Ascii String.
From stdpp Require Import gmap strings list fin_maps.


#[local] Set Warnings "-register-all,-abstract-large-number".

(** stdpp blocks [simpl] on string append; the proofs below compute with
    literal prefixes, so it is re-enabled when the left operand is a
    constructor. *)
#[local] Arguments String.append !_ _ : simpl nomatch.

(** ** Strings *)

Module Cadenas.

(** [aparece c s]: the character [c] occurs in [s] (Python [c in s]). *)
Fixpoint aparece (c : ascii) (s : string) : bool :=
  match s with
  | EmptyString => false
  | String a s' => if Ascii.eqb a c then true else aparece c s'
  end.

(** Number of positions of [s] at which [p] starts (overlaps counted). *)
Fixpoint cuenta (p s : string) : nat :=
  (if String.prefix p s then 1 else 0) +
  match s with
  | EmptyString => 0
  | String _ s' => cuenta p s'
  end.

Definition subcadena (p s : string) : Prop := ∃ a b, s = a +:+ p +:+ b.

Definition termina_en (suf s : string) : Prop := ∃ a, s = a +:+ suf.

(** Text before the first [c] (everything when [c] does not occur). *)
Fixpoint hasta (c : ascii) (s : string) : string :=
  match s with
  | EmptyString => EmptyString
  | String a s' => if Ascii.eqb a c then EmptyString else String a (hasta c s')
  end.

(** Text after the first [c] (empty when [c] does not occur). *)
Fixpoint tras (c : ascii) (s : string) : string :=
  match s with
  | EmptyString => EmptyString
  | String a s' => if Ascii.eqb a c then s' else tras c s'
  end.

(** Python [s.split(c)] for a one-character separator. *)
Fixpoint split_on (c : ascii) (s : string) : list string :=
  match s with
  | EmptyString => [EmptyString]
  | String a s' =>
      if Ascii.eqb a c then EmptyString :: split_on c s'
      else match split_on c s' with
           | [] => [String a EmptyString]
           | h :: t => String a h :: t
           end
  end.

(** Python [s.replace(old, new)] for a one-character [old]. *)
Fixpoint replace (old : ascii) (new : string) (s : string) : string :=
  match s with
  | EmptyString => EmptyString
  | String a s' =>
      if Ascii.eqb a old then new +:+ replace old new s'
      else String a (replace old new s')
  end.

(** [s.lower()] on the ASCII letters. *)
Definition minuscula (a : ascii) : ascii :=
  let n := nat_of_ascii a in
  if (65 <=? n)%nat && (n <=? 90)%nat then ascii_of_nat (n + 32) else a.

Fixpoint lower (s : string) : string :=
  match s with
  | EmptyString => EmptyString
  | String a s' => String (minuscula a) (lower s')
  end.

(** [s.endswith(suf)]. *)
Fixpoint endswith (suf s : string) : bool :=
  if String.eqb s suf then true
  else match s with
       | EmptyString => false
       | String _ s' => endswith suf s'
       end.

End Cadenas.

Import Cadenas.

(** ** LinkBuilder *)

(** [get_linkMiteco], lines 39-58: the f-string pieces in source order. *)
Definition get_linkMiteco (regage_val nif_productor nif_representante : string) : string :=
  "https://sede.miteco.gob.es/portal/site/seMITECO/area_personal"
  +:+ "?btnDetalleProc=btnDetalleProc"
  +:+ "&pagina=1"
  +:+ "&idExpediente=" +:+ regage_val
  +:+ "&idProcedimiento=736"
  +:+ "&idSubOrganoResp=11"
  +:+ "&idDocIdentificativo=" +:+ nif_productor
  +:+ "&idDocRepresentante=" +:+ nif_representante
  +:+ "&idEstadoSeleccionado=-1"
  +:+ "&idTipoProcSeleccionado=EN+REPRESENTACION+(REA)"
  +:+ "&regInicial=" +:+ regage_val
  +:+ "&nifTitular=" +:+ nif_productor
  +:+ "&numPagSolSelec=10#no-back-button".

(** How a URL reader sees the link: the fragment starts at the first [#],
    the query at the first [?] before it, parameters are separated by [&]
    and each is cut at its first [=]. Nothing is decoded. *)
Definition fragmento (url : string) : string := tras "#" url.

Definition consulta (url : string) : string := tras "?" (hasta "#" url).

Definition parametro (kv : string) : string * string := (hasta "=" kv, tras "=" kv).

Definition parametros (url : string) : list (string * string) :=
  parametro <$> split_on "&" (consulta url).

(** The twelve parameters the link is meant to carry. *)
Definition estructura (regage_val nif_productor nif_representante : string)
  : list (string * string) :=
  [ ("btnDetalleProc", "btnDetalleProc");
    ("pagina", "1");
    ("idExpediente", regage_val);
    ("idProcedimiento", "736");
    ("idSubOrganoResp", "11");
    ("idDocIdentificativo", nif_productor);
    ("idDocRepresentante", nif_representante);
    ("idEstadoSeleccionado", "-1");
    ("idTipoProcSeleccionado", "EN+REPRESENTACION+(REA)");
    ("regInicial", regage_val);
    ("nifTitular", nif_productor);
    ("numPagSolSelec", "10") ].

(** An identifier that holds neither [&] nor [#]. *)
Definition sin_separadores (s : string) : Prop :=
  aparece "&" s = false ∧ aparece "#" s = false.

(** The LinkBuilder property as the specification words it, with every
    "exactly n times" read as a count of occurrences in the URL text. *)
Definition enlace_segun_spec (case_id producer_id rep_id url : string) : Prop :=
  subcadena ("idExpediente=" +:+ case_id) url ∧
  subcadena ("regInicial=" +:+ case_id) url ∧
  cuenta case_id url = 2 ∧
  subcadena ("idDocIdentificativo=" +:+ producer_id) url ∧
  subcadena ("nifTitular=" +:+ producer_id) url ∧
  cuenta producer_id url = 2 ∧
  cuenta ("idDocRepresentante=" +:+ rep_id) url = 1 ∧
  subcadena "idProcedimiento=736" url ∧
  subcadena "idSubOrganoResp=11" url ∧
  subcadena "idEstadoSeleccionado=-1" url ∧
  subcadena "idTipoProcSeleccionado=EN+REPRESENTACION+(REA)" url ∧
  termina_en "numPagSolSelec=10#no-back-button" url.

(** ** Python values, exceptions and the observable trace *)

(** What [json.load] yields. Numbers keep their [str()] rendering. *)
Inductive json :=
| JNull
| JBool (b : bool)
| JNum (repr : string)
| JStr (s : string)
| JArr (l : list json)
| JObj (campos : list (string * json)).

(** The other values the module handles: the browser handle and whatever
    the helper modules return. *)
Inductive valor :=
| VNone
| VBool (b : bool)
| VInt (z : Z)
| VStr (s : string)
| VLista (l : list string)
| VObjeto (id : nat).

(** Python truthiness ([if driver:], [if not driver:]). *)
Definition verdadero (v : valor) : bool :=
  match v with
  | VNone => false
  | VBool b => b
  | VInt z => negb (z =? 0)%Z
  | VStr s => negb (String.eqb s "")
  | VLista l => match l with [] => false | _ :: _ => true end
  | VObjeto _ => true
  end.

(** Exception classes (all below [Exception]; [TimeoutException] is a
    [WebDriverException]). Process-termination signals such as
    [KeyboardInterrupt] are not exceptions in this sense. *)
Inductive clase :=
| Exception_
| AttributeError
| JSONDecodeError
| FileNotFoundError
| FileExistsError
| NotADirectoryError
| IsADirectoryError
| ShutilError
| WebDriverException
| TimeoutException.

#[global] Instance clase_eq_dec : EqDecision clase.
Proof. solve_decision. Defined.

Record excepcion := Exc { cls : clase; texto : string }.

Definition isinstance (e : excepcion) (c : clase) : bool :=
  match c with
  | Exception_ => true
  | WebDriverException =>
      bool_decide (cls e = WebDriverException) || bool_decide (cls e = TimeoutException)
  | _ => bool_decide (cls e = c)
  end.

Definition ruta := list string.

(** Calls into the helper modules and into the browser. *)
Inductive llamada :=
| configure
| abrir_web (driver : valor) (url : string)
| esperar_elemento_por_id (driver : valor) (id : string)
| clickar_boton_por_value (driver : valor) (value : string)
| clickar_boton_por_texto (driver : valor) (text : string)
| seleccionar_certificado_chrome (nombre : valor)
| setup_descarga (driver : valor) (nombre_productor nombre_residuo : string)
| snapshot_folder_state (download_path : valor)
| clickar_todos_los_links (driver : valor) (ext : string)
| wait_for_new_download (download_path old_state : valor) (numDownloads : Z)
| quit (driver : valor).

Inductive respuesta :=
| Devuelve (v : valor)
| Lanza (e : excepcion).

(** One constructor per [logging] call of the module, named after the tag
    the [src/mains] copy prints; the arguments are the interpolated values. *)
Inductive mensaje :=
| INFO_01 (linkMiteco : string)
| INFO_02 (intento : nat)
| WARN_01 (intento max_intentos : nat) (e : excepcion)
| ERR_01 (max_intentos : nat)
| INFO_03
| INFO_04 (numDownloads : Z) (download_path : valor)
| INFO_05 (archivos_descargados : valor)
| ERR_02 (e : excepcion)
| INFO_06
| ERR_03 (quit_error : excepcion)
| INFO_07 (regage nif_productor nif_representante : json)
| INFO_08 (nombre_residuo nombre_productor : string)
| INFO_09 (linkMiteco : string)
| ERR_04
| INFO_10 (intento : nat)
| WARN_02 (intento max_intentos : nat) (e : excepcion)
| ERR_05 (max_intentos : nat)
| INFO_11 (intento : nat)
| WARN_03 (intento max_intentos_auth : nat) (e : excepcion)
| ERR_06 (max_intentos_auth : nat)
| INFO_12 (intento : nat)
| WARN_04 (intento max_intentos : nat) (e : excepcion)
| ERR_07 (max_intentos : nat)
| INFO_13 (download_path : valor)
| INFO_14 (nombre_residuo nombre_productor : string)
| INFO_15 (archivos_descargados : valor)
| ERR_08 (regage nif_productor nif_representante : json) (e : excepcion)
| ERR_09 (regage nif_productor nif_representante : json) (e : excepcion)
| ERR_10 (regage nif_productor nif_representante : json) (e : excepcion)
| INFO_16 (nombre_residuo nombre_productor : string)
| ERR_11 (quit_error : excepcion)
| ERR_12 (output_base : ruta)
| ERR_13 (output_base : ruta)
| INFO_17 (max_registros : Z)
| INFO_18 (n max_registros : Z) (archivo_json : string)
| ERR_14 (ruta_json : ruta) (e : excepcion)
| INFO_19 (nombre : string) (destino : ruta)
| ERR_15 (ruta_json : ruta) (e : excepcion)
| INFO_20
| INFO_21 (registros_procesados : Z).



(** What a run leaves behind, in order: calls to the helpers with their
    outcome, log records, and [time.sleep] (in milliseconds). *)
Inductive evento :=
| EvLlamada (l : llamada) (r : respuesta)
| EvLog (m : mensaje)
| EvSleep (ms : nat).

(** ** The file system below [BASE_DIR] *)

(** A record file is seen through [json.load]: it parses or it does not. *)
Inductive contenido :=
| Registro (j : json)
| Malformado (msg : string).

Inductive nodo :=
| Fichero (c : contenido)
| Directorio (hijos : gmap string nodo).

(** The two copies of the module. *)
Inductive version := Raiz | Mains.

(** ** Program state *)

(** [raiz]: the entries of [BASE_DIR] (paths are component lists relative to
    it). [info]: the module-level dictionary read from
    [informacionCertsMetalls.txt]. [oraculo]/[reloj]: the outcome of the
    n-th call into a helper; quantifying over the oracle quantifies over
    every behaviour of browser, portal and download folder. [locales]: the
    local variables of the running function that are re-assigned. *)
Record estado := Estado {
  raiz : gmap string nodo;
  info : gmap string string;
  oraculo : nat → respuesta;
  reloj : nat;
  traza : list evento;
  locales : gmap string valor
}.

Definition con_raiz (r : gmap string nodo) (s : estado) : estado :=
  Estado r (info s) (oraculo s) (reloj s) (traza s) (locales s).
Definition con_traza (t : list evento) (s : estado) : estado :=
  Estado (raiz s) (info s) (oraculo s) (reloj s) t (locales s).
Definition con_reloj (n : nat) (s : estado) : estado :=
  Estado (raiz s) (info s) (oraculo s) n (traza s) (locales s).
Definition con_locales (l : gmap string valor) (s : estado) : estado :=
  Estado (raiz s) (info s) (oraculo s) (reloj s) (traza s) l.

Definition anotar (ev : evento) (s : estado) : estado :=
  con_traza (traza s ++ [ev]) s.

(** ** Control flow *)

(** How a block of statements ends other than by falling through. *)
Inductive abrupto :=
| Retorno (v : valor)
| Excepcion (e : excepcion)
| Break
| Continue.

Inductive resultado (A : Type) :=
| Normal (a : A)
| Abrupto (c : abrupto).
Arguments Normal {A} a.
Arguments Abrupto {A} c.

Definition M (A : Type) : Type := estado → resultado A * estado.

Definition ret {A} (a : A) : M A := λ s, (Normal a, s).

Definition bind {A B} (m : M A) (k : A → M B) : M B :=
  λ s, match m s with
       | (Normal a, s') => k a s'
       | (Abrupto c, s') => (Abrupto c, s')
       end.

#[global] Instance M_ret : MRet M := @ret.
#[global] Instance M_bind : MBind M := λ A B k m, bind m k.
#[global] Instance M_fmap : FMap M := λ A B f m, bind m (λ a, ret (f a)).

Definition return_ {A} (v : valor) : M A := λ s, (Abrupto (Retorno v), s).
Definition raise {A} (e : excepcion) : M A := λ s, (Abrupto (Excepcion e), s).
Definition break_ {A} : M A := λ s, (Abrupto Break, s).
Definition continue_ {A} : M A := λ s, (Abrupto Continue, s).

(** [try: cuerpo except Exception as e: manejador(e)]. *)
Definition try_except {A} (cuerpo : M A) (manejador : excepcion → M A) : M A :=
  λ s, match cuerpo s with
       | (Abrupto (Excepcion e), s') => manejador e s'
       | r => r
       end.

(** [try: cuerpo finally: final]; whatever ends [final] abruptly wins. *)
Definition try_finally {A} (cuerpo : M A) (final : M unit) : M A :=
  λ s, let '(r, s') := cuerpo s in
       match final s' with
       | (Normal _, s'') => (r, s'')
       | (Abrupto c, s'') => (Abrupto c, s'')
       end.

(** [for x in xs: cuerpo(x) else: sino]. *)
Fixpoint for_in {X} (xs : list X) (cuerpo : X → M unit) (sino : M unit) : M unit :=
  match xs with
  | [] => sino
  | x :: xs' =>
      λ s, match cuerpo x s with
           | (Normal _, s') | (Abrupto Continue, s') => for_in xs' cuerpo sino s'
           | (Abrupto Break, s') => (Normal tt, s')
           | (Abrupto c, s') => (Abrupto c, s')
           end
  end.

(** A function body: fresh local variables, [return] and falling off the
    end give the value, an exception goes on to the caller. *)
Definition def_ (cuerpo : M unit) : M valor :=
  λ s, let marco := locales s in
       match cuerpo (con_locales ∅ s) with
       | (Normal _, s') => (Normal VNone, con_locales marco s')
       | (Abrupto (Retorno v), s') => (Normal v, con_locales marco s')
       | (Abrupto (Excepcion e), s') => (Abrupto (Excepcion e), con_locales marco s')
       | (Abrupto _, s') => (Normal VNone, con_locales marco s')
       end.

Definition asignar (x : string) (v : valor) : M unit :=
  λ s, (Normal tt, con_locales (<[x := v]> (locales s)) s).

Definition leer (x : string) : M valor :=
  λ s, (Normal (default VNone (locales s !! x)), s).

Definition entero (v : valor) : Z := match v with VInt z => z | _ => 0%Z end.

(** [logging.info/warning/error]. *)
Definition registrar (m : mensaje) : M unit := λ s, (Normal tt, anotar (EvLog m) s).

(** [time.sleep]. *)
Definition sleep (ms : nat) : M unit := λ s, (Normal tt, anotar (EvSleep ms) s).

(** A call into a helper module: the oracle decides how it ends. *)
Definition externo (l : llamada) : M valor :=
  λ s, let r := oraculo s (reloj s) in
       let s' := con_reloj (S (reloj s)) (anotar (EvLlamada l r) s) in
       match r with
       | Devuelve v => (Normal v, s')
       | Lanza e => (Abrupto (Excepcion e), s')
       end.

(** [info.get(clave)]. *)
Definition info_get (clave : string) : M valor :=
  λ s, (Normal (from_option VStr VNone (info s !! clave)), s).

(** ** File-system operations *)

Fixpoint buscar (p : ruta) (n : nodo) : option nodo :=
  match p with
  | [] => Some n
  | x :: p' =>
      match n with
      | Directorio m => m !! x ≫= buscar p'
      | Fichero _ => None
      end
  end.

(** [os.makedirs(p, exist_ok=True)] below the node [n] ([None]: nothing
    there yet); the class of the [OSError] when a file is in the way. *)
Fixpoint crear (p : ruta) (n : option nodo) : nodo + clase :=
  match n, p with
  | Some (Fichero _), [] => inr FileExistsError
  | Some (Fichero _), _ :: _ => inr NotADirectoryError
  | Some (Directorio m), [] => inl (Directorio m)
  | None, [] => inl (Directorio ∅)
  | Some (Directorio m), x :: p' =>
      match crear p' (m !! x) with
      | inl n' => inl (Directorio (<[x := n']> m))
      | inr c => inr c
      end
  | None, x :: p' =>
      match crear p' None with
      | inl n' => inl (Directorio {[x := n']})
      | inr c => inr c
      end
  end.

(** Put [nuevo] at [p] (its parent must be a directory), replacing what
    was there. *)
Fixpoint poner (p : ruta) (nuevo : nodo) (n : nodo) : option nodo :=
  match p with
  | [] => Some nuevo
  | x :: p' =>
      match n with
      | Directorio m =>
          match p' with
          | [] => Some (Directorio (<[x := nuevo]> m))
          | _ :: _ =>
              h ← m !! x; h' ← poner p' nuevo h; Some (Directorio (<[x := h']> m))
          end
      | Fichero _ => None
      end
  end.

(** Remove the entry at [p], if any. *)
Fixpoint quitar (p : ruta) (n : nodo) : nodo :=
  match p, n with
  | x :: p', Directorio m =>
      match p' with
      | [] => Directorio (delete x m)
      | _ :: _ => Directorio (alter (quitar p') x m)
      end
  | _, _ => n
  end.

Definition raiz_nodo (s : estado) : nodo := Directorio (raiz s).

Definition existe (s : estado) (p : ruta) : bool :=
  bool_decide (is_Some (buscar p (raiz_nodo s))).

Definition es_directorio (s : estado) (p : ruta) : bool :=
  match buscar p (raiz_nodo s) with
  | Some (Directorio _) => true
  | _ => false
  end.

(** [os.path.join(p, nombre)] for a name that is one path component; an
    empty name leaves [p]. Names holding a separator, [.] or [..] are not
    interpreted. *)
Definition os_path_join (p : ruta) (nombre : string) : ruta :=
  if String.eqb nombre "" then p else p ++ [nombre].

Definition os_path_basename (p : ruta) : string := List.last p "".

Definition os_path_exists (p : ruta) : M bool := λ s, (Normal (existe s p), s).

Definition os_path_isdir (p : ruta) : M bool := λ s, (Normal (es_directorio s p), s).

(** [os.listdir]: the entry names, in the order the directory gives them. *)
Definition os_listdir (p : ruta) : M (list string) :=
  λ s, match buscar p (raiz_nodo s) with
       | Some (Directorio m) => (Normal (map_to_list m).*1, s)
       | Some (Fichero _) => (Abrupto (Excepcion (Exc NotADirectoryError "listdir")), s)
       | None => (Abrupto (Excepcion (Exc FileNotFoundError "listdir")), s)
       end.

(** [open(p, "r", encoding="utf-8")]. *)
Definition open_ (p : ruta) : M contenido :=
  λ s, match buscar p (raiz_nodo s) with
       | Some (Fichero c) => (Normal c, s)
       | Some (Directorio _) => (Abrupto (Excepcion (Exc IsADirectoryError "open")), s)
       | None => (Abrupto (Excepcion (Exc FileNotFoundError "open")), s)
       end.

Definition json_load (f : contenido) : M json :=
  match f with
  | Registro j => ret j
  | Malformado msg => raise (Exc JSONDecodeError msg)
  end.

(** [os.makedirs(p, exist_ok=True)]. *)
Definition os_makedirs (p : ruta) : M unit :=
  λ s, match crear p (Some (raiz_nodo s)) with
       | inl (Directorio m) => (Normal tt, con_raiz m s)
       | inl (Fichero _) => (Normal tt, s)
       | inr c => (Abrupto (Excepcion (Exc c "makedirs")), s)
       end.

(** [shutil.move(src, dst)]: into [dst] when it is a directory (an entry of
    that name already there is an error), else onto [dst] itself, which
    replaces a file that is there. On an error nothing has moved. *)
Definition shutil_move (src dst : ruta) : M unit :=
  λ s, match buscar src (raiz_nodo s) with
       | None => (Abrupto (Excepcion (Exc FileNotFoundError "move")), s)
       | Some n =>
           let real_dst := if es_directorio s dst then dst ++ [os_path_basename src] else dst in
           if es_directorio s dst && existe s real_dst
           then (Abrupto (Excepcion (Exc ShutilError "Destination path already exists")), s)
           else match poner real_dst n (quitar src (raiz_nodo s)) with
                | Some (Directorio m) => (Normal tt, con_raiz m s)
                | _ => (Abrupto (Excepcion (Exc FileNotFoundError "move")), s)
                end
       end.

(** ** Records *)

(** [str(x)] as an f-string interpolates it ([repr] inside containers,
    without escapes). *)
Fixpoint py_repr (j : json) : string :=
  match j with
  | JNull => "None"
  | JBool true => "True"
  | JBool false => "False"
  | JNum r => r
  | JStr s => "'" +:+ s +:+ "'"
  | JArr l =>
      "[" +:+ (fix elems (l : list json) : string :=
                 match l with
                 | [] => ""
                 | [x] => py_repr x
                 | x :: r => py_repr x +:+ ", " +:+ elems r
                 end) l +:+ "]"
  | JObj o =>
      "{" +:+ (fix items (o : list (string * json)) : string :=
                 match o with
                 | [] => ""
                 | [(k, x)] => "'" +:+ k +:+ "': " +:+ py_repr x
                 | (k, x) :: r => "'" +:+ k +:+ "': " +:+ py_repr x +:+ ", " +:+ items r
                 end) o +:+ "}"
  end.

Definition py_str (j : json) : string :=
  match j with
  | JStr s => s
  | _ => py_repr j
  end.

Fixpoint campo (clave : string) (campos : list (string * json)) : option json :=
  match campos with
  | [] => None
  | (k, x) :: r => if String.eqb k clave then Some x else campo clave r
  end.

(** [registro.get(clave, defecto)]: only a dict has [get]. *)
Definition dict_get (registro : json) (clave : string) (defecto : json) : M json :=
  match registro with
  | JObj campos => ret (default defecto (campo clave campos))
  | _ => raise (Exc AttributeError "object has no attribute 'get'")
  end.

(** [x.replace(old, new)]: only a str has [replace]. *)
Definition str_replace (old : ascii) (new : string) (x : json) : M json :=
  match x with
  | JStr s => ret (JStr (replace old new s))
  | _ => raise (Exc AttributeError "object has no attribute 'replace'")
  end.

(** ** RegageMetalls.py *)

Section Programa.

(** Which copy of the module runs. *)
Variable ver : version.

(** In the [src/mains] copy [get_linkMiteco] also logs the link. *)
Definition get_linkMiteco_log (regage_val nif_productor nif_representante : json)
  : M string :=
  let linkMiteco :=
    get_linkMiteco (py_str regage_val) (py_str nif_productor) (py_str nif_representante) in
  match ver with
  | Mains => registrar (INFO_01 linkMiteco);; mret linkMiteco
  | Raiz => mret linkMiteco
  end.

(** The four steps of one authentication attempt (lines 68-71). *)
Definition pasos_autenticacion (driver : valor) : M unit :=
  externo (esperar_elemento_por_id driver "breadcrumb");;
  externo (clickar_boton_por_value driver "acceder");;
  externo (clickar_boton_por_texto driver "Acceso DNIe / Certificado electrónico");;
  nombre ← info_get "NOMBRE_CERT";
  externo (seleccionar_certificado_chrome nombre);;
  mret tt.

(** [autenticar_y_seleccionar_certificado] with its local constant
    [max_intentos] as an argument. *)
Definition autenticar_con_max (max_intentos : nat) (driver : valor) : M valor :=
  def_ (
    for_in (seq 1 max_intentos)
      (λ intento,
        try_except
          (pasos_autenticacion driver;;
           registrar (INFO_02 intento);;
           break_)
          (λ e,
            registrar (WARN_01 intento max_intentos e);;
            sleep 500))
      (registrar (ERR_01 max_intentos);;
       raise (Exc Exception_ "Fallo en la autenticación tras varios intentos"))).

(** [autenticar_y_seleccionar_certificado], lines 60-79. *)
Definition autenticar_y_seleccionar_certificado (driver : valor) : M valor :=
  autenticar_con_max 100 driver.

(** [descargar_documentos], lines 81-108. *)
Definition descargar_documentos (driver download_path : valor) (numDownloads : Z)
  : M valor :=
  def_ (
    asignar "archivos_descargados" (VLista []);;
    old_state ← externo (snapshot_folder_state download_path);
    try_finally
      (try_except
         (externo (clickar_todos_los_links driver ".pdf");;
          registrar INFO_03;;
          registrar (INFO_04 numDownloads download_path);;
          archivos ← externo (wait_for_new_download download_path old_state numDownloads);
          asignar "archivos_descargados" archivos;;
          registrar (INFO_05 archivos))
         (λ e, registrar (ERR_02 e)))
      (try_except
         (externo (quit driver);;
          registrar INFO_06)
         (λ quit_error, registrar (ERR_03 quit_error)));;
    archivos_descargados ← leer "archivos_descargados";
    return_ archivos_descargados).

(** "Intentar abrir la web con reintentos", lines 136-148. *)
Definition abrir_con_reintentos (max_intentos : nat) (driver : valor) (linkMiteco : string)
  : M unit :=
  for_in (seq 1 max_intentos)
    (λ intento,
      try_except
        (externo (abrir_web driver linkMiteco);;
         registrar (INFO_10 intento);;
         break_)
        (λ e,
          registrar (WARN_02 intento max_intentos e);;
          sleep 500))
    (registrar (ERR_05 max_intentos);;
     return_ VNone).

(** "Autenticar y seleccionar certificado con reintentos", lines 150-162. *)
Definition autenticar_con_reintentos (max_intentos_auth : nat) (driver : valor) : M unit :=
  for_in (seq 1 max_intentos_auth)
    (λ intento,
      try_except
        (autenticar_y_seleccionar_certificado driver;;
         registrar (INFO_11 intento);;
         break_)
        (λ e,
          registrar (WARN_03 intento max_intentos_auth e);;
          sleep 500))
    (registrar (ERR_06 max_intentos_auth);;
     return_ VNone).

(** "Volver a abrir el enlace después de la autenticación con reintentos",
    lines 164-175. *)
Definition reabrir_con_reintentos (max_intentos : nat) (driver : valor) (linkMiteco : string)
  : M unit :=
  for_in (seq 1 max_intentos)
    (λ intento,
      try_except
        (externo (abrir_web driver linkMiteco);;
         registrar (INFO_12 intento);;
         break_)
        (λ e,
          registrar (WARN_04 intento max_intentos e);;
          sleep 500))
    (registrar (ERR_07 max_intentos);;
     return_ VNone).

(** The five fields read before the [try] (lines 115-119). *)
Definition leer_campos (registro : json) : M (json * json * json * string * string) :=
  regage ← dict_get registro "regage" (JStr "");
  nif_productor ← dict_get registro "nif_productor" (JStr "");
  nif_representante ← dict_get registro "nif_representante" (JStr "");
  nombre_productor ←
    (dict_get registro "nombre_productor" (JStr "desconocido") ≫= str_replace " " "_");
  nombre_residuo ←
    ((dict_get registro "nombre_residuo" (JStr "desconocido")
        ≫= str_replace " " "_") ≫= str_replace "*" "");
  mret (regage, nif_productor, nif_representante,
        py_str nombre_productor, py_str nombre_residuo).

(** [procesar_registro], lines 110-205. *)
Definition procesar_registro (registro : json) : M valor :=
  def_ (
    '(regage, nif_productor, nif_representante, nombre_productor, nombre_residuo)
      ← leer_campos registro;
    asignar "driver" VNone;;
    registrar (INFO_07 regage nif_productor nif_representante);;
    try_finally
      (try_except
         (linkMiteco ← get_linkMiteco_log regage nif_productor nif_representante;
          registrar (INFO_08 nombre_residuo nombre_productor);;
          registrar (INFO_09 linkMiteco);;
          d ← externo configure;
          asignar "driver" d;;
          driver ← leer "driver";
          (if negb (verdadero driver)
           then registrar ERR_04;; return_ VNone
           else mret tt);;
          let max_intentos := 5000 in
          abrir_con_reintentos max_intentos driver linkMiteco;;
          let max_intentos_auth := 5000 in
          autenticar_con_reintentos max_intentos_auth driver;;
          reabrir_con_reintentos max_intentos driver linkMiteco;;
          download_path ← externo (setup_descarga driver nombre_productor nombre_residuo);
          match ver with
          | Mains => registrar (INFO_13 download_path)
          | Raiz => mret tt
          end;;
          archivos_descargados ← descargar_documentos driver download_path 2;
          asignar "driver" VNone;;
          registrar (INFO_14 nombre_residuo nombre_productor);;
          registrar (INFO_15 archivos_descargados);;
          return_ archivos_descargados)
         (λ e,
           if isinstance e TimeoutException then
             registrar (ERR_08 regage nif_productor nif_representante e);;
             return_ VNone
           else if isinstance e WebDriverException then
             registrar (ERR_09 regage nif_productor nif_representante e);;
             return_ VNone
           else
             registrar (ERR_10 regage nif_productor nif_representante e);;
             return_ VNone))
      (driver ← leer "driver";
       if verdadero driver then
         try_except
           (externo (quit driver);;
            registrar (INFO_16 nombre_residuo nombre_productor))
           (λ quit_error, registrar (ERR_11 quit_error))
       else mret tt)).

(** Where a processed record goes (root copy: line 245; [src/mains]:
    lines 246-247). *)
Definition trash_dir (registro : json) : M ruta :=
  match ver with
  | Raiz => mret ["trash"]
  | Mains =>
      nombre_productor ←
        (dict_get registro "nombre_productor" (JStr "desconocido") ≫= str_replace " " "_");
      mret (os_path_join ["trash"] (py_str nombre_productor))
  end.

(** The body of the inner [for] of [procesar_multiple_regages]. *)
Definition procesar_archivo (max_registros : Z) (carpeta : ruta) (archivo_json : string)
  : M unit :=
  registros_procesados ← entero <$> leer "registros_procesados";
  (if (max_registros <=? registros_procesados)%Z
   then registrar (INFO_17 max_registros);; return_ VNone
   else mret tt);;
  let ruta_json := os_path_join carpeta archivo_json in
  registrar (INFO_18 (registros_procesados + 1) max_registros archivo_json);;
  f ← open_ ruta_json;
  registro ← try_except (json_load f)
                        (λ e, registrar (ERR_14 ruta_json e);; continue_);
  procesar_registro registro;;
  asignar "registros_procesados" (VInt (registros_procesados + 1));;
  trash ← trash_dir registro;
  os_makedirs trash;;
  let destino := os_path_join trash (os_path_basename ruta_json) in
  try_except
    (shutil_move ruta_json destino;;
     registrar (INFO_19 (os_path_basename ruta_json) destino))
    (λ e, registrar (ERR_15 ruta_json e));;
  registrar INFO_20;;
  sleep 10000.

(** [procesar_multiple_regages], lines 207-258. *)
Definition procesar_multiple_regages (max_registros : Z) : M valor :=
  def_ (
    let output_base := os_path_join [] "output" in
    hay ← os_path_exists output_base;
    (if negb hay
     then registrar (ERR_12 output_base);; return_ VNone
     else mret tt);;
    nombres ← os_listdir output_base;
    s ← (λ s, (Normal s, s));
    let carpetas :=
      os_path_join output_base <$>
        List.filter (λ d, es_directorio s (os_path_join output_base d)) nombres in
    (if bool_decide (carpetas = [])
     then registrar (ERR_13 output_base);; return_ VNone
     else mret tt);;
    asignar "registros_procesados" (VInt 0);;
    for_in carpetas
      (λ carpeta,
        nombres ← os_listdir carpeta;
        let archivos_json := List.filter (λ f, endswith ".json" (lower f)) nombres in
        for_in archivos_json (procesar_archivo max_registros carpeta) (mret tt))
      (mret tt);;
    registros_procesados ← entero <$> leer "registros_procesados";
    registrar (INFO_21 registros_procesados)).

(** [if __name__ == "__main__"]: the default limit. *)
Definition main : M valor := procesar_multiple_regages 100.

End Programa.

(** ** config.py *)

(** The whitespace [str.strip()] removes, among the ASCII characters:
    tab to carriage return, the four separators, and the space. *)
Definition es_espacio (a : ascii) : bool :=
  let n := nat_of_ascii a in
  ((9 <=? n)%nat && (n <=? 13)%nat) || ((28 <=? n)%nat && (n <=? 32)%nat).

Fixpoint lstrip (s : string) : string :=
  match s with
  | EmptyString => EmptyString
  | String a s' => if es_espacio a then lstrip s' else s
  end.

Fixpoint rstrip (s : string) : string :=
  match s with
  | EmptyString => EmptyString
  | String a s' =>
      match rstrip s' with
      | EmptyString => if es_espacio a then EmptyString else String a EmptyString
      | r => String a r
      end
  end.

(** [s.strip()]. *)
Definition strip (s : string) : string := rstrip (lstrip s).

(** One turn of the loop of [cargar_variables], lines 14-19: blank lines,
    comment lines and lines without [=] are passed over; any other line
    is cut at its first [=] (the [line.split('=', 1)] of line 18). *)
Definition cargar_linea (strings : gmap string string) (line : string)
  : gmap string string :=
  let line := strip line in
  if negb (String.eqb line "") && negb (String.prefix "#" line) then
    if aparece "=" line then
      let key := hasta "=" line in
      let value := tras "=" line in
      <[strip key := strip value]> strings
    else strings
  else strings.

(** [cargar_variables], lines 11-20, on the lines the opened file yields,
    taken as ASCII text. *)
Definition cargar_variables (lineas : list string) : gmap string string :=
  foldl cargar_linea ∅ lineas.

(** ** Statements about runs *)

(** [wp m Φ s]: running [m] from [s] ends in a result and a state that
    satisfy [Φ]. Every computation is a total function, so this is a
    statement about the one run there is. *)
Definition wp {A} (m : M A) (Φ : resultado A → estado → Prop) (s : estado) : Prop :=
  Φ (m s).1 (m s).2.

(** The value a function body hands to its caller. *)
Definition salida_def (r : resultado unit) : resultado valor :=
  match r with
  | Abrupto (Retorno v) => Normal v
  | Abrupto (Excepcion e) => Abrupto (Excepcion e)
  | _ => Normal VNone
  end.

(** The state right after a call into a helper. *)
Definition tras_llamada (l : llamada) (s : estado) : estado :=
  con_reloj (S (reloj s)) (anotar (EvLlamada l (oraculo s (reloj s))) s).

(** [sigue P s s']: [s'] comes after [s]: the trace grew by events that
    satisfy [P], the oracle was only consumed, and files and configuration
    are the same. Local variables are not constrained. *)
Definition sigue (P : evento → Prop) (s s' : estado) : Prop :=
  (∃ t, traza s' = traza s ++ t ∧ Forall P t) ∧
  raiz s' = raiz s ∧ info s' = info s ∧ oraculo s' = oraculo s ∧ reloj s ≤ reloj s'.

(** *** Retry loops *)

(** The shape the four retry loops of the module share: up to
    [max_intentos] attempts of [accion]; a success logs [exito intento] and
    leaves the loop, a failure logs [aviso intento max_intentos e] and
    sleeps 500 ms; [agotado] is the [else] branch. *)
Definition bucle_reintento {A} (max_intentos : nat) (accion : M A)
    (exito : nat → mensaje) (aviso : nat → nat → excepcion → mensaje)
    (agotado : M unit) : M unit :=
  for_in (seq 1 max_intentos)
    (λ intento,
      try_except
        (accion;; registrar (exito intento);; break_)
        (λ e, registrar (aviso intento max_intentos e);; sleep 500))
    agotado.

(** [fallos accion aviso max i n s]: from [s], [accion] is run [n] times
    in a row, as attempts [i], [i+1], ..., and raises every time; after
    each failure the warning is logged and 500 ms are slept. Gives the
    exceptions raised and the state reached, [None] if some attempt does
    not raise. *)
Fixpoint fallos {A} (accion : M A) (aviso : nat → nat → excepcion → mensaje)
    (max i n : nat) (s : estado) : option (list excepcion * estado) :=
  match n with
  | 0 => Some ([], s)
  | S n' =>
      match accion s with
      | (Abrupto (Excepcion e), s1) =>
          match fallos accion aviso max (S i) n'
                  (anotar (EvSleep 500) (anotar (EvLog (aviso i max e)) s1)) with
          | Some (es, s2) => Some (e :: es, s2)
          | None => None
          end
      | _ => None
      end
  end.

(** The callee's view of the state: its own, empty, local variables. *)
Definition marco_nuevo (s : estado) : estado := con_locales ∅ s.

(** The calls of a run that satisfy [f]. *)
Definition n_llamadas (f : llamada → bool) (t : list evento) : nat :=
  length (List.filter (λ ev, match ev with EvLlamada l _ => f l | _ => false end) t).

Definition es_abrir_web (l : llamada) : bool :=
  match l with abrir_web _ _ => true | _ => false end.

Definition es_esperar (l : llamada) : bool :=
  match l with esperar_elemento_por_id _ _ => true | _ => false end.

Definition es_quit (l : llamada) : bool :=
  match l with quit _ => true | _ => false end.

Definition es_configure (l : llamada) : bool :=
  match l with configure => true | _ => false end.

(** The events a run added to the trace. *)
Definition nuevos (s s' : estado) : list evento := drop (length (traza s)) (traza s').

Definition es_llamada (ev : evento) : bool :=
  match ev with EvLlamada _ _ => true | _ => false end.

(** What a run logged and slept, in order. *)
Definition sin_llamadas (t : list evento) : list evento :=
  List.filter (λ ev, negb (es_llamada ev)) t.

(** The warnings and pauses of failed attempts [i], [i+1], ... that raised
    [es]. *)
Fixpoint avisos_y_pausas (aviso : nat → nat → excepcion → mensaje) (max i : nat)
    (es : list excepcion) : list evento :=
  match es with
  | [] => []
  | e :: es' => EvLog (aviso i max e) :: EvSleep 500 :: avisos_y_pausas aviso max (S i) es'
  end.

(** An action that only calls helpers, exactly one of the calls being of
    the kind [f]. *)
Definition solo_llama {A} (f : llamada → bool) (accion : M A) : Prop :=
  ∀ s, ∃ t, traza (accion s).2 = traza s ++ t
            ∧ List.filter (λ ev, negb (es_llamada ev)) t = []
            ∧ n_llamadas f t = 1.

(** *** Sample runs *)

(** A start state with nothing on disk, no configuration and the given
    oracle. *)
Definition estado_de (o : nat → respuesta) : estado := Estado ∅ ∅ o 0 [] ∅.

(** Every helper call raises a timeout. *)
Definition siempre_falla : nat → respuesta :=
  λ _, Lanza (Exc TimeoutException "timeout").

(** The first [n] helper calls raise a timeout, the later ones return. *)
Definition falla_n_veces (n : nat) : nat → respuesta :=
  λ i, if i <? n then Lanza (Exc TimeoutException "timeout") else Devuelve (VObjeto 1).

(** *** Records as [procesar_registro] reads them *)

Definition es_texto_o_falta (clave : string) (campos : list (string * json)) : bool :=
  match campo clave campos with
  | None | Some (JStr _) => true
  | Some _ => false
  end.

(** The record is a dict whose two name fields, when present, are
    strings: the reads of lines 115-119 go through. *)
Definition campos_legibles (registro : json) : bool :=
  match registro with
  | JObj campos =>
      es_texto_o_falta "nombre_productor" campos && es_texto_o_falta "nombre_residuo" campos
  | _ => false
  end.

Definition texto_de (clave defecto : string) (campos : list (string * json)) : string :=
  match campo clave campos with
  | Some (JStr s) => s
  | _ => defecto
  end.

(** The folder-naming fields after lines 118-119. *)
Definition nombre_productor_de (campos : list (string * json)) : string :=
  replace " " "_" (texto_de "nombre_productor" "desconocido" campos).

Definition nombre_residuo_de (campos : list (string * json)) : string :=
  replace "*" "" (replace " " "_" (texto_de "nombre_residuo" "desconocido" campos)).

(** The events [procesar_registro] adds after its opening log line: its
    own log records, 500 ms pauses and helper calls, [setup_descarga] being
    called with the given folder names. *)
Definition propio_de_registro (nombre_productor nombre_residuo : string) (ev : evento) : bool :=
  match ev with
  | EvSleep ms => ms =? 500
  | EvLog m =>
      match m with
      | INFO_07 _ _ _ | ERR_12 _ | ERR_13 _ | INFO_17 _ | INFO_18 _ _ _ | ERR_14 _ _
      | INFO_19 _ _ | ERR_15 _ _ | INFO_20 | INFO_21 _ => false
      | _ => true
      end
  | EvLlamada (setup_descarga _ np nr) _ =>
      String.eqb np nombre_productor && String.eqb nr nombre_residuo
  | EvLlamada _ _ => true
  end.

(** [estable P m]: whatever [m] adds to the trace satisfies [P], and [m]
    leaves files, configuration and oracle alone. *)
Definition estable {A} (P : evento → Prop) (m : M A) : Prop :=
  ∀ s0 s, sigue P s0 s → sigue P s0 (m s).2.

(** [no_lanza m]: [m] never ends by raising. *)
Definition no_lanza {A} (m : M A) : Prop :=
  ∀ s e, (m s).1 ≠ Abrupto (Excepcion e).

(** A record whose producer name holds the marker character. *)
Definition registro_con_asterisco : json :=
  JObj [("regage", JStr "NT1"); ("nombre_productor", JStr "A*B C")].

(** A record whose producer name is JSON [null]. *)
Definition registro_nombre_nulo : json :=
  JObj [("regage", JStr "NT1"); ("nif_productor", JStr "B1");
        ("nif_representante", JStr "X1"); ("nombre_productor", JNull)].

(** [setup_descarga] called for these folder names. *)
Definition carpeta_pedida (np nr : string) (l : llamada) : bool :=
  match l with
  | setup_descarga _ a b => String.eqb a np && String.eqb b nr
  | _ => false
  end.

(** *** Browser handles *)

(** The usable browser handle an event created, if any. *)
Definition creado_de (ev : evento) : option valor :=
  match ev with
  | EvLlamada configure (Devuelve d) => if verdadero d then Some d else None
  | _ => None
  end.

(** The handle on which an event called [quit], if any. *)
Definition cierre_de (ev : evento) : option valor :=
  match ev with
  | EvLlamada (quit d) _ => Some d
  | _ => None
  end.

Definition creados (t : list evento) : list valor := omap creado_de t.
Definition cierres (t : list evento) : list valor := omap cierre_de t.

(** Since [s0] the handles [c] were created and [q] were quit. *)
Definition rastro (s0 : estado) (c q : list valor) (s : estado) : Prop :=
  ∃ t, traza s = traza s0 ++ t ∧ creados t = c ∧ cierres t = q.

(** The value of the local variable [driver]. *)
Definition var_driver (s : estado) : valor := default VNone (locales s !! "driver").

(** What links the variable [driver] of [procesar_registro] to the
    browser calls made since [s0]: at most one handle was created, and the
    handles created are those already quit plus the one [driver] still
    holds. *)
Definition invariante_navegador (s0 s : estado) : Prop :=
  ∃ cs qs, rastro s0 cs qs s
           ∧ length cs ≤ 1
           ∧ cs = qs ++ (if verdadero (var_driver s) then [var_driver s] else []).

(** While the handle [d] is held: created, not quit, in [driver]. *)
Definition con_navegador (s0 : estado) (d : valor) (s : estado) : Prop :=
  rastro s0 [d] [] s ∧ locales s !! "driver" = Some d ∧ verdadero d = true.

(** *** The batch *)

(** The counter [registros_procesados] of [procesar_multiple_regages]. *)
Definition var_contador (s : estado) : Z :=
  entero (default VNone (locales s !! "registros_procesados")).

(** The events of a run that satisfy [f]. *)
Definition n_eventos (f : evento → bool) (t : list evento) : nat :=
  length (List.filter f t).


(** A record file that did not parse was reported. *)
Definition es_error_lectura (ev : evento) : bool :=
  match ev with EvLog (ERR_14 _ _) => true | _ => false end.


(** The archive directory of a record: [trash] in the root copy,
    [trash/<producer>] in the [src/mains] copy. *)
Definition carpeta_de_archivo (ver : version) (campos : list (string * json)) : ruta :=
  match ver with
  | Raiz => ["trash"]
  | Mains => os_path_join ["trash"] (nombre_productor_de campos)
  end.

(** The archiving steps that end the loop body (root copy: lines 244-256),
    for the archive directory [trash] and the record file [ruta_json]. *)
Definition archivar (trash ruta_json : ruta) : M unit :=
  os_makedirs trash;;
  let destino := os_path_join trash (os_path_basename ruta_json) in
  try_except
    (shutil_move ruta_json destino;;
     registrar (INFO_19 (os_path_basename ruta_json) destino))
    (λ e, registrar (ERR_15 ruta_json e));;
  registrar INFO_20;;
  sleep 10000.

Definition es_directorio_nodo (n : nodo) : bool :=
  match n with Directorio _ => true | Fichero _ => false end.

(** No file stands where the archive directories go: [trash] is absent or
    a directory and, in the [src/mains] copy, so is everything in it. *)
Definition archivo_despejado (ver : version) (R : gmap string nodo) : Prop :=
  match R !! "trash" with
  | None => True
  | Some (Fichero _) => False
  | Some (Directorio t) =>
      match ver with
      | Raiz => True
      | Mains => map_Forall (λ _ n, es_directorio_nodo n = true) t
      end
  end.

(** A name that is one path component. *)
Definition es_componente (x : string) : bool :=
  negb (String.eqb x "") && negb (String.eqb x ".") && negb (String.eqb x "..")
  && negb (Cadenas.aparece "/" x) && negb (Cadenas.aparece "\" x).

(** The entries of a directory node; nothing for a file or a missing
    node. *)
Definition hijos_de (n : option nodo) : gmap string nodo :=
  match n with
  | Some (Directorio t) => t
  | _ => ∅
  end.

Definition no_es_directorio (n : option nodo) : Prop :=
  match n with
  | Some (Directorio _) => False
  | _ => True
  end.

(** *** Well-formed batches *)

(** A record the batch can take: it parses to a dict whose name fields
    are strings and, where the producer name becomes a directory name
    ([src/mains]), that name is one path component; or it does not parse
    at all. *)
Definition registro_admisible (ver : version) (c : contenido) : bool :=
  match c with
  | Malformado _ => true
  | Registro j =>
      campos_legibles j
      && match ver, j with
         | Raiz, _ => true
         | Mains, JObj campos => es_componente (nombre_productor_de campos)
         | Mains, _ => false
         end
  end.








(** The producer folders of [output], in listing order. *)
Definition carpetas_de (out : gmap string nodo) : list string :=
  List.filter (λ d, match out !! d with Some (Directorio _) => true | _ => false end)
    (map_to_list out).*1.



(** *** Sample trees *)

(** A start state with the given entries below [BASE_DIR] and the given
    oracle. *)
Definition estado_con (R : gmap string nodo) (o : nat → respuesta) : estado :=
  Estado R ∅ o 0 [] ∅.

(** [output/P/a.json] holds the record whose producer name is [null]. *)
Definition arbol_nombre_nulo : gmap string nodo :=
  {[ "output" :=
       Directorio {[ "P" := Directorio
                             {[ "a.json" := Fichero (Registro registro_nombre_nulo) ]} ]} ]}.

(** A record of the producer [P], and an older one of the same case file
    name. *)
Definition registro_de_P : json :=
  JObj [("regage", JStr "NT2"); ("nombre_productor", JStr "P")].

Definition registro_viejo : json :=
  JObj [("regage", JStr "NT1"); ("nombre_productor", JStr "P")].

(** [output/P] holds [a.json], a record of [P], and [b.json], which does
    not parse. *)
Definition arbol_mixto : gmap string nodo :=
  {[ "output" :=
       Directorio
         {[ "P" := Directorio
                     (<[ "a.json" := Fichero (Registro registro_de_P) ]>
                        {[ "b.json" := Fichero (Malformado "Expecting value") ]}) ]} ]}.


(** Every helper call returns. *)
Definition siempre_devuelve : nat → respuesta := λ _, Devuelve (VObjeto 1).



(** ** Facts about the string helpers *)

Section CadenasLemas.

Lemma app_assoc_s (a b c : string) : (a +:+ b) +:+ c = a +:+ b +:+ c.
Proof. induction a as [|x a IH]; simpl; [done | by rewrite IH]. Qed.


Lemma length_app_s (a b : string) :
  String.length (a +:+ b) = String.length a + String.length b.
Proof. induction a as [|x a IH]; simpl; [done | by rewrite IH]. Qed.

Lemma subcadena_intro (a p b : string) : subcadena p (a +:+ p +:+ b).
Proof. by exists a, b. Qed.

Lemma subcadena_app_l (p x s : string) : subcadena p s → subcadena p (x +:+ s).
Proof.
  intros (a & b & ->). exists (x +:+ a), b. by rewrite app_assoc_s.
Qed.

Lemma subcadena_app_r (p x s : string) : subcadena p s → subcadena p (s +:+ x).
Proof.
  intros (a & b & ->). exists a, (b +:+ x). by rewrite !app_assoc_s.
Qed.

Lemma subcadena_cons (p : string) (x : ascii) (s : string) :
  subcadena p s → subcadena p (String x s).
Proof. intros (a & b & ->). by exists (String x a), b. Qed.

Lemma subcadena_aqui (p s : string) : subcadena p (p +:+ s).
Proof. by exists "", s. Qed.

Lemma subcadena_medio (p q s : string) : subcadena p (q +:+ p +:+ s).
Proof. by exists q, s. Qed.

Lemma termina_en_app (suf x s : string) : termina_en suf s → termina_en suf (x +:+ s).
Proof. intros (a & ->). exists (x +:+ a). by rewrite app_assoc_s. Qed.

Lemma hasta_libre (c : ascii) (x s : string) :
  aparece c x = false → hasta c (x +:+ s) = x +:+ hasta c s.
Proof.
  induction x as [|a x IH]; simpl; [done |].
  destruct (Ascii.eqb a c); [done |]. intros H. by rewrite IH.
Qed.

Lemma tras_libre (c : ascii) (x s : string) :
  aparece c x = false → tras c (x +:+ s) = tras c s.
Proof.
  induction x as [|a x IH]; simpl; [done |].
  destruct (Ascii.eqb a c); [done |]. intros H. by rewrite IH.
Qed.

Lemma split_on_libre (c : ascii) (x s : string) :
  aparece c x = false →
  split_on c (x +:+ String c s) = x :: split_on c s.
Proof.
  induction x as [|a x IH]; simpl.
  - by rewrite Ascii.eqb_refl.
  - destruct (Ascii.eqb a c); [done |]. intros H. by rewrite IH.
Qed.

Lemma split_on_no_vacio (c : ascii) (s : string) : split_on c s ≠ [].
Proof.
  destruct s as [|a s]; simpl; [done |].
  destruct (Ascii.eqb a c); [done |]. by destruct (split_on c s).
Qed.

Lemma hasta_es_prefijo (c : ascii) (s : string) :
  aparece c s = true → s = hasta c s +:+ String c (tras c s).
Proof.
  induction s as [|a s IH]; simpl; [done |].
  destruct (Ascii.eqb_spec a c) as [->|]; [done |].
  intros H. simpl. f_equal. by apply IH.
Qed.

Lemma hasta_sin (c : ascii) (s : string) : aparece c (hasta c s) = false.
Proof.
  induction s as [|a s IH]; simpl; [done |].
  destruct (Ascii.eqb a c) eqn:E; simpl; [done |]. by rewrite E.
Qed.

Lemma hasta_id (c : ascii) (s : string) : aparece c s = false → hasta c s = s.
Proof.
  induction s as [|a s IH]; simpl; [done |].
  destruct (Ascii.eqb a c); [done |]. intros H. by rewrite IH.
Qed.

Lemma aparece_app (c : ascii) (a b : string) :
  aparece c (a +:+ b) = aparece c a || aparece c b.
Proof.
  induction a as [|x a IH]; simpl; [done |]. by destruct (Ascii.eqb x c).
Qed.

End CadenasLemas.

(** ** LinkBuilder: properties *)

Lemma get_linkMiteco_consulta (c p r : string) :
  sin_separadores c → sin_separadores p → sin_separadores r →
  consulta (get_linkMiteco c p r) =
    "btnDetalleProc=btnDetalleProc&pagina=1&idExpediente=" +:+ c
    +:+ "&idProcedimiento=736&idSubOrganoResp=11&idDocIdentificativo=" +:+ p
    +:+ "&idDocRepresentante=" +:+ r
    +:+ "&idEstadoSeleccionado=-1&idTipoProcSeleccionado=EN+REPRESENTACION+(REA)&regInicial="
    +:+ c +:+ "&nifTitular=" +:+ p +:+ "&numPagSolSelec=10".
Proof.
  intros [_ Hc] [_ Hp] [_ Hr]. unfold consulta, get_linkMiteco.
  repeat (simpl; rewrite ?hasta_libre by done). done.
Qed.

Lemma get_linkMiteco_parametros (c p r : string) :
  sin_separadores c → sin_separadores p → sin_separadores r →
  parametros (get_linkMiteco c p r) = estructura c p r.
Proof.
  intros Hc Hp Hr. unfold parametros.
  rewrite get_linkMiteco_consulta by done.
  destruct Hc as [Hc _], Hp as [Hp _], Hr as [Hr _].
  repeat (simpl; rewrite ?split_on_libre by done).
  reflexivity.
Qed.

Lemma get_linkMiteco_fragmento (c p r : string) :
  sin_separadores c → sin_separadores p → sin_separadores r →
  fragmento (get_linkMiteco c p r) = "no-back-button".
Proof.
  intros [_ Hc] [_ Hp] [_ Hr]. unfold fragmento, get_linkMiteco.
  repeat (simpl; rewrite ?tras_libre by done). done.
Qed.

Lemma get_linkMiteco_contiene (c p r : string) :
  let url := get_linkMiteco c p r in
  subcadena ("idExpediente=" +:+ c) url ∧
  subcadena ("regInicial=" +:+ c) url ∧
  subcadena ("idDocIdentificativo=" +:+ p) url ∧
  subcadena ("nifTitular=" +:+ p) url ∧
  subcadena ("idDocRepresentante=" +:+ r) url ∧
  subcadena "idProcedimiento=736" url ∧
  subcadena "idSubOrganoResp=11" url ∧
  subcadena "idEstadoSeleccionado=-1" url ∧
  subcadena "idTipoProcSeleccionado=EN+REPRESENTACION+(REA)" url ∧
  termina_en "numPagSolSelec=10#no-back-button" url.
Proof.
  unfold get_linkMiteco; cbv zeta.
  set (l0 := "https://sede.miteco.gob.es/portal/site/seMITECO/area_personal").
  repeat split.
  - exists (l0 +:+ "?btnDetalleProc=btnDetalleProc&pagina=1&"). eexists.
    rewrite !app_assoc_s. reflexivity.
  - exists (l0 +:+ "?btnDetalleProc=btnDetalleProc&pagina=1&idExpediente=" +:+ c
            +:+ "&idProcedimiento=736&idSubOrganoResp=11&idDocIdentificativo=" +:+ p
            +:+ "&idDocRepresentante=" +:+ r
            +:+ "&idEstadoSeleccionado=-1&idTipoProcSeleccionado=EN+REPRESENTACION+(REA)&").
    eexists. rewrite !app_assoc_s. reflexivity.
  - exists (l0 +:+ "?btnDetalleProc=btnDetalleProc&pagina=1&idExpediente=" +:+ c
            +:+ "&idProcedimiento=736&idSubOrganoResp=11&"). eexists.
    rewrite !app_assoc_s. reflexivity.
  - exists (l0 +:+ "?btnDetalleProc=btnDetalleProc&pagina=1&idExpediente=" +:+ c
            +:+ "&idProcedimiento=736&idSubOrganoResp=11&idDocIdentificativo=" +:+ p
            +:+ "&idDocRepresentante=" +:+ r
            +:+ "&idEstadoSeleccionado=-1&idTipoProcSeleccionado=EN+REPRESENTACION+(REA)&regInicial="
            +:+ c +:+ "&"). eexists.
    rewrite !app_assoc_s. reflexivity.
  - exists (l0 +:+ "?btnDetalleProc=btnDetalleProc&pagina=1&idExpediente=" +:+ c
            +:+ "&idProcedimiento=736&idSubOrganoResp=11&idDocIdentificativo=" +:+ p
            +:+ "&"). eexists.
    rewrite !app_assoc_s. reflexivity.
  - exists (l0 +:+ "?btnDetalleProc=btnDetalleProc&pagina=1&idExpediente=" +:+ c +:+ "&").
    eexists. rewrite !app_assoc_s. reflexivity.
  - exists (l0 +:+ "?btnDetalleProc=btnDetalleProc&pagina=1&idExpediente=" +:+ c
            +:+ "&idProcedimiento=736&"). eexists.
    rewrite !app_assoc_s. reflexivity.
  - exists (l0 +:+ "?btnDetalleProc=btnDetalleProc&pagina=1&idExpediente=" +:+ c
            +:+ "&idProcedimiento=736&idSubOrganoResp=11&idDocIdentificativo=" +:+ p
            +:+ "&idDocRepresentante=" +:+ r +:+ "&"). eexists.
    rewrite !app_assoc_s. reflexivity.
  - exists (l0 +:+ "?btnDetalleProc=btnDetalleProc&pagina=1&idExpediente=" +:+ c
            +:+ "&idProcedimiento=736&idSubOrganoResp=11&idDocIdentificativo=" +:+ p
            +:+ "&idDocRepresentante=" +:+ r +:+ "&idEstadoSeleccionado=-1&"). eexists.
    rewrite !app_assoc_s. reflexivity.
  - exists (l0 +:+ "?btnDetalleProc=btnDetalleProc&pagina=1&idExpediente=" +:+ c
            +:+ "&idProcedimiento=736&idSubOrganoResp=11&idDocIdentificativo=" +:+ p
            +:+ "&idDocRepresentante=" +:+ r
            +:+ "&idEstadoSeleccionado=-1&idTipoProcSeleccionado=EN+REPRESENTACION+(REA)&regInicial="
            +:+ c +:+ "&nifTitular=" +:+ p +:+ "&").
    rewrite !app_assoc_s. reflexivity.
Qed.

Lemma aparece_hasta (d c : ascii) (s : string) :
  aparece d (hasta c s) = false ∨ aparece d s = true.
Proof.
  induction s as [|a s IH]; simpl; [by left |].
  destruct (Ascii.eqb a c); simpl; [by left |].
  destruct (Ascii.eqb a d); [by right | done].
Qed.

Lemma split_on_hasta (c : ascii) (s : string) :
  split_on c s = hasta c s :: tail (split_on c s).
Proof.
  induction s as [|a s IH]; simpl; [done |].
  destruct (Ascii.eqb a c); [done |].
  destruct (split_on c s) as [|h t]; [done |].
  simpl in IH. by injection IH as <-.
Qed.

Lemma split_on_prefijo (c : ascii) (x s : string) :
  aparece c x = false →
  split_on c (x +:+ s) = (x +:+ hasta c s) :: tail (split_on c s).
Proof.
  induction x as [|a x IH]; simpl.
  - intros _. apply split_on_hasta.
  - destruct (Ascii.eqb a c); [done |]. intros H. by rewrite IH.
Qed.

(** What stands in a parameter slot once the URL is read back: the
    substituted text up to its first [#] or [&]. *)
Lemma corte_limpio (x resto : string) :
  hasta "&" (hasta "#" (x +:+ resto)) = x → sin_separadores x.
Proof.
  intros H. split.
  - rewrite <- H. apply hasta_sin.
  - rewrite <- H.
    destruct (aparece_hasta "#" "&" (hasta "#" (x +:+ resto))) as [E|E]; [done |].
    by rewrite hasta_sin in E.
Qed.

Lemma tras_aqui (c : ascii) (y s : string) : tras c (String c y +:+ s) = y +:+ s.
Proof. simpl. by rewrite Ascii.eqb_refl. Qed.

Lemma split_on_sep (c : ascii) (x y s : string) :
  aparece c x = false →
  split_on c (x +:+ String c y +:+ s) = x :: split_on c (y +:+ s).
Proof. intros H. by rewrite <- (split_on_libre c x (y +:+ s) H). Qed.

Lemma split_on_sep2 (c : ascii) (x1 x2 y s : string) :
  aparece c x1 = false → aparece c x2 = false →
  split_on c (x1 +:+ x2 +:+ String c y +:+ s) = (x1 +:+ x2) :: split_on c (y +:+ s).
Proof.
  intros H1 H2. rewrite <- app_assoc_s. apply split_on_sep.
  by rewrite aparece_app, H1, H2.
Qed.

Lemma get_linkMiteco_parametros_inv (c p r : string) :
  parametros (get_linkMiteco c p r) = estructura c p r →
  sin_separadores c ∧ sin_separadores p ∧ sin_separadores r.
Proof.
  intros H.
  assert (Hc : sin_separadores c).
  { apply (f_equal (λ l, l !! 2)) in H. revert H.
    unfold parametros, consulta, get_linkMiteco.
    rewrite !hasta_libre by done. rewrite tras_libre by done. rewrite tras_aqui.
    rewrite !split_on_sep by done. rewrite split_on_prefijo by done.
    simpl. intros [= H]. by apply corte_limpio in H. }
  assert (Hp : sin_separadores p).
  { apply (f_equal (λ l, l !! 5)) in H. revert H.
    destruct Hc as [Hc1 Hc2].
    unfold parametros, consulta, get_linkMiteco.
    rewrite !hasta_libre by done. rewrite tras_libre by done. rewrite tras_aqui.
    rewrite !split_on_sep by done. rewrite split_on_sep2 by done.
    rewrite !split_on_sep by done. rewrite split_on_prefijo by done.
    simpl. intros [= H]. by apply corte_limpio in H. }
  split; [done |]. split; [done |].
  apply (f_equal (λ l, l !! 6)) in H. revert H.
  destruct Hc as [Hc1 Hc2], Hp as [Hp1 Hp2].
  unfold parametros, consulta, get_linkMiteco.
  rewrite !hasta_libre by done. rewrite tras_libre by done. rewrite tras_aqui.
  rewrite !split_on_sep by done. rewrite split_on_sep2 by done.
  rewrite !split_on_sep by done. rewrite split_on_sep2 by done.
  rewrite split_on_prefijo by done.
  simpl. intros [= H]. by apply corte_limpio in H.
Qed.

Lemma subcadena_propia (x a b : string) : subcadena x (a +:+ x +:+ b).
Proof. by exists a, b. Qed.

(** C1, as the specification states it, fails: with a case id that itself
    holds the text [&idDocRepresentante=X9] the URL holds
    [idDocRepresentante=X9] three times, not once. *)
Lemma get_linkMiteco_cuenta_contraejemplo :
  ¬ enlace_segun_spec "NT1&idDocRepresentante=X9" "B1" "X9"
      (get_linkMiteco "NT1&idDocRepresentante=X9" "B1" "X9").
Proof.
  intros (_ & _ & _ & _ & _ & _ & H & _). vm_compute in H. discriminate.
Qed.

(** C1 (amended): for identifiers that hold neither [&] nor [#] the URL
    contains [idExpediente=<case>], [regInicial=<case>],
    [idDocIdentificativo=<producer>], [nifTitular=<producer>],
    [idDocRepresentante=<rep>] and the four fixed parameters verbatim, ends
    with [numPagSolSelec=10#no-back-button], and read back as a URL its
    query is exactly the twelve parameters of [estructura], each key once:
    the case id fills the two slots [idExpediente] and [regInicial], the
    producer id the two slots [idDocIdentificativo] and [nifTitular], the
    representative id the one slot [idDocRepresentante]. *)
Theorem get_linkMiteco_estructura (case_id producer_id rep_id : string) :
  sin_separadores case_id → sin_separadores producer_id → sin_separadores rep_id →
  let url := get_linkMiteco case_id producer_id rep_id in
  subcadena ("idExpediente=" +:+ case_id) url ∧
  subcadena ("regInicial=" +:+ case_id) url ∧
  subcadena ("idDocIdentificativo=" +:+ producer_id) url ∧
  subcadena ("nifTitular=" +:+ producer_id) url ∧
  subcadena ("idDocRepresentante=" +:+ rep_id) url ∧
  subcadena "idProcedimiento=736" url ∧
  subcadena "idSubOrganoResp=11" url ∧
  subcadena "idEstadoSeleccionado=-1" url ∧
  subcadena "idTipoProcSeleccionado=EN+REPRESENTACION+(REA)" url ∧
  termina_en "numPagSolSelec=10#no-back-button" url ∧
  parametros url = estructura case_id producer_id rep_id ∧
  NoDup (parametros url).*1 ∧
  fragmento url = "no-back-button".
Proof.
  intros Hc Hp Hr url.
  pose proof (get_linkMiteco_contiene case_id producer_id rep_id) as H.
  cbv zeta in H. fold url in H.
  destruct H as (H1 & H2 & H3 & H4 & H5 & H6 & H7 & H8 & H9 & H10).
  repeat (split; [assumption |]).
  split; [by apply get_linkMiteco_parametros |].
  split; [| by apply get_linkMiteco_fragmento].
  unfold url. rewrite get_linkMiteco_parametros by done.
  apply (bool_decide_unpack _). by vm_compute.
Qed.

Lemma get_linkMiteco_estructura_witness :
  let url := get_linkMiteco "NT30460004811420250013409" "B12345678" "X7654321Z" in
  subcadena "idExpediente=NT30460004811420250013409" url ∧
  subcadena "idDocIdentificativo=B12345678" url ∧
  subcadena "idDocRepresentante=X7654321Z" url ∧
  parametros url = estructura "NT30460004811420250013409" "B12345678" "X7654321Z".
Proof.
  pose proof (get_linkMiteco_estructura
                "NT30460004811420250013409" "B12345678" "X7654321Z"
                (conj eq_refl eq_refl) (conj eq_refl eq_refl) (conj eq_refl eq_refl)) as H.
  cbv zeta in *. destruct H as (H1 & _ & H3 & _ & H5 & _ & _ & _ & _ & _ & H11 & _).
  exact (conj H1 (conj H3 (conj H5 H11))).
Defined.

(** C10, in its closing clause, fails: it counts the space and [=] among
    the characters that break the parameter structure. The values below
    hold both, and the URL still reads back as the intended twelve
    parameters, each value in its slots. *)
Lemma get_linkMiteco_igual_y_espacio_contraejemplo :
  aparece "=" "a=b c" = true ∧ aparece " " "a=b c" = true
  ∧ aparece " " "B 1" = true ∧ aparece "=" "X=9" = true
  ∧ parametros (get_linkMiteco "a=b c" "B 1" "X=9") = estructura "a=b c" "B 1" "X=9".
Proof. repeat split; vm_compute; reflexivity. Qed.

(** C10 (amended): the three values go into the URL character for
    character, with no encoding, escaping or validation: the URL is the
    fixed text with the values spliced in, every character of a value adds
    exactly one character, and each value occurs verbatim whatever it
    holds (empty, or with a space, [&], [=] or [#]). Read back by cutting
    the fragment at the first [#], splitting the query on [&] and each
    parameter at its first [=], the URL has the intended twelve parameters
    exactly when no value holds [&] or [#]; a space or [=] in a value
    leaves the structure intact. *)
Theorem get_linkMiteco_sin_codificar (regage_val nif_productor nif_representante : string) :
  let url := get_linkMiteco regage_val nif_productor nif_representante in
  url =
    "https://sede.miteco.gob.es/portal/site/seMITECO/area_personal?btnDetalleProc=btnDetalleProc&pagina=1&idExpediente="
    +:+ regage_val
    +:+ "&idProcedimiento=736&idSubOrganoResp=11&idDocIdentificativo=" +:+ nif_productor
    +:+ "&idDocRepresentante=" +:+ nif_representante
    +:+ "&idEstadoSeleccionado=-1&idTipoProcSeleccionado=EN+REPRESENTACION+(REA)&regInicial="
    +:+ regage_val
    +:+ "&nifTitular=" +:+ nif_productor
    +:+ "&numPagSolSelec=10#no-back-button" ∧
  String.length url =
    322 + 2 * String.length regage_val + 2 * String.length nif_productor
    + String.length nif_representante ∧
  subcadena regage_val url ∧
  subcadena nif_productor url ∧
  subcadena nif_representante url ∧
  (parametros url = estructura regage_val nif_productor nif_representante ↔
   sin_separadores regage_val ∧ sin_separadores nif_productor
   ∧ sin_separadores nif_representante).
Proof.
  intros url.
  assert (E : url =
    "https://sede.miteco.gob.es/portal/site/seMITECO/area_personal?btnDetalleProc=btnDetalleProc&pagina=1&idExpediente="
    +:+ regage_val
    +:+ "&idProcedimiento=736&idSubOrganoResp=11&idDocIdentificativo=" +:+ nif_productor
    +:+ "&idDocRepresentante=" +:+ nif_representante
    +:+ "&idEstadoSeleccionado=-1&idTipoProcSeleccionado=EN+REPRESENTACION+(REA)&regInicial="
    +:+ regage_val
    +:+ "&nifTitular=" +:+ nif_productor
    +:+ "&numPagSolSelec=10#no-back-button") by reflexivity.
  split; [exact E |].
  split.
  { rewrite E. rewrite !length_app_s. simpl. lia. }
  split; [rewrite E; apply subcadena_propia |].
  split.
  { rewrite E.
    exists ("https://sede.miteco.gob.es/portal/site/seMITECO/area_personal?btnDetalleProc=btnDetalleProc&pagina=1&idExpediente="
            +:+ regage_val
            +:+ "&idProcedimiento=736&idSubOrganoResp=11&idDocIdentificativo=").
    eexists. rewrite !app_assoc_s. reflexivity. }
  split.
  { rewrite E.
    exists ("https://sede.miteco.gob.es/portal/site/seMITECO/area_personal?btnDetalleProc=btnDetalleProc&pagina=1&idExpediente="
            +:+ regage_val
            +:+ "&idProcedimiento=736&idSubOrganoResp=11&idDocIdentificativo="
            +:+ nif_productor +:+ "&idDocRepresentante=").
    eexists. rewrite !app_assoc_s. reflexivity. }
  split.
  - apply get_linkMiteco_parametros_inv.
  - intros (Hc & Hp & Hr). by apply get_linkMiteco_parametros.
Qed.

(** ** Reasoning about runs *)

Section Ejecucion.

Context {A : Type}.

Lemma wp_mono (m : M A) (Φ Ψ : resultado A → estado → Prop) (s : estado) :
  wp m Φ s → (∀ r s', Φ r s' → Ψ r s') → wp m Ψ s.
Proof. unfold wp. auto. Qed.

Lemma wp_ret (a : A) (Φ : resultado A → estado → Prop) (s : estado) :
  Φ (Normal a) s → wp (mret a) Φ s.
Proof. done. Qed.

Lemma wp_abrupto (c : abrupto) (Φ : resultado A → estado → Prop) (s : estado) :
  Φ (Abrupto c) s → wp (λ s, (Abrupto c, s)) Φ s.
Proof. done. Qed.

Lemma wp_try_except (cuerpo : M A) (manejador : excepcion → M A)
    (Φ : resultado A → estado → Prop) (s : estado) :
  wp cuerpo (λ r s', match r with
                     | Abrupto (Excepcion e) => wp (manejador e) Φ s'
                     | _ => Φ r s'
                     end) s →
  wp (try_except cuerpo manejador) Φ s.
Proof.
  unfold wp, try_except. destruct (cuerpo s) as [[a|[v|e| |]] s']; simpl; auto.
Qed.

Lemma wp_try_finally (cuerpo : M A) (final : M unit)
    (Φ : resultado A → estado → Prop) (s : estado) :
  wp cuerpo (λ r s', wp final (λ rf s'', match rf with
                                         | Normal _ => Φ r s''
                                         | Abrupto c => Φ (Abrupto c) s''
                                         end) s') s →
  wp (try_finally cuerpo final) Φ s.
Proof.
  unfold wp, try_finally. destruct (cuerpo s) as [r s']; simpl.
  destruct (final s') as [[?|c] s'']; simpl; auto.
Qed.

End Ejecucion.

Lemma wp_bind {A B} (m : M A) (k : A → M B) (Φ : resultado B → estado → Prop) (s : estado) :
  wp m (λ r s', match r with
                | Normal a => wp (k a) Φ s'
                | Abrupto c => Φ (Abrupto c) s'
                end) s →
  wp (m ≫= k) Φ s.
Proof.
  unfold wp, mbind, M_bind, bind. destruct (m s) as [[a|c] s']; simpl; auto.
Qed.

Lemma wp_fmap {A B} (f : A → B) (m : M A) (Φ : resultado B → estado → Prop) (s : estado) :
  wp m (λ r s', match r with
                | Normal a => Φ (Normal (f a)) s'
                | Abrupto c => Φ (Abrupto c) s'
                end) s →
  wp (f <$> m) Φ s.
Proof.
  unfold wp, fmap, M_fmap, bind. destruct (m s) as [[a|c] s']; simpl; auto.
Qed.

Lemma def_eq (cuerpo : M unit) (s : estado) :
  def_ cuerpo s =
    (salida_def (cuerpo (con_locales ∅ s)).1,
     con_locales (locales s) (cuerpo (con_locales ∅ s)).2).
Proof.
  unfold def_. by destruct (cuerpo (con_locales ∅ s)) as [[?|[?|?| |]] ?].
Qed.

Lemma wp_def (cuerpo : M unit) (Φ : resultado valor → estado → Prop) (s : estado) :
  wp cuerpo (λ r s', Φ (salida_def r) (con_locales (locales s) s')) (con_locales ∅ s) →
  wp (def_ cuerpo) Φ s.
Proof. unfold wp. by rewrite def_eq. Qed.

(** Loop rule: [I] holds before every iteration. *)
Lemma wp_for_in {X} (I : estado → Prop) (xs : list X) (cuerpo : X → M unit)
    (sino : M unit) (Φ : resultado unit → estado → Prop) (s : estado) :
  I s →
  (∀ x s, x ∈ xs → I s →
     wp (cuerpo x) (λ r s', match r with
                            | Normal _ | Abrupto Continue => I s'
                            | Abrupto Break => Φ (Normal tt) s'
                            | Abrupto c => Φ (Abrupto c) s'
                            end) s) →
  (∀ s, I s → wp sino Φ s) →
  wp (for_in xs cuerpo sino) Φ s.
Proof.
  intros HI Hc Hs. revert s HI.
  induction xs as [|x xs IH]; intros s HI; simpl.
  - by apply Hs.
  - unfold wp. specialize (Hc x s (list_elem_of_here _ _) HI) as Hx.
    unfold wp in Hx. destruct (cuerpo x s) as [[[]|[v|e| |]] s']; simpl in *; auto.
    + apply IH; [|done]. intros y s0 Hy. apply Hc. by apply list_elem_of_further.
    + apply IH; [|done]. intros y s0 Hy. apply Hc. by apply list_elem_of_further.
Qed.

(** *** Primitive steps *)

Lemma wp_registrar (m : mensaje) (Φ : resultado unit → estado → Prop) (s : estado) :
  Φ (Normal tt) (anotar (EvLog m) s) → wp (registrar m) Φ s.
Proof. done. Qed.

Lemma wp_sleep (ms : nat) (Φ : resultado unit → estado → Prop) (s : estado) :
  Φ (Normal tt) (anotar (EvSleep ms) s) → wp (sleep ms) Φ s.
Proof. done. Qed.

Lemma wp_asignar (x : string) (v : valor) (Φ : resultado unit → estado → Prop) (s : estado) :
  Φ (Normal tt) (con_locales (<[x := v]> (locales s)) s) → wp (asignar x v) Φ s.
Proof. done. Qed.

Lemma wp_leer (x : string) (Φ : resultado valor → estado → Prop) (s : estado) :
  Φ (Normal (default VNone (locales s !! x))) s → wp (leer x) Φ s.
Proof. done. Qed.

Lemma wp_info_get (clave : string) (Φ : resultado valor → estado → Prop) (s : estado) :
  Φ (Normal (from_option VStr VNone (info s !! clave))) s → wp (info_get clave) Φ s.
Proof. done. Qed.

Lemma externo_eq (l : llamada) (s : estado) :
  externo l s =
    (match oraculo s (reloj s) with
     | Devuelve v => Normal v
     | Lanza e => Abrupto (Excepcion e)
     end, tras_llamada l s).
Proof. unfold externo, tras_llamada. by destruct (oraculo s (reloj s)). Qed.

Lemma wp_externo (l : llamada) (Φ : resultado valor → estado → Prop) (s : estado) :
  (∀ v, oraculo s (reloj s) = Devuelve v → Φ (Normal v) (tras_llamada l s)) →
  (∀ e, oraculo s (reloj s) = Lanza e → Φ (Abrupto (Excepcion e)) (tras_llamada l s)) →
  wp (externo l) Φ s.
Proof.
  intros Hv He. unfold wp. rewrite externo_eq.
  destruct (oraculo s (reloj s)); simpl; auto.
Qed.

(** *** What a run may add to the state *)

Lemma sigue_refl (P : evento → Prop) (s : estado) : sigue P s s.
Proof. split; [exists []; by rewrite app_nil_r | done]. Qed.

Lemma sigue_trans (P : evento → Prop) (s1 s2 s3 : estado) :
  sigue P s1 s2 → sigue P s2 s3 → sigue P s1 s3.
Proof.
  intros ((t1 & E1 & F1) & R1 & I1 & O1 & C1) ((t2 & E2 & F2) & R2 & I2 & O2 & C2).
  split.
  - exists (t1 ++ t2). rewrite E2, E1, app_assoc. split; [done |]. by apply Forall_app.
  - repeat split; try congruence. lia.
Qed.

Lemma sigue_anotar (P : evento → Prop) (ev : evento) (s0 s : estado) :
  P ev → sigue P s0 s → sigue P s0 (anotar ev s).
Proof.
  intros Hev H. apply (sigue_trans _ _ _ _ H).
  split; [exists [ev]; split; [done | by constructor] | done].
Qed.

Lemma sigue_con_locales (P : evento → Prop) (l : gmap string valor) (s0 s : estado) :
  sigue P s0 s → sigue P s0 (con_locales l s).
Proof. intros H. apply (sigue_trans _ _ _ _ H). split; [exists []; by rewrite app_nil_r | done]. Qed.

Lemma sigue_desde_locales (P : evento → Prop) (l : gmap string valor) (s0 s : estado) :
  sigue P (con_locales l s0) s → sigue P s0 s.
Proof. done. Qed.

Lemma sigue_tras_llamada (P : evento → Prop) (l : llamada) (s0 s : estado) :
  P (EvLlamada l (oraculo s (reloj s))) → sigue P s0 s → sigue P s0 (tras_llamada l s).
Proof.
  intros Hev H. apply (sigue_trans _ _ _ _ H).
  split; [exists [EvLlamada l (oraculo s (reloj s))]; split; [done | by constructor] |].
  simpl. repeat split; lia.
Qed.

Lemma sigue_impl (P Q : evento → Prop) (s s' : estado) :
  (∀ ev, P ev → Q ev) → sigue P s s' → sigue Q s s'.
Proof.
  intros HPQ ((t & E & F) & R). split; [| done].
  exists t. split; [done |]. by eapply Forall_impl.
Qed.

(** ** Retry loops *)

Section Reintentos.

Context {A : Type}.
Variables (accion : M A) (exito : nat → mensaje)
          (aviso : nat → nat → excepcion → mensaje) (agotado : M unit).

Let cuerpo (max : nat) (intento : nat) : M unit :=
  try_except
    (accion;; registrar (exito intento);; break_)
    (λ e, registrar (aviso intento max e);; sleep 500).

Lemma intento_falla (max i : nat) (s s1 : estado) (e : excepcion) :
  accion s = (Abrupto (Excepcion e), s1) →
  cuerpo max i s = (Normal tt, anotar (EvSleep 500) (anotar (EvLog (aviso i max e)) s1)).
Proof.
  intros H. unfold cuerpo, try_except, mbind, M_bind, bind. by rewrite H.
Qed.

Lemma intento_acierta (max i : nat) (s s1 : estado) (a : A) :
  accion s = (Normal a, s1) →
  cuerpo max i s = (Abrupto Break, anotar (EvLog (exito i)) s1).
Proof.
  intros H. unfold cuerpo, try_except, mbind, M_bind, bind. by rewrite H.
Qed.

Lemma for_in_fallos (max i n : nat) (s sN : estado) (es : list excepcion) :
  fallos accion aviso max i n s = Some (es, sN) →
  for_in (seq i n) (cuerpo max) agotado s = agotado sN ∧ length es = n.
Proof.
  revert i s es. induction n as [|n IH]; intros i s es; simpl.
  - by intros [= <- <-].
  - destruct (accion s) as [[a|[v|e| |]] s1] eqn:Ea; try done.
    destruct (fallos _ _ _ _ _ _) as [[es' s2]|] eqn:Ef; [|done].
    intros [= <- <-]. rewrite (intento_falla _ _ _ _ _ Ea).
    destruct (IH _ _ _ Ef) as [-> <-]. done.
Qed.

Lemma for_in_fallos_exito (max i k m : nat) (s s1 s2 : estado)
    (es : list excepcion) (a : A) :
  fallos accion aviso max i k s = Some (es, s1) →
  accion s1 = (Normal a, s2) →
  for_in (seq i (k + S m)) (cuerpo max) agotado s
    = (Normal tt, anotar (EvLog (exito (i + k))) s2).
Proof.
  revert i s es. induction k as [|k IH]; intros i s es; simpl.
  - intros [= <- <-] Ha. rewrite (intento_acierta _ _ _ _ _ Ha). by rewrite Nat.add_0_r.
  - destruct (accion s) as [[a'|[v|e| |]] s'] eqn:Ea; try done.
    destruct (fallos _ _ _ _ _ _) as [[es' s3]|] eqn:Ef; [|done].
    intros [= <- <-] Ha. rewrite (intento_falla _ _ _ _ _ Ea).
    rewrite (IH _ _ _ Ef Ha). by rewrite Nat.add_succ_r.
Qed.

(** Every attempt fails: the loop makes its [max] attempts and goes to the
    [else] branch. *)
Lemma bucle_agotado (max : nat) (s sN : estado) (es : list excepcion) :
  fallos accion aviso max 1 max s = Some (es, sN) →
  bucle_reintento max accion exito aviso agotado s = agotado sN ∧ length es = max.
Proof. apply for_in_fallos. Qed.

(** Attempts [1..k-1] fail and attempt [k] succeeds: the loop ends right
    after logging the success. *)
Lemma bucle_exito (max k : nat) (s s1 s2 : estado) (es : list excepcion) (a : A) :
  1 ≤ k ≤ max →
  fallos accion aviso max 1 (k - 1) s = Some (es, s1) →
  accion s1 = (Normal a, s2) →
  bucle_reintento max accion exito aviso agotado s
    = (Normal tt, anotar (EvLog (exito k)) s2).
Proof.
  intros Hk Hf Ha.
  pose proof (for_in_fallos_exito max 1 (k - 1) (max - k) _ _ _ _ _ Hf Ha) as H.
  replace (k - 1 + S (max - k)) with max in H by lia.
  replace (1 + (k - 1)) with k in H by lia.
  exact H.
Qed.

End Reintentos.

Lemma n_llamadas_app (f : llamada → bool) (t1 t2 : list evento) :
  n_llamadas f (t1 ++ t2) = n_llamadas f t1 + n_llamadas f t2.
Proof. unfold n_llamadas. by rewrite List.filter_app, length_app. Qed.

Lemma sin_llamadas_app (t1 t2 : list evento) :
  sin_llamadas (t1 ++ t2) = sin_llamadas t1 ++ sin_llamadas t2.
Proof. apply List.filter_app. Qed.

Lemma nuevos_app (s s' : estado) (t : list evento) :
  traza s' = traza s ++ t → nuevos s s' = t.
Proof. intros E. unfold nuevos. rewrite E. apply drop_app_length. Qed.

Lemma nuevos_anotar (s s' : estado) (ev : evento) :
  (∃ t, traza s' = traza s ++ t) → nuevos s (anotar ev s') = nuevos s s' ++ [ev].
Proof.
  intros [t E]. rewrite (nuevos_app _ _ _ E).
  apply nuevos_app. simpl. by rewrite E, app_assoc.
Qed.

(** The trace of [n] failed attempts of an action that only calls
    helpers: [n] calls of the kind [f], and between them the warnings,
    each followed by its pause. *)
Lemma fallos_traza {A} (f : llamada → bool) (accion : M A)
    (aviso : nat → nat → excepcion → mensaje) (max i n : nat)
    (s sN : estado) (es : list excepcion) :
  solo_llama f accion →
  fallos accion aviso max i n s = Some (es, sN) →
  ∃ t, traza sN = traza s ++ t
       ∧ n_llamadas f t = n
       ∧ sin_llamadas t = avisos_y_pausas aviso max i es.
Proof.
  intros Hacc. revert i s es. induction n as [|n IH]; intros i s es; simpl.
  - intros [= <- <-]. exists []. by rewrite app_nil_r.
  - destruct (Hacc s) as (t1 & E1 & S1 & N1).
    destruct (accion s) as [[a|[v|e| |]] s1] eqn:Ea; try done.
    destruct (fallos _ _ _ _ _ _) as [[es' s2]|] eqn:Ef; [|done].
    intros [= <- <-]. destruct (IH _ _ _ Ef) as (t2 & E2 & N2 & S2).
    exists (t1 ++ [EvLog (aviso i max e); EvSleep 500] ++ t2).
    simpl in E1, E2. split; [| split].
    + rewrite E2, E1. by rewrite <- !app_assoc.
    + rewrite !n_llamadas_app, N1, N2. simpl. lia.
    + rewrite !sin_llamadas_app. unfold sin_llamadas at 1. rewrite S1, S2. done.
Qed.

Lemma externo_solo_llama (f : llamada → bool) (l : llamada) :
  f l = true → solo_llama f (externo l).
Proof.
  intros Hf s. exists [EvLlamada l (oraculo s (reloj s))].
  rewrite externo_eq. simpl. split; [done |]. split; [done |].
  unfold n_llamadas. simpl. by rewrite Hf.
Qed.

Lemma pasos_autenticacion_solo_llama (driver : valor) :
  solo_llama es_esperar (pasos_autenticacion driver).
Proof.
  intros s.
  unfold pasos_autenticacion, mbind, M_bind, bind, externo, info_get, mret, M_ret, ret.
  simpl.
  destruct (oraculo s (reloj s)); simpl;
    [| eexists [_]; split; [reflexivity | done]].
  destruct (oraculo s (S (reloj s))); simpl;
    [| eexists [_; _]; split; [by rewrite <- !app_assoc | done]].
  destruct (oraculo s (S (S (reloj s)))); simpl;
    [| eexists [_; _; _]; split; [by rewrite <- !app_assoc | done]].
  destruct (oraculo s (S (S (S (reloj s))))); simpl;
    eexists [_; _; _; _]; (split; [by rewrite <- !app_assoc | done]).
Qed.

Lemma exito_traza {A} (f : llamada → bool) (accion : M A)
    (aviso : nat → nat → excepcion → mensaje) (m : mensaje) (max i n : nat)
    (s s1 s2 : estado) (es : list excepcion) (a : A) :
  solo_llama f accion →
  fallos accion aviso max i n s = Some (es, s1) →
  accion s1 = (Normal a, s2) →
  n_llamadas f (nuevos s (anotar (EvLog m) s2)) = S n
  ∧ sin_llamadas (nuevos s (anotar (EvLog m) s2))
    = avisos_y_pausas aviso max i es ++ [EvLog m].
Proof.
  intros Hacc Hf Ha.
  destruct (fallos_traza f accion aviso max i n s s1 es Hacc Hf) as (t & E & N & S).
  destruct (Hacc s1) as (t1 & E1 & S1 & N1). rewrite Ha in E1. simpl in E1.
  assert (En : nuevos s (anotar (EvLog m) s2) = t ++ t1 ++ [EvLog m]).
  { apply nuevos_app. simpl. rewrite E1, E. by rewrite <- !app_assoc. }
  rewrite En. split.
  - rewrite !n_llamadas_app, N, N1. change (n_llamadas f [EvLog m]) with 0. lia.
  - rewrite !sin_llamadas_app, S. unfold sin_llamadas at 1. by rewrite S1.
Qed.

Lemma agotado_traza {A} (f : llamada → bool) (accion : M A)
    (aviso : nat → nat → excepcion → mensaje) (m : mensaje) (max i n : nat)
    (s sN : estado) (es : list excepcion) :
  solo_llama f accion →
  fallos accion aviso max i n s = Some (es, sN) →
  n_llamadas f (nuevos s (anotar (EvLog m) sN)) = n
  ∧ sin_llamadas (nuevos s (anotar (EvLog m) sN))
    = avisos_y_pausas aviso max i es ++ [EvLog m].
Proof.
  intros Hacc Hf.
  destruct (fallos_traza f accion aviso max i n s sN es Hacc Hf) as (t & E & N & S).
  assert (En : nuevos s (anotar (EvLog m) sN) = t ++ [EvLog m]).
  { apply nuevos_app. simpl. by rewrite E, <- app_assoc. }
  rewrite En. split.
  - rewrite n_llamadas_app, N. change (n_llamadas f [EvLog m]) with 0. lia.
  - by rewrite sin_llamadas_app, S.
Qed.

(** The loops of the module are instances of the shared shape. *)
Lemma abrir_con_reintentos_forma (max : nat) (driver : valor) (link : string) :
  abrir_con_reintentos max driver link
  = bucle_reintento max (externo (abrir_web driver link)) INFO_10 WARN_02
      (registrar (ERR_05 max);; return_ VNone).
Proof. reflexivity. Qed.

Lemma reabrir_con_reintentos_forma (max : nat) (driver : valor) (link : string) :
  reabrir_con_reintentos max driver link
  = bucle_reintento max (externo (abrir_web driver link)) INFO_12 WARN_04
      (registrar (ERR_07 max);; return_ VNone).
Proof. reflexivity. Qed.

Lemma autenticar_con_reintentos_forma (max : nat) (driver : valor) :
  autenticar_con_reintentos max driver
  = bucle_reintento max (autenticar_y_seleccionar_certificado driver) INFO_11 WARN_03
      (registrar (ERR_06 max);; return_ VNone).
Proof. reflexivity. Qed.

Lemma autenticar_con_max_forma (max : nat) (driver : valor) :
  autenticar_con_max max driver
  = def_ (bucle_reintento max (pasos_autenticacion driver) INFO_02 WARN_01
            (registrar (ERR_01 max);;
             raise (Exc Exception_ "Fallo en la autenticación tras varios intentos"))).
Proof. reflexivity. Qed.

(** C8: in each retry loop (page open, re-open, authentication with
    retries, and the retrier inside [autenticar_y_seleccionar_certificado]),
    when the action raises on attempts 1 to k-1 and completes on attempt k,
    1 ≤ k ≤ ceiling, the loop ends normally right after logging the success
    of attempt k: the action ran k times ([k] calls of [abrir_web], resp. of
    the first authentication step), nothing runs after the success, and the
    statement after the loop is reached. *)
Theorem reintento_exito_en_k (max k : nat) :
  1 ≤ k ≤ max →
  (∀ driver link s es s1 v s2,
     fallos (externo (abrir_web driver link)) WARN_02 max 1 (k - 1) s = Some (es, s1) →
     externo (abrir_web driver link) s1 = (Normal v, s2) →
     let s' := anotar (EvLog (INFO_10 k)) s2 in
     abrir_con_reintentos max driver link s = (Normal tt, s')
     ∧ n_llamadas es_abrir_web (nuevos s s') = k
     ∧ sin_llamadas (nuevos s s') = avisos_y_pausas WARN_02 max 1 es ++ [EvLog (INFO_10 k)])
  ∧
  (∀ driver link s es s1 v s2,
     fallos (externo (abrir_web driver link)) WARN_04 max 1 (k - 1) s = Some (es, s1) →
     externo (abrir_web driver link) s1 = (Normal v, s2) →
     let s' := anotar (EvLog (INFO_12 k)) s2 in
     reabrir_con_reintentos max driver link s = (Normal tt, s')
     ∧ n_llamadas es_abrir_web (nuevos s s') = k
     ∧ sin_llamadas (nuevos s s') = avisos_y_pausas WARN_04 max 1 es ++ [EvLog (INFO_12 k)])
  ∧
  (∀ driver s es s1 v s2,
     fallos (autenticar_y_seleccionar_certificado driver) WARN_03 max 1 (k - 1) s
       = Some (es, s1) →
     autenticar_y_seleccionar_certificado driver s1 = (Normal v, s2) →
     autenticar_con_reintentos max driver s = (Normal tt, anotar (EvLog (INFO_11 k)) s2)
     ∧ length es = k - 1)
  ∧
  (∀ driver s es s1 s2,
     fallos (pasos_autenticacion driver) WARN_01 max 1 (k - 1) (marco_nuevo s)
       = Some (es, s1) →
     pasos_autenticacion driver s1 = (Normal tt, s2) →
     let s' := anotar (EvLog (INFO_02 k)) s2 in
     autenticar_con_max max driver s = (Normal VNone, con_locales (locales s) s')
     ∧ n_llamadas es_esperar (nuevos s s') = k
     ∧ sin_llamadas (nuevos s s') = avisos_y_pausas WARN_01 max 1 es ++ [EvLog (INFO_02 k)]).
Proof.
  intros Hk. split; [| split; [| split]].
  - intros driver link s es s1 v s2 Hf Ha s'.
    split; [rewrite abrir_con_reintentos_forma; by eapply bucle_exito |].
    destruct (exito_traza es_abrir_web _ _ (INFO_10 k) _ _ _ _ _ _ _ _
                (externo_solo_llama es_abrir_web (abrir_web driver link) eq_refl) Hf Ha)
      as [Hn Ht].
    subst s'. split; [rewrite Hn; lia | exact Ht].
  - intros driver link s es s1 v s2 Hf Ha s'.
    split; [rewrite reabrir_con_reintentos_forma; by eapply bucle_exito |].
    destruct (exito_traza es_abrir_web _ _ (INFO_12 k) _ _ _ _ _ _ _ _
                (externo_solo_llama es_abrir_web (abrir_web driver link) eq_refl) Hf Ha)
      as [Hn Ht].
    subst s'. split; [rewrite Hn; lia | exact Ht].
  - intros driver s es s1 v s2 Hf Ha.
    split; [rewrite autenticar_con_reintentos_forma; by eapply bucle_exito |].
    by destruct (for_in_fallos _ INFO_11 _ (mret tt) _ _ _ _ _ _ Hf) as [_ ->].
  - intros driver s es s1 s2 Hf Ha s'.
    split.
    { rewrite autenticar_con_max_forma, def_eq.
      fold (marco_nuevo s). by erewrite bucle_exito. }
    change (nuevos s s') with (nuevos (marco_nuevo s) s').
    destruct (exito_traza es_esperar _ _ (INFO_02 k) _ _ _ _ _ _ _ _
                (pasos_autenticacion_solo_llama driver) Hf Ha) as [Hn Ht].
    subst s'. split; [rewrite Hn; lia | exact Ht].
Qed.


Lemma reintento_exito_en_k_witness :
  ∃ s', abrir_con_reintentos 5 (VObjeto 1) "u" (estado_de (falla_n_veces 2))
        = (Normal tt, s')
        ∧ n_llamadas es_abrir_web (nuevos (estado_de (falla_n_veces 2)) s') = 3.
Proof.
  destruct (reintento_exito_en_k 5 3 ltac:(lia)) as (H & _).
  edestruct (H (VObjeto 1) "u" (estado_de (falla_n_veces 2))) as (H1 & H2 & _);
    [reflexivity | reflexivity |].
  eexists. split; [exact H1 | exact H2].
Defined.

(** C3, as stated, fails for the retrier inside
    [autenticar_y_seleccionar_certificado]: when each of its 100 attempts
    fails it raises [Exception] to its caller. *)
Lemma autenticar_agotado_lanza :
  (∃ es sN, fallos (pasos_autenticacion (VObjeto 1)) WARN_01 100 1 100
              (marco_nuevo (estado_de siempre_falla)) = Some (es, sN))
  ∧ (autenticar_y_seleccionar_certificado (VObjeto 1) (estado_de siempre_falla)).1
    = Abrupto (Excepcion (Exc Exception_ "Fallo en la autenticación tras varios intentos")).
Proof.
  split.
  - assert (H : is_Some (fallos (pasos_autenticacion (VObjeto 1)) WARN_01 100 1 100
                           (marco_nuevo (estado_de siempre_falla)))).
    { apply (bool_decide_unpack _). by vm_compute. }
    destruct H as [[es sN] H]. by exists es, sN.
  - by vm_compute.
Qed.

(** C3 (amended): when the action raises on each of the [max] attempts,
    every retry loop runs it exactly [max] times, logging after each failure
    the warning with the attempt number and [max] and sleeping 500 ms, and
    then logs its error. The three loops of [procesar_registro] (page open,
    authentication with retries, re-open) then leave [procesar_registro]
    with [return None], without raising; the retrier inside
    [autenticar_y_seleccionar_certificado] raises
    [Exception("Fallo en la autenticación tras varios intentos")] to its
    caller. *)
Theorem reintento_agotado (max : nat) :
  (∀ driver link s es sN,
     fallos (externo (abrir_web driver link)) WARN_02 max 1 max s = Some (es, sN) →
     let s' := anotar (EvLog (ERR_05 max)) sN in
     abrir_con_reintentos max driver link s = (Abrupto (Retorno VNone), s')
     ∧ n_llamadas es_abrir_web (nuevos s s') = max
     ∧ sin_llamadas (nuevos s s') = avisos_y_pausas WARN_02 max 1 es ++ [EvLog (ERR_05 max)]
     ∧ length es = max)
  ∧
  (∀ driver link s es sN,
     fallos (externo (abrir_web driver link)) WARN_04 max 1 max s = Some (es, sN) →
     let s' := anotar (EvLog (ERR_07 max)) sN in
     reabrir_con_reintentos max driver link s = (Abrupto (Retorno VNone), s')
     ∧ n_llamadas es_abrir_web (nuevos s s') = max
     ∧ sin_llamadas (nuevos s s') = avisos_y_pausas WARN_04 max 1 es ++ [EvLog (ERR_07 max)]
     ∧ length es = max)
  ∧
  (∀ driver s es sN,
     fallos (autenticar_y_seleccionar_certificado driver) WARN_03 max 1 max s
       = Some (es, sN) →
     autenticar_con_reintentos max driver s
       = (Abrupto (Retorno VNone), anotar (EvLog (ERR_06 max)) sN)
     ∧ length es = max)
  ∧
  (∀ driver s es sN,
     fallos (pasos_autenticacion driver) WARN_01 max 1 max (marco_nuevo s) = Some (es, sN) →
     let s' := anotar (EvLog (ERR_01 max)) sN in
     autenticar_con_max max driver s
       = (Abrupto (Excepcion (Exc Exception_ "Fallo en la autenticación tras varios intentos")),
          con_locales (locales s) s')
     ∧ n_llamadas es_esperar (nuevos s s') = max
     ∧ sin_llamadas (nuevos s s') = avisos_y_pausas WARN_01 max 1 es ++ [EvLog (ERR_01 max)]
     ∧ length es = max).
Proof.
  split; [| split; [| split]].
  - intros driver link s es sN Hf s'.
    rewrite abrir_con_reintentos_forma.
    destruct (bucle_agotado _ INFO_10 _ (registrar (ERR_05 max);; return_ VNone)
                _ _ _ _ Hf) as [-> Hl].
    split; [done |].
    destruct (agotado_traza es_abrir_web _ _ (ERR_05 max) _ _ _ _ _ _
                (externo_solo_llama es_abrir_web (abrir_web driver link) eq_refl) Hf) as [Hn Ht].
    done.
  - intros driver link s es sN Hf s'.
    rewrite reabrir_con_reintentos_forma.
    destruct (bucle_agotado _ INFO_12 _ (registrar (ERR_07 max);; return_ VNone)
                _ _ _ _ Hf) as [-> Hl].
    split; [done |].
    destruct (agotado_traza es_abrir_web _ _ (ERR_07 max) _ _ _ _ _ _
                (externo_solo_llama es_abrir_web (abrir_web driver link) eq_refl) Hf) as [Hn Ht].
    done.
  - intros driver s es sN Hf.
    rewrite autenticar_con_reintentos_forma.
    by destruct (bucle_agotado _ INFO_11 _ (registrar (ERR_06 max);; return_ VNone)
                   _ _ _ _ Hf) as [-> Hl].
  - intros driver s es sN Hf s'.
    rewrite autenticar_con_max_forma, def_eq.
    destruct (bucle_agotado _ INFO_02 _
                (registrar (ERR_01 max);;
                 raise (Exc Exception_ "Fallo en la autenticación tras varios intentos"))
                _ _ _ _ Hf) as [E Hl].
    unfold marco_nuevo in E. rewrite E.
    split; [done |].
    destruct (agotado_traza es_esperar _ _ (ERR_01 max) _ _ _ _ _ _
                (pasos_autenticacion_solo_llama driver) Hf) as [Hn Ht].
    done.
Qed.

Lemma reintento_agotado_witness :
  ∃ s', abrir_con_reintentos 3 (VObjeto 1) "u" (estado_de siempre_falla)
        = (Abrupto (Retorno VNone), s')
        ∧ n_llamadas es_abrir_web (nuevos (estado_de siempre_falla) s') = 3.
Proof.
  destruct (reintento_agotado 3) as (H & _).
  edestruct (H (VObjeto 1) "u" (estado_de siempre_falla)) as (H1 & H2 & _);
    [reflexivity |].
  eexists. split; [exact H1 | exact H2].
Defined.

(** ** Frames: what a computation leaves alone *)

Section Estable.

Variable P : evento → Prop.

Lemma estable_ret {A} (a : A) : estable P (mret a).
Proof. by intros s0 s H. Qed.

Lemma estable_puro {A} (m : M A) : (∀ s, (m s).2 = s) → estable P m.
Proof. intros Hm s0 s H. by rewrite Hm. Qed.

Lemma estable_bind {A B} (m : M A) (k : A → M B) :
  estable P m → (∀ a, estable P (k a)) → estable P (m ≫= k).
Proof.
  intros Hm Hk s0 s H. unfold mbind, M_bind, bind.
  specialize (Hm s0 s H). destruct (m s) as [[a|c] s']; simpl in *; [| done].
  by apply Hk.
Qed.

Lemma estable_fmap {A B} (f : A → B) (m : M A) : estable P m → estable P (f <$> m).
Proof.
  intros Hm s0 s H. unfold fmap, M_fmap, bind.
  specialize (Hm s0 s H). by destruct (m s) as [[a|c] s'].
Qed.

Lemma estable_try_except {A} (c : M A) (h : excepcion → M A) :
  estable P c → (∀ e, estable P (h e)) → estable P (try_except c h).
Proof.
  intros Hc Hh s0 s H. unfold try_except.
  specialize (Hc s0 s H). destruct (c s) as [[a|[v|e| |]] s']; simpl in *; try done.
  by apply Hh.
Qed.

Lemma estable_try_finally {A} (c : M A) (f : M unit) :
  estable P c → estable P f → estable P (try_finally c f).
Proof.
  intros Hc Hf s0 s H. unfold try_finally.
  specialize (Hc s0 s H). destruct (c s) as [r s']; simpl in *.
  specialize (Hf s0 s' Hc). by destruct (f s') as [[?|?] s''].
Qed.

Lemma estable_for_in {X} (xs : list X) (c : X → M unit) (sino : M unit) :
  (∀ x, estable P (c x)) → estable P sino → estable P (for_in xs c sino).
Proof.
  intros Hc Hs. induction xs as [|x xs IH]; intros s0 s H; simpl; [by apply Hs |].
  specialize (Hc x s0 s H).
  destruct (c x s) as [[[]|[v|e| |]] s']; simpl in *; try done; by apply IH.
Qed.

Lemma estable_def (c : M unit) : estable P c → estable P (def_ c).
Proof.
  intros Hc s0 s H. rewrite def_eq. simpl.
  apply sigue_con_locales, Hc. by apply sigue_con_locales.
Qed.

Lemma estable_registrar (m : mensaje) : P (EvLog m) → estable P (registrar m).
Proof. intros Hm s0 s H. by apply sigue_anotar. Qed.

Lemma estable_sleep (ms : nat) : P (EvSleep ms) → estable P (sleep ms).
Proof. intros Hm s0 s H. by apply sigue_anotar. Qed.

Lemma estable_asignar (x : string) (v : valor) : estable P (asignar x v).
Proof. intros s0 s H. by apply sigue_con_locales. Qed.

Lemma estable_externo (l : llamada) :
  (∀ r, P (EvLlamada l r)) → estable P (externo l).
Proof. intros Hl s0 s H. rewrite externo_eq. by apply sigue_tras_llamada. Qed.

End Estable.

Lemma no_lanza_ret {A} (a : A) : no_lanza (mret a).
Proof. by intros s e. Qed.

Lemma no_lanza_bind {A B} (m : M A) (k : A → M B) :
  no_lanza m → (∀ a, no_lanza (k a)) → no_lanza (m ≫= k).
Proof.
  intros Hm Hk s e. unfold mbind, M_bind, bind.
  specialize (Hm s). destruct (m s) as [[a|c] s']; simpl in *; [apply Hk |].
  intros [= ->]. by apply (Hm e).
Qed.

Lemma no_lanza_try_except {A} (c : M A) (h : excepcion → M A) :
  (∀ e, no_lanza (h e)) → no_lanza (try_except c h).
Proof.
  intros Hh s e. unfold try_except.
  destruct (c s) as [[a|[v|e'| |]] s']; simpl; try done. apply Hh.
Qed.

Lemma no_lanza_try_finally {A} (c : M A) (f : M unit) :
  no_lanza c → no_lanza f → no_lanza (try_finally c f).
Proof.
  intros Hc Hf s e. unfold try_finally.
  specialize (Hc s). destruct (c s) as [r s']; simpl in *.
  specialize (Hf s'). destruct (f s') as [[?|c'] s'']; simpl in *; [apply Hc |].
  intros [= ->]. by apply (Hf e).
Qed.

Lemma no_lanza_registrar (m : mensaje) : no_lanza (registrar m).
Proof. by intros s e. Qed.

Lemma no_lanza_return {A} (v : valor) : no_lanza (@return_ A v).
Proof. by intros s e. Qed.

Lemma no_lanza_leer (x : string) : no_lanza (leer x).
Proof. by intros s e. Qed.

Lemma no_lanza_asignar (x : string) (v : valor) : no_lanza (asignar x v).
Proof. by intros s e. Qed.

(** A function whose body never raises returns a value. *)
Lemma def_normal (c : M unit) (s : estado) :
  no_lanza c → ∃ v, (def_ c s).1 = Normal v.
Proof.
  intros Hc. rewrite def_eq. simpl. specialize (Hc (con_locales ∅ s)).
  destruct (c (con_locales ∅ s)) as [[[]|[v|e| |]] s']; simpl in *; eauto.
  by destruct (Hc e).
Qed.

Lemma def_locales (c : M unit) (s : estado) : locales (def_ c s).2 = locales s.
Proof. by rewrite def_eq. Qed.

(** ** [procesar_registro] *)

Lemma dict_get_obj (campos : list (string * json)) (clave : string) (defecto : json)
    (s : estado) :
  dict_get (JObj campos) clave defecto s = (Normal (default defecto (campo clave campos)), s).
Proof. done. Qed.

(** The reads of lines 115-119 on a legible record. *)
Lemma leer_campos_ok (campos : list (string * json)) (s : estado) :
  campos_legibles (JObj campos) = true →
  leer_campos (JObj campos) s
  = (Normal (default (JStr "") (campo "regage" campos),
             default (JStr "") (campo "nif_productor" campos),
             default (JStr "") (campo "nif_representante" campos),
             nombre_productor_de campos, nombre_residuo_de campos), s).
Proof.
  unfold campos_legibles, es_texto_o_falta, nombre_productor_de, nombre_residuo_de, texto_de.
  intros [Hp Hr]%andb_prop.
  unfold leer_campos, mbind, M_bind, bind, mret, M_ret, ret, dict_get.
  destruct (campo "nombre_productor" campos) as [[| | |np| |]|]; try done;
    destruct (campo "nombre_residuo" campos) as [[| | |nr| |]|]; try done.
Qed.

(** On any other record they raise [AttributeError] and nothing else
    happens. *)
Lemma leer_campos_falla (registro : json) (s : estado) :
  campos_legibles registro = false →
  ∃ msg, leer_campos registro s = (Abrupto (Excepcion (Exc AttributeError msg)), s).
Proof.
  unfold campos_legibles, es_texto_o_falta.
  destruct registro as [| | | | |campos]; try (intros _; by eexists).
  intros H. unfold leer_campos, mbind, M_bind, bind, mret, M_ret, ret, dict_get.
  destruct (campo "nombre_productor" campos) as [[| | |np| |]|]; simpl in *;
    try (by eexists);
    destruct (campo "nombre_residuo" campos) as [[| | |nr| |]|]; simpl in *;
    try done; by eexists.
Qed.

Ltac estable_paso :=
  lazymatch goal with
  | |- estable _ (mret _) => apply estable_ret
  | |- estable _ (_ ≫= _) => apply estable_bind; [| intros ?]
  | |- estable _ (_ <$> _) => apply estable_fmap
  | |- estable _ (registrar _) => apply estable_registrar; reflexivity
  | |- estable _ (sleep _) => apply estable_sleep; reflexivity
  | |- estable _ (asignar _ _) => apply estable_asignar
  | |- estable _ (leer _) => apply estable_puro; intros ?; reflexivity
  | |- estable _ (info_get _) => apply estable_puro; intros ?; reflexivity
  | |- estable _ (return_ _) => apply estable_puro; intros ?; reflexivity
  | |- estable _ (raise _) => apply estable_puro; intros ?; reflexivity
  | |- estable _ break_ => apply estable_puro; intros ?; reflexivity
  | |- estable _ continue_ => apply estable_puro; intros ?; reflexivity
  | |- estable _ (externo _) => apply estable_externo; intros ?; reflexivity
  | |- estable _ (def_ _) => apply estable_def
  | |- estable _ (try_finally _ _) => apply estable_try_finally
  | |- estable _ (try_except _ _) => apply estable_try_except; [| intros ?]
  | |- estable _ (for_in _ _ _) => apply estable_for_in; [intros ? |]
  | |- estable _ (if ?b then _ else _) => destruct b
  end.

Section RegistroEstable.

Variables (np nr : string).

Let P (ev : evento) : Prop := propio_de_registro np nr ev = true.

Lemma pasos_autenticacion_estable (driver : valor) :
  estable P (pasos_autenticacion driver).
Proof. unfold pasos_autenticacion. repeat estable_paso. Qed.

Lemma autenticar_con_max_estable (max : nat) (driver : valor) :
  estable P (autenticar_con_max max driver).
Proof.
  unfold autenticar_con_max. repeat estable_paso.
  apply pasos_autenticacion_estable.
Qed.

Lemma descargar_documentos_estable (driver download_path : valor) (n : Z) :
  estable P (descargar_documentos driver download_path n).
Proof. unfold descargar_documentos. repeat estable_paso. Qed.

Lemma abrir_con_reintentos_estable (max : nat) (driver : valor) (link : string) :
  estable P (abrir_con_reintentos max driver link).
Proof. unfold abrir_con_reintentos. repeat estable_paso. Qed.

Lemma reabrir_con_reintentos_estable (max : nat) (driver : valor) (link : string) :
  estable P (reabrir_con_reintentos max driver link).
Proof. unfold reabrir_con_reintentos. repeat estable_paso. Qed.

Lemma autenticar_con_reintentos_estable (max : nat) (driver : valor) :
  estable P (autenticar_con_reintentos max driver).
Proof.
  unfold autenticar_con_reintentos. repeat estable_paso.
  apply autenticar_con_max_estable.
Qed.

End RegistroEstable.

Lemma bind_normal {A B} (m : M A) (k : A → M B) (s s' : estado) (a : A) :
  m s = (Normal a, s') → (m ≫= k) s = k a s'.
Proof. intros H. unfold mbind, M_bind, bind. by rewrite H. Qed.

Lemma bind_abrupto {A B} (m : M A) (k : A → M B) (s s' : estado) (c : abrupto) :
  m s = (Abrupto c, s') → (m ≫= k) s = (Abrupto c, s').
Proof. intros H. unfold mbind, M_bind, bind. by rewrite H. Qed.

Ltac estable_registro :=
  first
    [ estable_paso
    | apply abrir_con_reintentos_estable
    | apply reabrir_con_reintentos_estable
    | apply autenticar_con_reintentos_estable
    | apply descargar_documentos_estable
    | apply estable_externo; intros ?; simpl; by rewrite !String.eqb_refl ].

Ltac no_lanza_paso :=
  lazymatch goal with
  | |- no_lanza (mret _) => apply no_lanza_ret
  | |- no_lanza (_ ≫= _) => apply no_lanza_bind; [| intros ?]
  | |- no_lanza (registrar _) => apply no_lanza_registrar
  | |- no_lanza (return_ _) => apply no_lanza_return
  | |- no_lanza (leer _) => apply no_lanza_leer
  | |- no_lanza (asignar _ _) => apply no_lanza_asignar
  | |- no_lanza (try_finally _ _) => apply no_lanza_try_finally
  | |- no_lanza (try_except _ _) => apply no_lanza_try_except; intros ?
  | |- no_lanza (if ?b then _ else _) => destruct b
  end.

(** What one call of [procesar_registro] on a legible record does to the
    state, whatever browser and portal do: it returns (never raises), keeps
    files, configuration and the caller's variables, and adds to the trace
    its opening line [INFO_07] followed by events of its own. *)
Lemma procesar_registro_marco (ver : version) (campos : list (string * json)) (s : estado) :
  campos_legibles (JObj campos) = true →
  let r := (procesar_registro ver (JObj campos) s).1 in
  let s' := (procesar_registro ver (JObj campos) s).2 in
  (∃ v, r = Normal v)
  ∧ locales s' = locales s
  ∧ raiz s' = raiz s ∧ info s' = info s ∧ oraculo s' = oraculo s
  ∧ ∃ t, traza s' = traza s ++
           EvLog (INFO_07 (default (JStr "") (campo "regage" campos))
                          (default (JStr "") (campo "nif_productor" campos))
                          (default (JStr "") (campo "nif_representante" campos))) :: t
         ∧ Forall (λ ev, propio_de_registro (nombre_productor_de campos)
                           (nombre_residuo_de campos) ev = true) t.
Proof.
  intros Hleg r s'. subst r s'. unfold procesar_registro.
  split; [| split; [apply def_locales |]].
  - apply def_normal. intros s1 e.
    rewrite (bind_normal _ _ _ _ _ (leer_campos_ok campos s1 Hleg)).
    cbv beta iota zeta. revert s1 e.
    change (no_lanza ?m) with (no_lanza m).
    match goal with |- ∀ s1 e, (?m s1).1 ≠ _ => change (no_lanza m) end.
    repeat no_lanza_paso.
  - rewrite def_eq. cbn [snd].
    rewrite (bind_normal _ _ _ _ _ (leer_campos_ok campos _ Hleg)).
    cbv beta iota zeta.
    match goal with
    | |- context [(asignar ?x ?v ≫= ?k) ?s1] =>
        change ((asignar x v ≫= k) s1) with (k tt (con_locales (<[x := v]> (locales s1)) s1))
    end.
    cbv beta.
    match goal with
    | |- context [(registrar ?m ≫= ?k) ?s1] =>
        change ((registrar m ≫= k) s1) with (k tt (anotar (EvLog m) s1));
        set (s2 := anotar (EvLog m) s1)
    end.
    cbv beta.
    match goal with
    | |- context [try_finally ?c ?f s2] => set (TF := try_finally c f)
    end.
    assert (Hest : estable (λ ev, propio_de_registro (nombre_productor_de campos)
                               (nombre_residuo_de campos) ev = true) TF).
    { subst TF. destruct ver; unfold get_linkMiteco_log; repeat estable_registro. }
    specialize (Hest s2 s2 (sigue_refl _ _)).
    destruct Hest as ((t & Et & Ft) & HR & HI & HO & _).
    set (sf := (TF s2).2) in *. clearbody sf. clear TF.
    unfold con_locales. cbn [raiz info oraculo traza].
    rewrite HR, HI, HO. repeat (split; [done |]).
    exists t. rewrite Et. split; [| done].
    subst s2. simpl. by rewrite <- app_assoc.
Qed.

(** ** Folder names *)

Lemma aparece_replace (d c : ascii) (new s : string) :
  aparece d new = false →
  aparece d s = false ∨ d = c →
  aparece d (replace c new s) = false.
Proof.
  intros Hn. induction s as [|a s IH]; simpl; [done |].
  intros H. destruct (Ascii.eqb_spec a c) as [->|Hac].
  - rewrite aparece_app, Hn. simpl. apply IH.
    destruct H as [H|H]; [| by right]. left.
    by destruct (Ascii.eqb c d).
  - simpl. destruct (Ascii.eqb_spec a d) as [->|Had].
    + destruct H as [H|H]; [done | congruence].
    + apply IH. destruct H as [H|H]; [by left | by right].
Qed.

Lemma nombre_productor_sin_espacios (campos : list (string * json)) :
  aparece " " (nombre_productor_de campos) = false.
Proof. apply aparece_replace; [done | by right]. Qed.

Lemma nombre_residuo_limpio (campos : list (string * json)) :
  aparece " " (nombre_residuo_de campos) = false
  ∧ aparece "*" (nombre_residuo_de campos) = false.
Proof.
  split; (apply aparece_replace; [done |]); [left | by right].
  apply aparece_replace; [done | by right].
Qed.

(** C7, as stated, fails for the producer name: its [*] stays. With the
    record [{"regage": "NT1", "nombre_productor": "A*B C"}] the download
    folder is set up for the producer name [A*B_C]. *)
Lemma nombre_productor_conserva_asterisco :
  n_llamadas (carpeta_pedida "A*B_C" "desconocido")
    (traza (procesar_registro Mains registro_con_asterisco
              (estado_de (falla_n_veces 0))).2) = 1
  ∧ aparece "*" "A*B_C" = true.
Proof. split; [by vm_compute | done]. Qed.

(** C7 (amended): for a record whose name fields are strings or absent,
    both folder-naming fields default to ['desconocido'] when absent and have
    every space replaced by [_]; the marker [*] is removed from the waste
    name only. These are the names [setup_descarga] gets. *)
Theorem nombres_de_carpeta (ver : version) (campos : list (string * json)) (s : estado) :
  campos_legibles (JObj campos) = true →
  let np := nombre_productor_de campos in
  let nr := nombre_residuo_de campos in
  (campo "nombre_productor" campos = None → np = "desconocido")
  ∧ (campo "nombre_residuo" campos = None → nr = "desconocido")
  ∧ (∀ x, campo "nombre_productor" campos = Some (JStr x) → np = replace " " "_" x)
  ∧ (∀ x, campo "nombre_residuo" campos = Some (JStr x) →
          nr = replace "*" "" (replace " " "_" x))
  ∧ aparece " " np = false
  ∧ aparece " " nr = false ∧ aparece "*" nr = false
  ∧ ∀ driver a b r,
      EvLlamada (setup_descarga driver a b) r
        ∈ nuevos s (procesar_registro ver (JObj campos) s).2 →
      a = np ∧ b = nr.
Proof.
  intros Hleg np nr.
  split; [intros H; unfold np, nombre_productor_de, texto_de; by rewrite H |].
  split; [intros H; unfold nr, nombre_residuo_de, texto_de; by rewrite H |].
  split; [intros x H; unfold np, nombre_productor_de, texto_de; by rewrite H |].
  split; [intros x H; unfold nr, nombre_residuo_de, texto_de; by rewrite H |].
  split; [apply nombre_productor_sin_espacios |].
  split; [apply nombre_residuo_limpio |].
  split; [apply nombre_residuo_limpio |].
  intros driver a b r Hin.
  destruct (procesar_registro_marco ver campos s Hleg) as (_ & _ & _ & _ & _ & t & Et & Ft).
  rewrite (nuevos_app _ _ _ Et) in Hin.
  apply list_elem_of_In in Hin. destruct Hin as [Hin|Hin]; [done |].
  apply list_elem_of_In in Hin.
  rewrite Forall_forall in Ft. specialize (Ft _ Hin). simpl in Ft.
  apply andb_prop in Ft as [Ha Hb].
  apply String.eqb_eq in Ha, Hb. done.
Qed.

Lemma nombres_de_carpeta_witness :
  nombre_productor_de [("nombre_productor", JStr "ACME SL"); ("nombre_residuo", JStr "16 06 01*")]
    = "ACME_SL"
  ∧ nombre_residuo_de [("nombre_productor", JStr "ACME SL"); ("nombre_residuo", JStr "16 06 01*")]
    = "16_06_01".
Proof.
  pose proof (nombres_de_carpeta Mains
                [("nombre_productor", JStr "ACME SL"); ("nombre_residuo", JStr "16 06 01*")]
                (estado_de siempre_falla) eq_refl) as H.
  cbv zeta in H. destruct H as (_ & _ & Hp & Hr & _).
  split; [exact (Hp "ACME SL" eq_refl) | exact (Hr "16 06 01*" eq_refl)].
Defined.

(** ** Exceptions at the record boundary *)

(** A record that is not a dict, or whose name field is not a string,
    makes [procesar_registro] raise [AttributeError] before its [try]:
    nothing is logged, no browser is started. *)
Lemma procesar_registro_lanza (ver : version) (registro : json) (s : estado) :
  campos_legibles registro = false →
  ∃ msg, procesar_registro ver registro s
         = (Abrupto (Excepcion (Exc AttributeError msg)), s).
Proof.
  intros H. destruct (leer_campos_falla registro (con_locales ∅ s) H) as [msg E].
  exists msg. unfold procesar_registro. rewrite def_eq.
  rewrite (bind_abrupto _ _ _ _ _ E). simpl. by destruct s.
Qed.

(** ** The browser handle of [procesar_registro] *)

Section Rastro.

Variables (s0 : estado) (c q : list valor).

Lemma rastro_inicio : c = [] → q = [] → rastro s0 c q s0.
Proof. intros -> ->. exists []. by rewrite app_nil_r. Qed.

Lemma rastro_anotar (ev : evento) (s : estado) :
  creado_de ev = None → cierre_de ev = None →
  rastro s0 c q s → rastro s0 c q (anotar ev s).
Proof.
  intros Hc Hq (t & E & C & Q). exists (t ++ [ev]). simpl.
  rewrite E, app_assoc. split; [done |].
  unfold creados, cierres in *. rewrite !omap_app. simpl.
  by rewrite Hc, Hq, C, Q, !app_nil_r.
Qed.

Lemma rastro_con_locales (l : gmap string valor) (s : estado) :
  rastro s0 c q s → rastro s0 c q (con_locales l s).
Proof. done. Qed.

Lemma rastro_tras_llamada (l : llamada) (s : estado) :
  es_configure l = false → es_quit l = false →
  rastro s0 c q s → rastro s0 c q (tras_llamada l s).
Proof.
  intros Hc Hq H. unfold tras_llamada.
  apply (rastro_anotar (EvLlamada l (oraculo s (reloj s))) s) in H; [done | |].
  - by destruct l.
  - by destruct l.
Qed.

End Rastro.

Lemma rastro_quit (s0 : estado) (c q : list valor) (d : valor) (s : estado) :
  rastro s0 c q s → rastro s0 c (q ++ [d]) (tras_llamada (quit d) s).
Proof.
  intros (t & E & C & Q). exists (t ++ [EvLlamada (quit d) (oraculo s (reloj s))]).
  simpl. rewrite E, app_assoc. split; [done |].
  unfold creados, cierres in *. rewrite !omap_app. simpl.
  by rewrite C, Q, app_nil_r.
Qed.

Lemma rastro_configure (s0 : estado) (c q : list valor) (s : estado) :
  rastro s0 c q s →
  rastro s0 (c ++ match creado_de (EvLlamada configure (oraculo s (reloj s))) with
                  | Some d => [d]
                  | None => []
                  end) q (tras_llamada configure s).
Proof.
  intros (t & E & C & Q). exists (t ++ [EvLlamada configure (oraculo s (reloj s))]).
  simpl. rewrite E, app_assoc. split; [done |].
  unfold creados, cierres in *. rewrite !omap_app. simpl.
  rewrite C, Q, app_nil_r. split; [| done].
  by destruct (oraculo s (reloj s)) as [d|e]; simpl; [destruct (verdadero d) |].
Qed.

Ltac wp_paso :=
  lazymatch goal with
  | |- wp (mret _) _ _ => apply wp_ret
  | |- wp (_ ≫= _) _ _ => apply wp_bind
  | |- wp (_ <$> _) _ _ => apply wp_fmap
  | |- wp (registrar _) _ _ => apply wp_registrar
  | |- wp (sleep _) _ _ => apply wp_sleep
  | |- wp (asignar _ _) _ _ => apply wp_asignar
  | |- wp (leer _) _ _ => apply wp_leer
  | |- wp (info_get _) _ _ => apply wp_info_get
  | |- wp (return_ _) _ _ => apply wp_abrupto
  | |- wp (raise _) _ _ => apply wp_abrupto
  | |- wp break_ _ _ => apply wp_abrupto
  | |- wp continue_ _ _ => apply wp_abrupto
  | |- wp (externo _) _ _ => apply wp_externo; intros ? ?
  | |- wp (def_ _) _ _ => apply wp_def
  | |- wp (try_finally _ _) _ _ => apply wp_try_finally
  | |- wp (try_except _ _) _ _ => apply wp_try_except
  end; cbv beta iota.

Ltac rastro_paso :=
  first
    [ assumption
    | apply rastro_con_locales
    | apply rastro_anotar; [reflexivity | reflexivity |]
    | apply rastro_tras_llamada; [reflexivity | reflexivity |]
    | apply rastro_quit ].

(** [descargar_documentos]: either the snapshot raises and nothing was
    quit, or the function returns and has called [driver.quit()] exactly
    once, however clicking and polling ended. *)
Lemma descargar_documentos_wp (driver download_path : valor) (n : Z)
    (s0 : estado) (c q : list valor) (s : estado) :
  rastro s0 c q s →
  wp (descargar_documentos driver download_path n)
     (λ r s', locales s' = locales s
              ∧ ((∃ e, r = Abrupto (Excepcion e) ∧ rastro s0 c q s')
                 ∨ (∃ a, r = Normal a ∧ rastro s0 c (q ++ [driver]) s'))) s.
Proof.
  intros H. unfold descargar_documentos.
  repeat wp_paso; simpl;
    (split; [done |]);
    first [ left; eexists; split; [reflexivity |]; repeat rastro_paso; fail
          | right; eexists; split; [reflexivity |]; repeat rastro_paso ].
Qed.

(** A retry loop keeps whatever its action and plain logging keep. *)
Lemma bucle_reintento_wp {A} (R : estado → Prop) (max : nat) (accion : M A)
    (exito : nat → mensaje) (aviso : nat → nat → excepcion → mensaje)
    (fin : M unit) (Φ : resultado unit → estado → Prop) (s : estado) :
  (∀ s ev, es_llamada ev = false → R s → R (anotar ev s)) →
  (∀ s, R s → wp accion (λ r s', R s' ∧ match r with
                                        | Normal _ | Abrupto (Excepcion _) => True
                                        | _ => False
                                        end) s) →
  (∀ s, R s → wp fin Φ s) →
  (∀ s, R s → Φ (Normal tt) s) →
  R s → wp (bucle_reintento max accion exito aviso fin) Φ s.
Proof.
  intros Hev Hacc Hfin HΦ HR. unfold bucle_reintento.
  apply (wp_for_in R); [done | | done].
  intros i s1 _ H1. apply wp_try_except, wp_bind.
  eapply wp_mono; [by apply Hacc |]. cbv beta.
  intros [a|[v|e| |]] s2 [H2 Hr]; try done.
  - repeat wp_paso. apply HΦ. by apply Hev.
  - repeat wp_paso. by repeat apply Hev.
Qed.

Lemma pasos_autenticacion_wp (driver : valor) (s0 : estado) (c q : list valor) (s : estado) :
  rastro s0 c q s →
  wp (pasos_autenticacion driver)
     (λ r s', rastro s0 c q s' ∧ match r with
                                 | Normal _ | Abrupto (Excepcion _) => True
                                 | _ => False
                                 end) s.
Proof.
  intros H. unfold pasos_autenticacion.
  repeat wp_paso; (split; [repeat rastro_paso | done]).
Qed.

Lemma rastro_no_llamada (s0 : estado) (c q : list valor) (s : estado) (ev : evento) :
  es_llamada ev = false → rastro s0 c q s → rastro s0 c q (anotar ev s).
Proof. intros Hev. apply rastro_anotar; by destruct ev. Qed.

(** [autenticar_y_seleccionar_certificado] neither starts nor quits a
    browser, keeps the caller's variables, and returns or raises. *)
Lemma autenticar_wp (driver : valor) (s0 : estado) (c q : list valor) (s : estado) :
  rastro s0 c q s →
  wp (autenticar_y_seleccionar_certificado driver)
     (λ r s', (rastro s0 c q s' ∧ locales s' = locales s)
              ∧ match r with
                | Normal _ | Abrupto (Excepcion _) => True
                | _ => False
                end) s.
Proof.
  intros H. unfold autenticar_y_seleccionar_certificado.
  rewrite autenticar_con_max_forma. apply wp_def.
  apply (bucle_reintento_wp (rastro s0 c q)).
  - intros s1 ev. apply rastro_no_llamada.
  - intros s1. apply pasos_autenticacion_wp.
  - intros s1 H1. repeat wp_paso. simpl. split; [| done]. split; [| done].
    by repeat rastro_paso.
  - intros s1 H1. simpl. split; [| done]. split; [| done]. by repeat rastro_paso.
  - by apply rastro_con_locales.
Qed.

Lemma con_navegador_invariante (s0 : estado) (d : valor) (s : estado) :
  con_navegador s0 d s → invariante_navegador s0 s.
Proof.
  intros (H & Hl & Hd). exists [d], []. split; [done |]. split; [done |].
  unfold var_driver. rewrite Hl. simpl. by rewrite Hd.
Qed.

Lemma con_navegador_anotar (s0 : estado) (d : valor) (s : estado) (ev : evento) :
  es_llamada ev = false → con_navegador s0 d s → con_navegador s0 d (anotar ev s).
Proof. intros Hev (H & Hl & Hd). split; [by apply rastro_no_llamada | done]. Qed.

Lemma con_navegador_llamada (s0 : estado) (d : valor) (s : estado) (l : llamada) :
  es_configure l = false → es_quit l = false →
  con_navegador s0 d s → con_navegador s0 d (tras_llamada l s).
Proof. intros Hc Hq (H & Hl & Hd). split; [by apply rastro_tras_llamada | done]. Qed.

Lemma invariante_anotar (s0 s : estado) (ev : evento) :
  es_llamada ev = false → invariante_navegador s0 s → invariante_navegador s0 (anotar ev s).
Proof.
  intros Hev (cs & qs & H & Hl & E). exists cs, qs.
  split; [by apply rastro_no_llamada | done].
Qed.

(** The [finally] block of [procesar_registro] settles the account: every
    handle created has been quit. *)
Lemma cierre_final_wp (s0 : estado) (m1 : mensaje) (m2 : excepcion → mensaje) (s : estado) :
  invariante_navegador s0 s →
  wp (driver ← leer "driver";
      if verdadero driver then
        try_except (externo (quit driver);; registrar m1) (λ quit_error, registrar (m2 quit_error))
      else mret tt)
     (λ r s', (∃ cs, rastro s0 cs cs s' ∧ length cs ≤ 1) ∧ r = Normal tt) s.
Proof.
  intros (cs & qs & H & Hl & E). fold (var_driver s) in *.
  apply wp_bind, wp_leer. cbv beta iota. fold (var_driver s).
  destruct (verdadero (var_driver s)) eqn:Hv.
  - subst cs. repeat wp_paso; (split; [| done]); eexists; (split; [| exact Hl]);
      repeat rastro_paso.
  - rewrite app_nil_r in E. subst cs. apply wp_ret. split; [| done]. by exists qs.
Qed.

Lemma con_navegador_rastro_locales (s0 : estado) (d : valor) (s s' : estado) :
  con_navegador s0 d s → rastro s0 [d] [] s' → locales s' = locales s →
  con_navegador s0 d s'.
Proof. intros (_ & Hl & Hd) H E. split; [done |]. by rewrite E. Qed.

Lemma invariante_sin_navegador (s0 s : estado) :
  rastro s0 [] [] s → verdadero (var_driver s) = false → invariante_navegador s0 s.
Proof. intros H Hv. exists [], []. rewrite Hv. split; [done |]. split; [simpl; lia | done]. Qed.

(** A retry loop of [procesar_registro] run while the handle is held: it
    goes on holding it, or gives up with [return None]. *)
Lemma bucle_navegador_wp {A} (s0 : estado) (d : valor) (max : nat) (accion : M A)
    (exito : nat → mensaje) (aviso : nat → nat → excepcion → mensaje)
    (m : mensaje) (s : estado) :
  (∀ s, con_navegador s0 d s →
        wp accion (λ r s', con_navegador s0 d s' ∧ match r with
                                                   | Normal _ | Abrupto (Excepcion _) => True
                                                   | _ => False
                                                   end) s) →
  con_navegador s0 d s →
  wp (bucle_reintento max accion exito aviso (registrar m;; return_ VNone))
     (λ r s', match r with
              | Normal _ => con_navegador s0 d s'
              | Abrupto (Retorno _) => invariante_navegador s0 s'
              | _ => False
              end) s.
Proof.
  intros Hacc HR. apply (bucle_reintento_wp (con_navegador s0 d)); [| done | | done | done].
  - intros s1 ev. apply con_navegador_anotar.
  - intros s1 H1. repeat wp_paso.
    apply invariante_anotar; [done |]. by apply (con_navegador_invariante s0 d).
Qed.

(** [procesar_registro] from its [try] on: whatever the helpers do, at the
    end every browser handle created has been quit, and at most one was
    created. *)
Lemma try_de_procesar_registro_wp (ver : version) (regage nif_p nif_r : json)
    (np nr : string) (s : estado) :
  locales s !! "driver" = Some VNone →
  wp (A := unit) (try_finally
      (try_except
         (linkMiteco ← get_linkMiteco_log ver regage nif_p nif_r;
          registrar (INFO_08 nr np);;
          registrar (INFO_09 linkMiteco);;
          d ← externo configure;
          asignar "driver" d;;
          driver ← leer "driver";
          (if negb (verdadero driver)
           then registrar ERR_04;; return_ VNone
           else mret tt);;
          let max_intentos := 5000 in
          abrir_con_reintentos max_intentos driver linkMiteco;;
          let max_intentos_auth := 5000 in
          autenticar_con_reintentos max_intentos_auth driver;;
          reabrir_con_reintentos max_intentos driver linkMiteco;;
          download_path ← externo (setup_descarga driver np nr);
          match ver with
          | Mains => registrar (INFO_13 download_path)
          | Raiz => mret tt
          end;;
          archivos_descargados ← descargar_documentos driver download_path 2;
          asignar "driver" VNone;;
          registrar (INFO_14 nr np);;
          registrar (INFO_15 archivos_descargados);;
          return_ archivos_descargados)
         (λ e,
           if isinstance e TimeoutException then
             registrar (ERR_08 regage nif_p nif_r e);;
             return_ VNone
           else if isinstance e WebDriverException then
             registrar (ERR_09 regage nif_p nif_r e);;
             return_ VNone
           else
             registrar (ERR_10 regage nif_p nif_r e);;
             return_ VNone))
      (driver ← leer "driver";
       if verdadero driver then
         try_except
           (externo (quit driver);;
            registrar (INFO_16 nr np))
           (λ quit_error, registrar (ERR_11 quit_error))
       else mret tt))
     (λ r s', ∃ cs, rastro s cs cs s' ∧ length cs ≤ 1) s.
Proof.
  intros Hdrv.
  assert (HFin : ∀ s', invariante_navegador s s' →
            wp (driver ← leer "driver";
                if verdadero driver then
                  try_except (externo (quit driver);; registrar (INFO_16 nr np))
                    (λ quit_error, registrar (ERR_11 quit_error))
                else mret tt)
               (λ (rf : resultado unit) s'',
                  match rf with
                  | Normal _ => ∃ cs, rastro s cs cs s'' ∧ length cs ≤ 1
                  | Abrupto c => ∃ cs, rastro s cs cs s'' ∧ length cs ≤ 1
                  end) s').
  { intros s' Hinv.
    eapply wp_mono; [by apply (cierre_final_wp s) |].
    by intros rf s'' [H ->]. }
  apply wp_try_finally, wp_try_except.
  eapply (wp_mono _ (λ _ s', invariante_navegador s s')).
  2:{ intros [a|[v|e| |]] s' Hinv; try by apply HFin.
      destruct (isinstance e TimeoutException); [| destruct (isinstance e WebDriverException)];
        repeat wp_paso; by apply HFin, invariante_anotar. }
  clear HFin.
  apply wp_bind.
  eapply (wp_mono _ (λ r s1, ∃ l, r = Normal l ∧ rastro s [] [] s1 ∧ locales s1 = locales s)).
  { unfold get_linkMiteco_log.
    destruct ver; repeat wp_paso; eexists; (split; [reflexivity |]);
      (split; [| done]); repeat rastro_paso; by apply rastro_inicio. }
  intros r s1 (link & -> & H1 & L1).
  apply wp_bind, wp_registrar. apply wp_bind, wp_registrar.
  set (s2 := anotar _ (anotar _ s1)).
  assert (H2 : rastro s [] [] s2) by (subst s2; repeat rastro_paso).
  assert (L2 : locales s2 = locales s) by done.
  clearbody s2. clear dependent s1.
  assert (V2 : verdadero (var_driver s2) = false).
  { unfold var_driver. by rewrite L2, Hdrv. }
  apply wp_bind, wp_externo.
  2:{ intros e He. apply invariante_sin_navegador; [| done].
      pose proof (rastro_configure _ _ _ _ H2) as H. by rewrite He in H. }
  intros d Hd.
  pose proof (rastro_configure _ _ _ _ H2) as H3. rewrite Hd in H3. simpl in H3.
  set (s3 := tras_llamada configure s2) in *. clearbody s3.
  apply wp_bind, wp_asignar.
  set (s4 := con_locales _ s3).
  assert (H4 : rastro s (if verdadero d then [d] else []) [] s4).
  { subst s4. apply rastro_con_locales. by destruct (verdadero d). }
  assert (L4 : locales s4 !! "driver" = Some d) by (subst s4; simpl; apply lookup_insert_eq).
  clearbody s4. clear dependent s3. clear dependent s2.
  apply wp_bind, wp_leer. rewrite L4. simpl default.
  destruct (verdadero d) eqn:Vd; simpl negb; cbv iota.
  2:{ repeat wp_paso. apply invariante_anotar; [done |].
      apply invariante_sin_navegador; [done |]. unfold var_driver. by rewrite L4. }
  apply wp_bind, wp_ret. cbv zeta.
  assert (C4 : con_navegador s d s4) by done.
  clear H4 L4.
  assert (Habrir : ∀ s5, con_navegador s d s5 →
            wp (externo (abrir_web d link))
               (λ r s', con_navegador s d s' ∧ match r with
                                               | Normal _ | Abrupto (Excepcion _) => True
                                               | _ => False
                                               end) s5).
  { intros s5 C5. apply wp_externo; intros; (split; [| done]);
      by apply con_navegador_llamada. }
  (* open the page *)
  apply wp_bind. rewrite abrir_con_reintentos_forma.
  eapply wp_mono; [by apply (bucle_navegador_wp s d) |].
  intros [[]|[v|e| |]] s5 C5; try done. clear dependent s4.
  (* authenticate *)
  apply wp_bind. rewrite autenticar_con_reintentos_forma.
  eapply wp_mono.
  { apply (bucle_navegador_wp s d); [| done].
    intros s6 C6. eapply wp_mono; [apply (autenticar_wp d s [d] []), C6 |].
    intros r s7 [[H7 L7] Hr]. split; [| done].
    by apply (con_navegador_rastro_locales s d s6). }
  intros [[]|[v|e| |]] s6 C6; try done. clear dependent s5.
  (* open the page again *)
  apply wp_bind. rewrite reabrir_con_reintentos_forma.
  eapply wp_mono; [by apply (bucle_navegador_wp s d) |].
  intros [[]|[v|e| |]] s7 C7; try done. clear dependent s6.
  (* download folder *)
  apply wp_bind, wp_externo.
  2:{ intros e He. apply (con_navegador_invariante s d). by apply con_navegador_llamada. }
  intros download_path _.
  assert (C8 : con_navegador s d (tras_llamada (setup_descarga d np nr) s7))
    by (by apply con_navegador_llamada).
  set (s8 := tras_llamada _ s7) in *. clearbody s8. clear dependent s7.
  apply wp_bind.
  eapply (wp_mono _ (λ r s9, r = Normal tt ∧ con_navegador s d s9)).
  { destruct ver; repeat wp_paso; (split; [done |]); [done |].
    by apply con_navegador_anotar. }
  intros r s9 [-> C9]. clear dependent s8.
  (* the downloads *)
  apply wp_bind.
  eapply wp_mono; [apply (descargar_documentos_wp d download_path 2 s [d] []), C9 |].
  intros r s10 [L10 [(e & -> & H10)|(a & -> & H10)]].
  { apply (con_navegador_invariante s d).
    by apply (con_navegador_rastro_locales s d s9). }
  repeat wp_paso.
  exists [d], [d]. split; [by repeat rastro_paso |]. split; [done |].
  unfold var_driver. simpl. by rewrite lookup_insert_eq.
Qed.

Lemma rastro_nuevos (s0 : estado) (c q : list valor) (s : estado) :
  rastro s0 c q s → creados (nuevos s0 s) = c ∧ cierres (nuevos s0 s) = q.
Proof. intros (t & E & C & Q). by rewrite (nuevos_app _ _ _ E). Qed.

Lemma cierres_n_llamadas (t : list evento) : n_llamadas es_quit t = length (cierres t).
Proof.
  unfold n_llamadas, cierres. induction t as [|[l r|m|ms] t IH]; simpl; try done.
  destruct l; simpl; by rewrite ?IH.
Qed.

(** The browser calls of one [procesar_registro]: the handles it created
    are the handles it quit, and there is at most one. *)
Lemma procesar_registro_rastro (ver : version) (registro : json) (s : estado) :
  ∃ cs, rastro s cs cs (procesar_registro ver registro s).2 ∧ length cs ≤ 1.
Proof.
  destruct (campos_legibles registro) eqn:Hleg.
  2:{ destruct (procesar_registro_lanza ver registro s Hleg) as [msg ->].
      exists []. split; [by apply rastro_inicio | simpl; lia]. }
  destruct registro as [| | | | |campos]; try done.
  unfold procesar_registro. rewrite def_eq. cbn [snd].
  rewrite (bind_normal _ _ _ _ _ (leer_campos_ok campos _ Hleg)).
  cbv beta iota zeta.
  match goal with
  | |- context [(asignar ?x ?v ≫= ?k) ?s1] =>
      change ((asignar x v ≫= k) s1) with (k tt (con_locales (<[x := v]> (locales s1)) s1))
  end.
  cbv beta.
  match goal with
  | |- context [(registrar ?m ≫= ?k) ?s1] =>
      change ((registrar m ≫= k) s1) with (k tt (anotar (EvLog m) s1));
      set (s2 := anotar (EvLog m) s1)
  end.
  cbv beta.
  assert (L2 : locales s2 !! "driver" = Some VNone) by (apply lookup_insert_eq).
  assert (H2 : rastro s [] [] s2).
  { subst s2. repeat rastro_paso. by apply rastro_inicio. }
  pose proof (try_de_procesar_registro_wp ver
                (default (JStr "") (campo "regage" campos))
                (default (JStr "") (campo "nif_productor" campos))
                (default (JStr "") (campo "nif_representante" campos))
                (nombre_productor_de campos) (nombre_residuo_de campos) s2 L2) as H.
  unfold wp in H. destruct H as (cs & (t & E & C & Q) & Hl).
  destruct H2 as (t2 & E2 & C2 & Q2).
  exists cs. split; [| done]. exists (t2 ++ t).
  unfold con_locales. cbn [traza].
  split; [by rewrite E, E2, app_assoc |].
  unfold creados, cierres in *. by rewrite !omap_app, C, Q, C2, Q2.
Qed.

(** C2: on every run of [procesar_registro] that created a browser handle
    [d] ([configurar_driver] returned it), [d] is the only handle created,
    [quit] is called exactly once, on [d], and the function returns to its
    caller: whether the downloads went through, clicking or polling
    raised, the snapshot raised, or navigation or authentication gave
    up. *)
Theorem procesar_registro_cierra_navegador (ver : version) (registro : json)
    (s : estado) (d : valor) :
  d ∈ creados (nuevos s (procesar_registro ver registro s).2) →
  creados (nuevos s (procesar_registro ver registro s).2) = [d]
  ∧ cierres (nuevos s (procesar_registro ver registro s).2) = [d]
  ∧ n_llamadas es_quit (nuevos s (procesar_registro ver registro s).2) = 1
  ∧ ∃ v, (procesar_registro ver registro s).1 = Normal v.
Proof.
  intros Hd.
  destruct (procesar_registro_rastro ver registro s) as (cs & H & Hl).
  apply rastro_nuevos in H as [C Q].
  rewrite cierres_n_llamadas, Q. rewrite C in *.
  destruct cs as [|d' [|? ?]]; [by apply elem_of_nil in Hd | | simpl in Hl; lia].
  apply list_elem_of_singleton in Hd as ->.
  repeat (split; [done |]).
  destruct (campos_legibles registro) eqn:Hleg.
  - destruct registro as [| | | | |campos]; try done.
    by destruct (procesar_registro_marco ver campos s Hleg) as [Hv _].
  - destruct (procesar_registro_lanza ver registro s Hleg) as [msg E].
    rewrite E in C. unfold nuevos in C. cbn [snd] in C. by rewrite drop_all in C.
Qed.

Lemma procesar_registro_cierra_navegador_witness :
  creados (nuevos (estado_de (falla_n_veces 0))
             (procesar_registro Raiz (JObj [("regage", JStr "NT1")])
                (estado_de (falla_n_veces 0))).2) = [VObjeto 1]
  ∧ n_llamadas es_quit
      (nuevos (estado_de (falla_n_veces 0))
         (procesar_registro Raiz (JObj [("regage", JStr "NT1")])
            (estado_de (falla_n_veces 0))).2) = 1.
Proof.
  assert (E : creados (nuevos (estado_de (falla_n_veces 0))
                 (procesar_registro Raiz (JObj [("regage", JStr "NT1")])
                    (estado_de (falla_n_veces 0))).2) = [VObjeto 1])
    by (vm_compute; reflexivity).
  destruct (procesar_registro_cierra_navegador Raiz (JObj [("regage", JStr "NT1")])
              (estado_de (falla_n_veces 0)) (VObjeto 1)) as (H1 & _ & H2 & _).
  - rewrite E. apply list_elem_of_here.
  - split; [exact H1 | exact H2].
Defined.

(** ** The batch loop *)

Lemma trash_dir_ok (ver : version) (campos : list (string * json)) (s : estado) :
  campos_legibles (JObj campos) = true →
  trash_dir ver (JObj campos) s = (Normal (carpeta_de_archivo ver campos), s).
Proof.
  unfold campos_legibles, es_texto_o_falta, carpeta_de_archivo, nombre_productor_de, texto_de.
  intros [Hp _]%andb_prop. destruct ver; [done |].
  unfold trash_dir, mbind, M_bind, bind, mret, M_ret, ret, dict_get.
  by destruct (campo "nombre_productor" campos) as [[| | |np| |]|].
Qed.


(** A file that does not parse is reported and skipped: the counter and
    the files stay as they are. *)
Lemma procesar_archivo_malformado (ver : version) (max : Z) (carpeta : ruta) (f msg : string)
    (s : estado) :
  (var_contador s < max)%Z →
  buscar (os_path_join carpeta f) (raiz_nodo s) = Some (Fichero (Malformado msg)) →
  procesar_archivo ver max carpeta f s
  = (Abrupto Continue,
     anotar (EvLog (ERR_14 (os_path_join carpeta f) (Exc JSONDecodeError msg)))
       (anotar (EvLog (INFO_18 (var_contador s + 1) max f)) s)).
Proof.
  intros H Hf. unfold procesar_archivo, mbind, M_bind, bind, fmap, M_fmap, bind, leer, ret.
  cbn beta iota. fold (var_contador s).
  destruct (Z.leb_spec max (var_contador s)) as [|_]; [lia |].
  unfold mret, M_ret, ret, registrar, open_. cbn beta iota.
  change (raiz_nodo (anotar ?ev s)) with (raiz_nodo s). rewrite Hf. done.
Qed.

(** A file that parses: the record is processed, the counter goes up by
    one, and the file is archived. *)
Lemma procesar_archivo_registro (ver : version) (max : Z) (carpeta : ruta) (f : string)
    (campos : list (string * json)) (s : estado) :
  (var_contador s < max)%Z →
  buscar (os_path_join carpeta f) (raiz_nodo s) = Some (Fichero (Registro (JObj campos))) →
  campos_legibles (JObj campos) = true →
  procesar_archivo ver max carpeta f s
  = archivar (carpeta_de_archivo ver campos) (os_path_join carpeta f)
      (con_locales
         (<["registros_procesados" := VInt (var_contador s + 1)]> (locales s))
         (procesar_registro ver (JObj campos)
            (anotar (EvLog (INFO_18 (var_contador s + 1) max f)) s)).2).
Proof.
  intros H Hf Hleg.
  destruct (procesar_registro_marco ver campos
              (anotar (EvLog (INFO_18 (var_contador s + 1) max f)) s) Hleg)
    as ([v Hv] & Hl & _).
  unfold procesar_archivo at 1.
  unfold mbind at 1, M_bind at 1, bind at 1, fmap, M_fmap, bind, leer, ret.
  cbn beta iota. fold (var_contador s).
  unfold mbind at 1, M_bind at 1, bind at 1.
  destruct (Z.leb_spec max (var_contador s)) as [|_]; [lia |].
  unfold mret at 1, M_ret at 1, ret at 1. cbn beta iota.
  unfold mbind at 1, M_bind at 1, bind at 1, registrar at 1. cbn beta iota.
  unfold mbind at 1, M_bind at 1, bind at 1, open_ at 1.
  change (raiz_nodo (anotar ?ev s)) with (raiz_nodo s). rewrite Hf. cbn beta iota.
  unfold mbind at 1, M_bind at 1, bind at 1. unfold try_except at 1, json_load, ret.
  cbn beta iota.
  unfold mbind at 1, M_bind at 1, bind at 1.
  destruct (procesar_registro ver (JObj campos) _) as [r s1] eqn:E. simpl in Hv, Hl.
  subst r. cbn beta iota.
  unfold mbind at 1, M_bind at 1, bind at 1, asignar at 1. cbn beta iota.
  unfold mbind at 1, M_bind at 1, bind at 1. rewrite (trash_dir_ok _ _ _ Hleg).
  cbn beta iota. cbn [snd]. by rewrite Hl.
Qed.

(** *** Archiving *)

(** The node a lookup found is a directory. *)
Lemma os_makedirs_trash (s : estado) :
  match raiz s !! "trash" with Some (Fichero _) => False | _ => True end →
  os_makedirs ["trash"] s
  = (Normal tt,
     con_raiz (<["trash" := Directorio match raiz s !! "trash" with
                                       | Some (Directorio t) => t
                                       | _ => ∅
                                       end]> (raiz s)) s).
Proof.
  intros H. unfold os_makedirs, raiz_nodo. simpl.
  by destruct (raiz s !! "trash") as [[c|t]|].
Qed.

(** Moving a record file out of a producer folder to a place under
    [trash]: the three outcomes of [shutil.move]. *)
Lemma shutil_move_a_trash (s : estado) (d f : string) (n : nodo)
    (out m : gmap string nodo) (T : nodo) (q : list string) :
  raiz s !! "output" = Some (Directorio out) →
  out !! d = Some (Directorio m) → m !! f = Some n →
  raiz s !! "trash" = Some T → q ≠ [] →
  let en_dir := match buscar q T with Some (Directorio _) => true | _ => false end in
  let q' := if en_dir then q ++ [f] else q in
  shutil_move ["output"; d; f] ("trash" :: q) s
  = if en_dir && bool_decide (is_Some (buscar q' T))
    then (Abrupto (Excepcion (Exc ShutilError "Destination path already exists")), s)
    else match poner q' n T with
         | Some T' =>
             (Normal tt,
              con_raiz (<["trash" := T']>
                          (alter (quitar [d; f]) "output" (raiz s))) s)
         | None => (Abrupto (Excepcion (Exc FileNotFoundError "move")), s)
         end.
Proof.
  intros Ho Hd Hf Ht Hq en_dir q'.
  unfold shutil_move, raiz_nodo, es_directorio, existe, raiz_nodo.
  assert (Hsrc : buscar ["output"; d; f] (Directorio (raiz s)) = Some n).
  { simpl. rewrite Ho. simpl. rewrite Hd. simpl. by rewrite Hf. }
  rewrite Hsrc.
  assert (Hdst : ∀ p, buscar ("trash" :: p) (Directorio (raiz s)) = buscar p T).
  { intros p. simpl. by rewrite Ht. }
  rewrite Hdst. fold en_dir.
  assert (Hreal : (if en_dir then ("trash" :: q) ++ [os_path_basename ["output"; d; f]]
                   else "trash" :: q) = "trash" :: q').
  { subst q'. by destruct en_dir. }
  rewrite Hreal, Hdst.
  destruct (en_dir && bool_decide (is_Some (buscar q' T))); [done |].
  assert (Hq' : q' ≠ []).
  { subst q'. destruct en_dir; [| done]. by destruct q. }
  change (quitar ["output"; d; f] (Directorio (raiz s)))
    with (Directorio (alter (quitar [d; f]) "output" (raiz s))).
  destruct q' as [|y q'']; [done |].
  change (poner ("trash" :: y :: q'') n (Directorio ?R))
    with (h ← R !! "trash"; h' ← poner (y :: q'') n h;
          Some (Directorio (<["trash" := h']> R))).
  rewrite lookup_alter_ne by done. rewrite Ht.
  change (Some T ≫= ?k) with (k T). cbv beta.
  by destruct (poner (y :: q'') n T).
Qed.

Lemma poner_directorio (p : ruta) (n T T2 : nodo) :
  p ≠ [] → poner p n T = Some T2 → es_directorio_nodo T2 = true.
Proof.
  destruct p as [|x r]; [done |]. intros _.
  destruct T as [c|m0]; [done |]. destruct r as [|y r].
  - by intros [= <-].
  - change (poner (x :: y :: r) n (Directorio m0))
      with (h ← m0 !! x; h' ← poner (y :: r) n h; Some (Directorio (<[x := h']> m0))).
    destruct (m0 !! x) as [h|]; [| done].
    change (Some h ≫= ?k) with (k h). cbv beta.
    destruct (poner (y :: r) n h) as [h'|]; [| done]. by intros [= <-].
Qed.

Lemma poner_hijos (x : string) (r : ruta) (n : nodo) (m0 : gmap string nodo) (T2 : nodo) :
  r ≠ [] → poner (x :: r) n (Directorio m0) = Some T2 →
  ∃ h', T2 = Directorio (<[x := h']> m0) ∧ es_directorio_nodo h' = true.
Proof.
  intros Hr. destruct r as [|y r]; [done |].
  change (poner (x :: y :: r) n (Directorio m0))
    with (h ← m0 !! x; h' ← poner (y :: r) n h; Some (Directorio (<[x := h']> m0))).
  destruct (m0 !! x) as [h|]; [| done].
  change (Some h ≫= ?k) with (k h). cbv beta.
  destruct (poner (y :: r) n h) as [h'|] eqn:E; [| done]. intros [= <-].
  exists h'. split; [done |]. by apply (poner_directorio (y :: r) n h).
Qed.

(** Putting an entry into a directory that is there. *)
Lemma poner_en_directorio (rest : ruta) (f : string) (n : nodo) :
  ∀ (T : nodo) (a : gmap string nodo),
    buscar rest T = Some (Directorio a) →
    ∃ T2, poner (rest ++ [f]) n T = Some T2
          ∧ buscar (rest ++ [f]) T2 = Some n
          ∧ buscar rest T2 = Some (Directorio (<[f := n]> a)).
Proof.
  induction rest as [|x r IH]; intros T a H.
  - simpl in H. injection H as ->. exists (Directorio (<[f := n]> a)). simpl.
    by rewrite lookup_insert_eq.
  - simpl in H. destruct T as [c|m0]; [done |].
    destruct (m0 !! x) as [h|] eqn:Hx; [| done]. simpl in H.
    destruct (IH h a H) as (h' & P & B1 & B2).
    exists (Directorio (<[x := h']> m0)).
    assert (Hne : r ++ [f] ≠ []) by (by destruct r).
    split.
    + change ((x :: r) ++ [f]) with (x :: (r ++ [f])).
      destruct (r ++ [f]) as [|y r'] eqn:E; [done |].
      change (poner (x :: y :: r') n (Directorio m0))
        with (h ← m0 !! x; h' ← poner (y :: r') n h; Some (Directorio (<[x := h']> m0))).
      rewrite Hx. change (Some h ≫= ?k) with (k h). cbv beta. by rewrite P.
    + simpl. rewrite lookup_insert_eq. simpl. by rewrite B1, B2.
Qed.

Lemma salida_tras_mover (R1 out m : gmap string nodo) (d f : string) (T' : nodo) :
  R1 !! "output" = Some (Directorio out) → out !! d = Some (Directorio m) →
  (<["trash" := T']> (alter (quitar [d; f]) "output" R1)) !! "output"
    = Some (Directorio (alter (quitar [f]) d out))
  ∧ alter (quitar [f]) d out !! d = Some (Directorio (delete f m)).
Proof.
  intros Ho Hd. split.
  - rewrite lookup_insert_ne by done. rewrite lookup_alter_eq, Ho. done.
  - by rewrite lookup_alter_eq, Hd.
Qed.

Lemma archivar_movido (td src : ruta) (s s1 s2 : estado) :
  os_makedirs td s = (Normal tt, s1) →
  shutil_move src (os_path_join td (os_path_basename src)) s1 = (Normal tt, s2) →
  archivar td src s
  = (Normal tt,
     anotar (EvSleep 10000)
       (anotar (EvLog INFO_20)
          (anotar (EvLog (INFO_19 (os_path_basename src)
                            (os_path_join td (os_path_basename src)))) s2))).
Proof.
  intros H1 H2. unfold archivar, mbind, M_bind, bind, try_except.
  rewrite H1. cbn beta iota. by rewrite H2.
Qed.

Lemma archivar_no_movido (td src : ruta) (s s1 s2 : estado) (e : excepcion) :
  os_makedirs td s = (Normal tt, s1) →
  shutil_move src (os_path_join td (os_path_basename src)) s1
    = (Abrupto (Excepcion e), s2) →
  archivar td src s
  = (Normal tt,
     anotar (EvSleep 10000) (anotar (EvLog INFO_20) (anotar (EvLog (ERR_15 src e)) s2))).
Proof.
  intros H1 H2. unfold archivar, mbind, M_bind, bind, try_except.
  rewrite H1. cbn beta iota. by rewrite H2.
Qed.

(** One archiving step, once [os.makedirs] has made the archive
    directory [trash/rest], whose entries are [a]. *)
Lemma archivar_desde (rest : ruta) (d f : string) (n : nodo)
    (out m : gmap string nodo) (T1 : nodo) (a : gmap string nodo) (s : estado) :
  raiz s !! "output" = Some (Directorio out) →
  out !! d = Some (Directorio m) → m !! f = Some n → f ≠ "" →
  os_makedirs ("trash" :: rest) s
    = (Normal tt, con_raiz (<["trash" := T1]> (raiz s)) s) →
  buscar rest T1 = Some (Directorio a) →
  ∃ (x : mensaje) (R' out' m' : gmap string nodo),
    archivar ("trash" :: rest) ["output"; d; f] s
    = (Normal tt,
       anotar (EvSleep 10000) (anotar (EvLog INFO_20) (anotar (EvLog x) (con_raiz R' s))))
    ∧ (x = INFO_19 f ("trash" :: rest ++ [f]) ∨ ∃ e, x = ERR_15 ["output"; d; f] e)
    ∧ R' !! "output" = Some (Directorio out')
    ∧ (∀ d', d' ≠ d → out' !! d' = out !! d')
    ∧ out' !! d = Some (Directorio m')
    ∧ (∀ f', f' ≠ f → m' !! f' = m !! f')
    ∧ (R' !! "trash" = Some T1
       ∨ ∃ q T2, q ≠ [] ∧ poner (rest ++ q) n T1 = Some T2 ∧ R' !! "trash" = Some T2)
    ∧ (no_es_directorio (a !! f) →
       x = INFO_19 f ("trash" :: rest ++ [f]) ∧ m' !! f = None
       ∧ buscar ("trash" :: rest ++ [f]) (Directorio R') = Some n
       ∧ buscar ("trash" :: rest) (Directorio R') = Some (Directorio (<[f := n]> a))).
Proof.
  intros Ho Hd Hf Hfn Hmk Ha.
  assert (Hj : os_path_join ("trash" :: rest) (os_path_basename ["output"; d; f])
               = "trash" :: rest ++ [f]).
  { unfold os_path_join, os_path_basename. simpl.
    by destruct (String.eqb_spec f ""). }
  set (s1 := con_raiz (<["trash" := T1]> (raiz s)) s) in *.
  assert (Ho1 : raiz s1 !! "output" = Some (Directorio out)).
  { subst s1. simpl. by rewrite lookup_insert_ne. }
  assert (Ht1 : raiz s1 !! "trash" = Some T1).
  { subst s1. simpl. by rewrite lookup_insert_eq. }
  assert (Hbf : buscar (rest ++ [f]) T1 = a !! f).
  { clear -Ha. revert T1 Ha. induction rest as [|y r IH]; intros T1 Ha; simpl in *.
    - injection Ha as ->. by destruct (a !! f).
    - destruct T1 as [c|m0]; [done |]. destruct (m0 !! y) as [h|]; [| done].
      simpl in *. by apply IH. }
  pose proof (shutil_move_a_trash s1 d f n out m T1 (rest ++ [f]) Ho1 Hd Hf Ht1) as Hm.
  specialize (Hm ltac:(by destruct rest)). cbv zeta in Hm. rewrite Hbf in Hm.
  destruct (a !! f) as [[c|u]|] eqn:Haf.
  1,3: (* the destination is free, or a file that is replaced *)
    destruct (poner_en_directorio rest f n T1 a Ha) as (T2 & P & B1 & B2);
    cbn [andb] in Hm; rewrite P in Hm;
    destruct (salida_tras_mover (raiz s1) out m d f T2 Ho1 Hd) as [Ho2 Hd2];
    exists (INFO_19 f ("trash" :: rest ++ [f])),
           (<["trash" := T2]> (alter (quitar [d; f]) "output" (raiz s1))),
           (alter (quitar [f]) d out), (delete f m);
    (split; [rewrite <- Hj; rewrite <- Hj in Hm;
             by rewrite (archivar_movido _ _ s s1 _ Hmk Hm) |]);
    (split; [by left |]); (split; [done |]);
    (split; [by intros d' Hd'; rewrite lookup_alter_ne |]);
    (split; [done |]);
    (split; [by intros f' Hf'; rewrite lookup_delete_ne |]);
    (split; [right; exists [f], T2; by rewrite lookup_insert_eq |]);
    intros _; (split; [done |]); (split; [by rewrite lookup_delete_eq |]);
    simpl; rewrite lookup_insert_eq; simpl; by rewrite B1, B2.
  (* the destination is a directory: the file goes into it, if it can *)
  assert (Hbu : buscar (rest ++ [f]) T1 = Some (Directorio u)) by (by rewrite Hbf).
  assert (Hbff : buscar ((rest ++ [f]) ++ [f]) T1 = u !! f).
  { clear -Hbu. revert T1 Hbu. generalize (rest ++ [f]) as p.
    induction p as [|y r IH]; intros T1 Ha; simpl in *.
    - injection Ha as ->. by destruct (u !! f).
    - destruct T1 as [c|m0]; [done |]. destruct (m0 !! y) as [h|]; [| done].
      simpl in *. by apply IH. }
  rewrite Hbff in Hm.
  destruct (u !! f) as [n'|] eqn:Huf.
  - cbn [andb bool_decide] in Hm.
    exists (ERR_15 ["output"; d; f] (Exc ShutilError "Destination path already exists")),
           (raiz s1), out, m.
    split.
    { rewrite <- Hj in Hm. rewrite (archivar_no_movido _ _ s s1 s1 _ Hmk Hm).
      by destruct s. }
    split; [right; by eexists |]. split; [done |]. split; [done |]. split; [done |].
    split; [done |]. split; [by left |]. done.
  - destruct (poner_en_directorio (rest ++ [f]) f n T1 u Hbu) as (T2 & P & B1 & B2).
    cbn [andb] in Hm. rewrite P in Hm.
    destruct (salida_tras_mover (raiz s1) out m d f T2 Ho1 Hd) as [Ho2 Hd2].
    exists (INFO_19 f ("trash" :: rest ++ [f])),
           (<["trash" := T2]> (alter (quitar [d; f]) "output" (raiz s1))),
           (alter (quitar [f]) d out), (delete f m).
    split; [rewrite <- Hj; rewrite <- Hj in Hm;
            by rewrite (archivar_movido _ _ s s1 _ Hmk Hm) |].
    split; [by left |]. split; [done |].
    split; [by intros d' Hd'; rewrite lookup_alter_ne |].
    split; [done |].
    split; [by intros f' Hf'; rewrite lookup_delete_ne |].
    split; [| done].
    right. exists [f; f], T2. split; [done |]. rewrite lookup_insert_eq.
    split; [| done]. by rewrite <- P, <- app_assoc.
Qed.

Lemma os_makedirs_trash_productor (np : string) (s : estado) :
  archivo_despejado Mains (raiz s) →
  os_makedirs ["trash"; np] s
  = (Normal tt,
     con_raiz (<["trash" :=
                   Directorio (<[np := Directorio
                                         (hijos_de (hijos_de (raiz s !! "trash") !! np))]>
                                 (hijos_de (raiz s !! "trash")))]> (raiz s)) s).
Proof.
  unfold archivo_despejado, os_makedirs, raiz_nodo. intros H. simpl.
  destruct (raiz s !! "trash") as [[c|t]|]; simpl; [done | |].
  - destruct (t !! np) as [[c|p]|] eqn:E; simpl; [| done | done].
    by specialize (H np _ E).
  - by rewrite lookup_empty, insert_empty.
Qed.

(** One archiving step on a tree where no file obstructs the archive:
    [os.makedirs] succeeds, the step ends normally whether or not the move
    does, only the record file leaves [output], and the archive stays
    unobstructed. When the destination is not an existing directory, the
    file ends up there, replacing what was there. *)
Lemma archivar_efecto (ver : version) (campos : list (string * json)) (d f : string)
    (n : nodo) (out m : gmap string nodo) (s : estado) :
  raiz s !! "output" = Some (Directorio out) →
  out !! d = Some (Directorio m) → m !! f = Some n → f ≠ "" →
  (ver = Mains → nombre_productor_de campos ≠ "") →
  archivo_despejado ver (raiz s) →
  ∃ (x : mensaje) (R' out' m' : gmap string nodo),
    archivar (carpeta_de_archivo ver campos) ["output"; d; f] s
    = (Normal tt,
       anotar (EvSleep 10000) (anotar (EvLog INFO_20) (anotar (EvLog x) (con_raiz R' s))))
    ∧ (x = INFO_19 f (carpeta_de_archivo ver campos ++ [f])
       ∨ ∃ e, x = ERR_15 ["output"; d; f] e)
    ∧ R' !! "output" = Some (Directorio out')
    ∧ (∀ d', d' ≠ d → out' !! d' = out !! d')
    ∧ out' !! d = Some (Directorio m')
    ∧ (∀ f', f' ≠ f → m' !! f' = m !! f')
    ∧ archivo_despejado ver R'
    ∧ (no_es_directorio (buscar (carpeta_de_archivo ver campos ++ [f]) (raiz_nodo s)) →
       x = INFO_19 f (carpeta_de_archivo ver campos ++ [f])
       ∧ m' !! f = None
       ∧ buscar (carpeta_de_archivo ver campos ++ [f]) (Directorio R') = Some n
       ∧ ∃ a, buscar (carpeta_de_archivo ver campos) (Directorio R') = Some (Directorio a)).
Proof.
  intros Ho Hd Hf Hfn Hnp Hdes. destruct ver.
  - (* root copy: trash *)
    clear Hnp. unfold carpeta_de_archivo.
    assert (Hmk := os_makedirs_trash s).
    assert (Hlibre : match raiz s !! "trash" with Some (Fichero _) => False | _ => True end).
    { unfold archivo_despejado in Hdes. by destruct (raiz s !! "trash") as [[]|]. }
    specialize (Hmk Hlibre).
    set (t1 := match raiz s !! "trash" with Some (Directorio t) => t | _ => ∅ end) in *.
    destruct (archivar_desde [] d f n out m (Directorio t1) t1 s Ho Hd Hf Hfn Hmk eq_refl)
      as (x & R' & out' & m' & E & Hx & Ho' & Hd' & Hm' & Hf' & Ht' & Hdest).
    exists x, R', out', m'. repeat (split; [done |]).
    split.
    + unfold archivo_despejado.
      destruct Ht' as [-> | (q & T2 & Hq & P & ->)]; [done |].
      apply poner_directorio in P; [| done]. by destruct T2.
    + intros Hno.
      assert (Hb : buscar ["trash"; f] (raiz_nodo s) = t1 !! f).
      { unfold raiz_nodo. subst t1. simpl.
        destruct (raiz s !! "trash") as [[c|t]|]; simpl; try done.
        by destruct (t !! f). }
      simpl app in *. rewrite Hb in Hno.
      destruct (Hdest Hno) as (-> & Hmf & B1 & B2). eauto.
  - (* src/mains: trash/<producer> *)
    specialize (Hnp eq_refl). unfold carpeta_de_archivo, os_path_join.
    destruct (String.eqb_spec (nombre_productor_de campos) "") as [|_]; [done |].
    set (np := nombre_productor_de campos) in *. simpl app.
    assert (Hmk := os_makedirs_trash_productor np s Hdes).
    set (t := hijos_de (raiz s !! "trash")) in *.
    set (p := hijos_de (t !! np)) in *.
    assert (Ha : buscar [np] (Directorio (<[np := Directorio p]> t)) = Some (Directorio p)).
    { simpl. by rewrite lookup_insert_eq. }
    destruct (archivar_desde [np] d f n out m _ p s Ho Hd Hf Hfn Hmk Ha)
      as (x & R' & out' & m' & E & Hx & Ho' & Hd' & Hm' & Hf' & Ht' & Hdest).
    exists x, R', out', m'. repeat (split; [done |]).
    assert (Ht : map_Forall (λ _ n, es_directorio_nodo n = true) t).
    { subst t. unfold archivo_despejado in Hdes.
      destruct (raiz s !! "trash") as [[c|t]|]; simpl; [done | done |].
      apply map_Forall_empty. }
    split.
    + unfold archivo_despejado.
      destruct Ht' as [-> | (q & T2 & Hq & P & ->)].
      * by apply map_Forall_insert_2.
      * apply (poner_hijos np q) in P as (h' & -> & Hh'); [| done].
        apply map_Forall_insert_2; [done |].
        by apply map_Forall_insert_2.
    + intros Hno.
      assert (Hb : buscar ["trash"; np; f] (raiz_nodo s) = p !! f).
      { unfold raiz_nodo. subst p t. simpl.
        destruct (raiz s !! "trash") as [[c|t]|]; simpl; try done.
        destruct (t !! np) as [[c|p]|]; simpl; try done.
        by destruct (p !! f). }
      rewrite Hb in Hno.
      destruct (Hdest Hno) as (-> & Hmf & B1 & B2). eauto.
Qed.

(** *** One file of the batch *)




Lemma var_contador_asignar (z : Z) (l : gmap string valor) (s : estado) :
  var_contador (con_locales (<["registros_procesados" := VInt z]> l) s) = z.
Proof. unfold var_contador. simpl. by rewrite lookup_insert_eq. Qed.

Lemma registro_admisible_legible (ver : version) (j : json) :
  registro_admisible ver (Registro j) = true →
  ∃ campos, j = JObj campos ∧ campos_legibles (JObj campos) = true
            ∧ (ver = Mains → nombre_productor_de campos ≠ "").
Proof.
  simpl. intros [Hleg Hv]%andb_prop.
  destruct j as [| | | | |campos]; try done.
  exists campos. split; [done |]. split; [done |].
  intros ->. intros E. by rewrite E in Hv.
Qed.


(** ** What reaches the batch loop *)

Lemma for_in_lanza {X} (x : X) (xs : list X) (cuerpo : X → M unit) (sino : M unit)
    (s s' : estado) (e : excepcion) :
  cuerpo x s = (Abrupto (Excepcion e), s') →
  for_in (x :: xs) cuerpo sino s = (Abrupto (Excepcion e), s').
Proof. intros H. simpl. by rewrite H. Qed.

(** The loop body has no handler around [procesar_registro]: what it
    raises ends the turn. *)
Lemma procesar_archivo_propaga (ver : version) (max : Z) (carpeta : ruta) (f : string)
    (registro : json) (s s' : estado) (e : excepcion) :
  (var_contador s < max)%Z →
  buscar (os_path_join carpeta f) (raiz_nodo s) = Some (Fichero (Registro registro)) →
  procesar_registro ver registro (anotar (EvLog (INFO_18 (var_contador s + 1) max f)) s)
    = (Abrupto (Excepcion e), s') →
  procesar_archivo ver max carpeta f s = (Abrupto (Excepcion e), s').
Proof.
  intros H Hf E.
  unfold procesar_archivo at 1.
  unfold mbind at 1, M_bind at 1, bind at 1, fmap, M_fmap, bind, leer, ret.
  cbn beta iota. fold (var_contador s).
  unfold mbind at 1, M_bind at 1, bind at 1.
  destruct (Z.leb_spec max (var_contador s)) as [|_]; [lia |].
  unfold mret at 1, M_ret at 1, ret at 1. cbn beta iota.
  unfold mbind at 1, M_bind at 1, bind at 1, registrar at 1. cbn beta iota.
  unfold mbind at 1, M_bind at 1, bind at 1, open_ at 1.
  change (raiz_nodo (anotar ?ev s)) with (raiz_nodo s). rewrite Hf. cbn beta iota.
  unfold mbind at 1, M_bind at 1, bind at 1. unfold try_except at 1, json_load, ret.
  cbn beta iota.
  unfold mbind at 1, M_bind at 1, bind at 1.
  by rewrite E.
Qed.

(** The message of the [AttributeError] depends on the record alone. *)
Lemma procesar_registro_lanza_uniforme (ver : version) (registro : json) :
  campos_legibles registro = false →
  ∃ msg, ∀ s, procesar_registro ver registro s
              = (Abrupto (Excepcion (Exc AttributeError msg)), s).
Proof.
  intros H.
  assert (∃ msg, ∀ s, leer_campos registro s
                      = (Abrupto (Excepcion (Exc AttributeError msg)), s)) as [msg E].
  { revert H. unfold campos_legibles, es_texto_o_falta.
    destruct registro as [| | | | |campos]; try (intros _; by eexists).
    intros H. unfold leer_campos, mbind, M_bind, bind, mret, M_ret, ret, dict_get.
    destruct (campo "nombre_productor" campos) as [[| | |np| |]|]; simpl in *;
      try (by eexists);
      destruct (campo "nombre_residuo" campos) as [[| | |nr| |]|]; simpl in *;
      try done; by eexists. }
  exists msg. intros s. unfold procesar_registro. rewrite def_eq.
  rewrite (bind_abrupto _ _ _ _ _ (E _)). simpl. by destruct s.
Qed.

(** C6, on a whole run: with [output/P/a.json] holding
    [{"regage": "NT1", "nif_productor": "B1", "nif_representante": "X1",
      "nombre_productor": null}], [procesar_multiple_regages] itself ends
    with [AttributeError], in both copies; the only thing logged is that
    the file was taken up, and the file is where it was. *)
Lemma lote_aborta_con_nombre_nulo :
  procesar_multiple_regages Raiz 100 (estado_con arbol_nombre_nulo siempre_falla)
  = (Abrupto (Excepcion (Exc AttributeError "object has no attribute 'replace'")),
     anotar (EvLog (INFO_18 1 100 "a.json")) (estado_con arbol_nombre_nulo siempre_falla))
  ∧ procesar_multiple_regages Mains 100 (estado_con arbol_nombre_nulo siempre_falla)
    = (Abrupto (Excepcion (Exc AttributeError "object has no attribute 'replace'")),
       anotar (EvLog (INFO_18 1 100 "a.json")) (estado_con arbol_nombre_nulo siempre_falla)).
Proof. split; vm_compute; reflexivity. Qed.

(** C6: the handlers of [procesar_registro] guard its [try] only. The
    field reads of lines 115-119 come before it, so a record that is not
    a dict, or whose name field is not a string, makes [procesar_registro]
    raise [AttributeError] to the batch loop at once: nothing about the
    record is logged or classified, no [None] is returned. The loop has no
    handler either: its turn ends with that exception and so does the
    loop, with the counter where it was, the file not archived and the
    files after it not taken up. *)
Theorem registro_ilegible_aborta_el_lote (ver : version) (max : Z) (carpeta : ruta)
    (f : string) (fs : list string) (registro : json) (sino : M unit) (s : estado) :
  (var_contador s < max)%Z →
  buscar (os_path_join carpeta f) (raiz_nodo s) = Some (Fichero (Registro registro)) →
  campos_legibles registro = false →
  ∃ msg,
    (∀ s1, procesar_registro ver registro s1
           = (Abrupto (Excepcion (Exc AttributeError msg)), s1))
    ∧ for_in (f :: fs) (procesar_archivo ver max carpeta) sino s
      = (Abrupto (Excepcion (Exc AttributeError msg)),
         anotar (EvLog (INFO_18 (var_contador s + 1) max f)) s).
Proof.
  intros H Hf Hleg.
  destruct (procesar_registro_lanza_uniforme ver registro Hleg) as [msg E].
  exists msg. split; [done |].
  apply for_in_lanza. by apply (procesar_archivo_propaga ver max carpeta f registro).
Qed.

Lemma registro_ilegible_aborta_el_lote_witness :
  ∃ msg,
    for_in ["a.json"; "b.json"] (procesar_archivo Raiz 100 ["output"; "P"]) (mret tt)
      (estado_con arbol_nombre_nulo siempre_falla)
    = (Abrupto (Excepcion (Exc AttributeError msg)),
       anotar (EvLog (INFO_18 1 100 "a.json"))
         (estado_con arbol_nombre_nulo siempre_falla)).
Proof.
  destruct (registro_ilegible_aborta_el_lote Raiz 100 ["output"; "P"] "a.json" ["b.json"]
              registro_nombre_nulo (mret tt)
              (estado_con arbol_nombre_nulo siempre_falla))
    as (msg & _ & E); [reflexivity | reflexivity | reflexivity |].
  exists msg. exact E.
Defined.

(** ** Where a processed file ends up *)

(** A turn of the loop on a file that parses, when the archive
    destination is not an existing directory: the record is processed,
    whatever the helpers do, and the file is moved; the last things logged
    are the move and the pause. *)
Lemma procesar_archivo_archiva (ver : version) (max : Z) (d f : string)
    (campos : list (string * json)) (out m : gmap string nodo) (s : estado) :
  (var_contador s < max)%Z →
  raiz s !! "output" = Some (Directorio out) →
  out !! d = Some (Directorio m) →
  m !! f = Some (Fichero (Registro (JObj campos))) →
  f ≠ "" →
  registro_admisible ver (Registro (JObj campos)) = true →
  archivo_despejado ver (raiz s) →
  no_es_directorio (buscar (carpeta_de_archivo ver campos ++ [f]) (raiz_nodo s)) →
  ∃ (s' : estado) (t : list evento),
    procesar_archivo ver max ["output"; d] f s = (Normal tt, s')
    ∧ traza s'
      = traza s
        ++ EvLog (INFO_18 (var_contador s + 1) max f)
        :: EvLog (INFO_07 (default (JStr "") (campo "regage" campos))
                    (default (JStr "") (campo "nif_productor" campos))
                    (default (JStr "") (campo "nif_representante" campos)))
        :: t
        ++ [EvLog (INFO_19 f (carpeta_de_archivo ver campos ++ [f]));
            EvLog INFO_20; EvSleep 10000]
    ∧ Forall (λ ev, propio_de_registro (nombre_productor_de campos)
                      (nombre_residuo_de campos) ev = true) t
    ∧ var_contador s' = (var_contador s + 1)%Z
    ∧ buscar ["output"; d; f] (raiz_nodo s') = None
    ∧ buscar (carpeta_de_archivo ver campos ++ [f]) (raiz_nodo s')
      = Some (Fichero (Registro (JObj campos)))
    ∧ (∃ a, buscar (carpeta_de_archivo ver campos) (raiz_nodo s') = Some (Directorio a))
    ∧ (∀ d', d' ≠ d → buscar ["output"; d'] (raiz_nodo s') = buscar ["output"; d'] (raiz_nodo s))
    ∧ (∀ f', f' ≠ f →
         buscar ["output"; d; f'] (raiz_nodo s') = buscar ["output"; d; f'] (raiz_nodo s)).
Proof.
  intros Hn Ho Hd Hf Hfn Hadm Hdes Hno.
  assert (Hruta : os_path_join ["output"; d] f = ["output"; d; f]).
  { unfold os_path_join. by destruct (String.eqb_spec f ""). }
  assert (Hb : buscar (os_path_join ["output"; d] f) (raiz_nodo s)
               = Some (Fichero (Registro (JObj campos)))).
  { rewrite Hruta. unfold raiz_nodo. simpl. rewrite Ho. simpl. rewrite Hd. simpl.
    by rewrite Hf. }
  destruct (registro_admisible_legible ver _ Hadm) as (campos' & [= <-] & Hleg & Hnp).
  rewrite (procesar_archivo_registro ver max _ f campos s Hn Hb Hleg). rewrite Hruta.
  destruct (procesar_registro_marco ver campos
              (anotar (EvLog (INFO_18 (var_contador s + 1) max f)) s) Hleg)
    as (_ & Hl & HR & _ & _ & (t & Et & Ft)).
  set (s1 := (procesar_registro ver (JObj campos) _).2) in *.
  set (s2 := con_locales (<["registros_procesados" := VInt (var_contador s + 1)]>
                            (locales s)) s1).
  assert (HR2 : raiz s2 = raiz s) by (change (raiz s2) with (raiz s1); by rewrite HR).
  assert (Ho2 : raiz s2 !! "output" = Some (Directorio out)) by (by rewrite HR2).
  assert (Hdes2 : archivo_despejado ver (raiz s2)) by (by rewrite HR2).
  assert (Hno2 : no_es_directorio
                   (buscar (carpeta_de_archivo ver campos ++ [f]) (raiz_nodo s2))).
  { unfold raiz_nodo. by rewrite HR2. }
  destruct (archivar_efecto ver campos d f _ out m s2 Ho2 Hd Hf Hfn Hnp Hdes2)
    as (x & R' & out' & m' & E & Hx & Ho' & Hd' & Hm' & Hf' & Hdes' & Hdest).
  destruct (Hdest Hno2) as (-> & Hmf & B1 & B2).
  rewrite E. eexists _, t. split; [reflexivity |].
  split.
  { simpl. rewrite Et. simpl. rewrite <- !app_assoc. reflexivity. }
  split; [done |].
  split; [simpl; apply var_contador_asignar |].
  unfold raiz_nodo. simpl.
  split; [rewrite Ho'; simpl; rewrite Hm'; simpl; by rewrite Hmf |].
  split; [done |]. split; [done |].
  split.
  - intros d' Hne. rewrite Ho'. simpl. rewrite Hd' by done.
    rewrite Ho. done.
  - intros f' Hne. rewrite Ho'. simpl. rewrite Hm'. simpl. rewrite Hf' by done.
    rewrite Ho. simpl. by rewrite Hd.
Qed.

(** ** Archiving: C4 and C9 *)

(** C4, as stated, fails twice over on [output/P] with [a.json], a record
    of the producer [P], and [b.json], which does not parse, all helper
    calls succeeding. The root copy archives [a.json] as [trash/a.json]:
    there is no [trash/P]. And in both copies [b.json], which was taken up
    and reported, is still where it was. *)
Lemma archivo_sin_particion_y_malformado_en_su_sitio :
  buscar ["trash"; "a.json"]
    (raiz_nodo (procesar_multiple_regages Raiz 100
                  (estado_con arbol_mixto siempre_devuelve)).2)
  = Some (Fichero (Registro registro_de_P))
  ∧ buscar ["trash"; "P"]
      (raiz_nodo (procesar_multiple_regages Raiz 100
                    (estado_con arbol_mixto siempre_devuelve)).2) = None
  ∧ n_eventos es_error_lectura
      (traza (procesar_multiple_regages Raiz 100
                (estado_con arbol_mixto siempre_devuelve)).2) = 1
  ∧ buscar ["output"; "P"; "b.json"]
      (raiz_nodo (procesar_multiple_regages Raiz 100
                    (estado_con arbol_mixto siempre_devuelve)).2)
    = Some (Fichero (Malformado "Expecting value"))
  ∧ n_eventos es_error_lectura
      (traza (procesar_multiple_regages Mains 100
                (estado_con arbol_mixto siempre_devuelve)).2) = 1
  ∧ buscar ["output"; "P"; "b.json"]
      (raiz_nodo (procesar_multiple_regages Mains 100
                    (estado_con arbol_mixto siempre_devuelve)).2)
    = Some (Fichero (Malformado "Expecting value")).
Proof. repeat split; vm_compute; reflexivity. Qed.


(** C4 (amended): a turn of the batch loop below the limit, on a file of
    a producer folder, the archive being unobstructed. If the file parses
    (to a record the field reads accept) and the destination is not an
    existing directory, then whatever the helpers do while the record is
    processed, the turn ends normally with the file gone from its folder
    and present, with its content, in the archive directory, which exists
    afterwards whether or not it did before; that directory is [trash] in
    the root copy and [trash/<producer name>] in [src/mains]. If the file
    does not parse, the turn ends by [continue] and the file system is as
    it was. *)
Theorem archivo_procesado_se_archiva (ver : version) (max : Z) (d f : string)
    (c : contenido) (out m : gmap string nodo) (s : estado) :
  (var_contador s < max)%Z →
  raiz s !! "output" = Some (Directorio out) →
  out !! d = Some (Directorio m) →
  m !! f = Some (Fichero c) →
  f ≠ "" →
  registro_admisible ver c = true →
  archivo_despejado ver (raiz s) →
  (∀ campos, c = Registro (JObj campos) →
     no_es_directorio (buscar (carpeta_de_archivo ver campos ++ [f]) (raiz_nodo s)) →
     carpeta_de_archivo ver campos
       = match ver with
         | Raiz => ["trash"]
         | Mains => ["trash"; nombre_productor_de campos]
         end
     ∧ ∃ s', procesar_archivo ver max ["output"; d] f s = (Normal tt, s')
             ∧ buscar ["output"; d; f] (raiz_nodo s') = None
             ∧ buscar (carpeta_de_archivo ver campos ++ [f]) (raiz_nodo s')
               = Some (Fichero c)
             ∧ es_directorio s' (carpeta_de_archivo ver campos) = true)
  ∧ (∀ msg, c = Malformado msg →
       ∃ s', procesar_archivo ver max ["output"; d] f s = (Abrupto Continue, s')
             ∧ raiz s' = raiz s).
Proof.
  intros Hn Ho Hd Hf Hfn Hadm Hdes. split.
  - intros campos -> Hno. split.
    + destruct ver; [done |]. simpl in Hadm.
      apply andb_prop in Hadm as [_ Hc].
      unfold carpeta_de_archivo, os_path_join.
      destruct (String.eqb_spec (nombre_productor_de campos) "") as [E|_]; [| done].
      by rewrite E in Hc.
    + destruct (procesar_archivo_archiva ver max d f campos out m s
                  Hn Ho Hd Hf Hfn Hadm Hdes Hno)
        as (s' & t & E & _ & _ & _ & B1 & B2 & [a B3] & _).
      exists s'. repeat (split; [done |]). unfold es_directorio. by rewrite B3.
  - intros msg ->.
    assert (Hruta : os_path_join ["output"; d] f = ["output"; d; f]).
    { unfold os_path_join. by destruct (String.eqb_spec f ""). }
    eexists. split; [| shelve].
    apply procesar_archivo_malformado; [done |].
    rewrite Hruta. unfold raiz_nodo. simpl. rewrite Ho. simpl. rewrite Hd. simpl.
    by rewrite Hf.
    Unshelve. done.
Qed.

Lemma archivo_procesado_se_archiva_witness :
  ∃ s', procesar_archivo Mains 100 ["output"; "P"] "a.json"
          (estado_con arbol_mixto siempre_falla) = (Normal tt, s')
        ∧ buscar ["output"; "P"; "a.json"] (raiz_nodo s') = None
        ∧ buscar ["trash"; "P"; "a.json"] (raiz_nodo s')
          = Some (Fichero (Registro registro_de_P)).
Proof.
  destruct (archivo_procesado_se_archiva Mains 100 "P" "a.json" (Registro registro_de_P)
              {[ "P" := Directorio
                          (<[ "a.json" := Fichero (Registro registro_de_P) ]>
                             {[ "b.json" := Fichero (Malformado "Expecting value") ]}) ]}
              (<[ "a.json" := Fichero (Registro registro_de_P) ]>
                 {[ "b.json" := Fichero (Malformado "Expecting value") ]})
              (estado_con arbol_mixto siempre_falla))
    as [H _].
  - reflexivity.
  - vm_compute. reflexivity.
  - vm_compute. reflexivity.
  - vm_compute. reflexivity.
  - discriminate.
  - reflexivity.
  - vm_compute. exact I.
  - destruct (H _ eq_refl) as (_ & s' & E & B1 & B2 & _).
    + vm_compute. exact I.
    + exists s'. split; [exact E |]. split; [exact B1 | exact B2].
Defined.



(** ** The loops of the batch *)






Lemma os_listdir_directorio (p : ruta) (m : gmap string nodo) (s : estado) :
  buscar p (raiz_nodo s) = Some (Directorio m) →
  os_listdir p s = (Normal (map_to_list m).*1, s).
Proof. intros H. unfold os_listdir. by rewrite H. Qed.







(** * Further properties of the module *)



(** X2: [autenticar_y_seleccionar_certificado] neither starts nor quits a
    browser, keeps its caller's local variables, and ends by returning or
    by raising, never otherwise. *)
Theorem autenticar_no_toca_el_navegador (driver : valor) (s : estado) :
  creados (nuevos s (autenticar_y_seleccionar_certificado driver s).2) = []
  ∧ cierres (nuevos s (autenticar_y_seleccionar_certificado driver s).2) = []
  ∧ locales (autenticar_y_seleccionar_certificado driver s).2 = locales s
  ∧ ((∃ v, (autenticar_y_seleccionar_certificado driver s).1 = Normal v)
     ∨ ∃ e, (autenticar_y_seleccionar_certificado driver s).1 = Abrupto (Excepcion e)).
Proof.
  pose proof (autenticar_wp driver s [] [] s (rastro_inicio s [] [] eq_refl eq_refl)) as H.
  unfold wp in H. destruct H as [[Hr Hl] Hres].
  apply rastro_nuevos in Hr as [-> ->]. repeat (split; [done |]).
  destruct (autenticar_y_seleccionar_certificado driver s).1 as [v|[v|e| |]];
    try done; [left | right]; by eexists.
Qed.

(** X3: once the limit is reached, a turn of the batch loop does nothing
    with the file: it logs that the limit was reached and returns from
    [procesar_multiple_regages]; the file is not opened, nothing is
    processed or moved. *)
Theorem limite_antes_que_el_archivo (ver : version) (max_registros : Z)
    (carpeta : ruta) (archivo_json : string) (s : estado) :
  (max_registros ≤ var_contador s)%Z →
  procesar_archivo ver max_registros carpeta archivo_json s
  = (Abrupto (Retorno VNone), anotar (EvLog (INFO_17 max_registros)) s).
Proof.
  intros H. unfold procesar_archivo, mbind, M_bind, bind, fmap, M_fmap, bind, leer, ret.
  cbn beta iota. fold (var_contador s).
  destruct (Z.leb_spec max_registros (var_contador s)) as [_|]; [done | lia].
Qed.

Lemma limite_antes_que_el_archivo_witness :
  procesar_archivo Mains 0 ["output"; "P"] "a.json" (estado_con arbol_mixto siempre_falla)
  = (Abrupto (Retorno VNone),
     anotar (EvLog (INFO_17 0)) (estado_con arbol_mixto siempre_falla)).
Proof.
  apply (limite_antes_que_el_archivo Mains 0 ["output"; "P"] "a.json"
           (estado_con arbol_mixto siempre_falla)).
  vm_compute. discriminate.
Defined.

(** X4: without an [output] folder [procesar_multiple_regages] logs the
    error and returns; nothing else happens. *)
Theorem lote_sin_carpeta_output (ver : version) (max_registros : Z) (s : estado) :
  raiz s !! "output" = None →
  procesar_multiple_regages ver max_registros s
  = (Normal VNone, anotar (EvLog (ERR_12 ["output"])) s).
Proof.
  intros H.
  enough (wp (procesar_multiple_regages ver max_registros)
            (λ r s', r = Normal VNone ∧ s' = anotar (EvLog (ERR_12 ["output"])) s) s)
    as [H1 H2] by (by apply injective_projections).
  unfold procesar_multiple_regages. apply wp_def. cbv zeta.
  change (os_path_join [] "output") with ["output"].
  apply wp_bind. unfold wp at 1, os_path_exists, existe, raiz_nodo. cbn [fst snd].
  assert (E : buscar ["output"] (Directorio (raiz (con_locales ∅ s))) = None).
  { simpl. by rewrite H. }
  rewrite E, bool_decide_eq_false_2 by (by intros [? ?]). cbn [negb].
  repeat wp_paso. split; [done |]. by destruct s.
Qed.

Lemma lote_sin_carpeta_output_witness :
  procesar_multiple_regages Raiz 100 (estado_de siempre_falla)
  = (Normal VNone, anotar (EvLog (ERR_12 ["output"])) (estado_de siempre_falla)).
Proof. apply (lote_sin_carpeta_output Raiz 100 (estado_de siempre_falla)). reflexivity. Defined.

(** X5: an exception raised inside the [try] of [procesar_registro] is
    caught and classified by its first matching clause: when
    [webConfiguration.configure] raises, the last thing logged is the
    error of the class ([TimeoutException] before [WebDriverException]
    before any other [Exception]) with the record's three ids and the
    exception, [None] is returned, and no further helper is called. *)
Theorem configurar_falla_se_clasifica (ver : version) (campos : list (string * json))
    (s : estado) (e : excepcion) :
  campos_legibles (JObj campos) = true →
  oraculo s (reloj s) = Lanza e →
  (procesar_registro ver (JObj campos) s).1 = Normal VNone
  ∧ last (traza (procesar_registro ver (JObj campos) s).2)
    = Some (EvLog
              ((if isinstance e TimeoutException then ERR_08
                else if isinstance e WebDriverException then ERR_09
                else ERR_10)
                 (default (JStr "") (campo "regage" campos))
                 (default (JStr "") (campo "nif_productor" campos))
                 (default (JStr "") (campo "nif_representante" campos)) e))
  ∧ reloj (procesar_registro ver (JObj campos) s).2 = S (reloj s).
Proof.
  intros Hleg He.
  set (Φ := λ (r : resultado valor) (s' : estado),
         r = Normal VNone
         ∧ last (traza s')
           = Some (EvLog
                     ((if isinstance e TimeoutException then ERR_08
                       else if isinstance e WebDriverException then ERR_09
                       else ERR_10)
                        (default (JStr "") (campo "regage" campos))
                        (default (JStr "") (campo "nif_productor" campos))
                        (default (JStr "") (campo "nif_representante" campos)) e))
         ∧ reloj s' = S (reloj s)).
  change (wp (procesar_registro ver (JObj campos)) Φ s).
  unfold procesar_registro. apply wp_def.
  apply wp_bind. unfold wp at 1. rewrite (leer_campos_ok campos _ Hleg). cbn [fst snd].
  apply wp_bind, wp_asignar. apply wp_bind, wp_registrar.
  apply wp_try_finally, wp_try_except.
  apply wp_bind.
  apply (wp_mono _ (λ r s1, ∃ l, r = Normal l ∧ oraculo s1 = oraculo s ∧ reloj s1 = reloj s
                             ∧ locales s1 !! "driver" = Some VNone)).
  { unfold get_linkMiteco_log. destruct ver; repeat wp_paso; eexists; (split; [reflexivity |]);
      repeat split; try done; simpl; apply lookup_insert_eq. }
  intros r s1 (l & -> & Ho & Hr & Hl).
  apply wp_bind, wp_registrar. apply wp_bind, wp_registrar.
  apply wp_bind, wp_externo.
  { intros v Hv. simpl in Hv. rewrite Ho, Hr, He in Hv. discriminate. }
  intros e' He'. simpl in He'. rewrite Ho, Hr, He in He'. injection He' as <-.
  destruct (isinstance e TimeoutException); [| destruct (isinstance e WebDriverException)].
  all: repeat wp_paso; simpl; rewrite Hl; simpl; apply wp_ret; subst Φ; simpl;
    (split; [done |]); (split; [by rewrite last_snoc | by rewrite Hr]).
Qed.

Lemma configurar_falla_se_clasifica_witness :
  (procesar_registro Mains registro_de_P (estado_de siempre_falla)).1 = Normal VNone
  ∧ last (traza (procesar_registro Mains registro_de_P (estado_de siempre_falla)).2)
    = Some (EvLog (ERR_08 (JStr "NT2") (JStr "") (JStr "")
                     (Exc TimeoutException "timeout"))).
Proof.
  destruct (configurar_falla_se_clasifica Mains
              [("regage", JStr "NT2"); ("nombre_productor", JStr "P")]
              (estado_de siempre_falla) (Exc TimeoutException "timeout"))
    as (H1 & H2 & _); [reflexivity | reflexivity |].
  split; [exact H1 | exact H2].
Defined.

(** X6: when [webConfiguration.configure] returns nothing usable (a falsy
    value), [procesar_registro] logs that the browser could not be
    started and returns [None]; it has made that one helper call only,
    so no page is opened and [quit] is never called. *)
Theorem sin_driver_no_hay_sesion (ver : version) (campos : list (string * json))
    (s : estado) (d : valor) :
  campos_legibles (JObj campos) = true →
  oraculo s (reloj s) = Devuelve d →
  verdadero d = false →
  (procesar_registro ver (JObj campos) s).1 = Normal VNone
  ∧ last (traza (procesar_registro ver (JObj campos) s).2) = Some (EvLog ERR_04)
  ∧ reloj (procesar_registro ver (JObj campos) s).2 = S (reloj s)
  ∧ n_llamadas es_quit (nuevos s (procesar_registro ver (JObj campos) s).2) = 0.
Proof.
  intros Hleg He Hd.
  set (Φ := λ (r : resultado valor) (s' : estado),
         r = Normal VNone
         ∧ last (traza s') = Some (EvLog ERR_04)
         ∧ reloj s' = S (reloj s)
         ∧ rastro s [] [] s').
  enough (wp (procesar_registro ver (JObj campos)) Φ s) as (H1 & H2 & H3 & H4).
  { repeat (split; [done |]).
    apply rastro_nuevos in H4 as [_ Hq]. by rewrite cierres_n_llamadas, Hq. }
  unfold procesar_registro. apply wp_def.
  apply wp_bind. unfold wp at 1. rewrite (leer_campos_ok campos _ Hleg). cbn [fst snd].
  apply wp_bind, wp_asignar. apply wp_bind, wp_registrar.
  apply wp_try_finally, wp_try_except.
  apply wp_bind.
  apply (wp_mono _ (λ r s1, ∃ l, r = Normal l ∧ oraculo s1 = oraculo s ∧ reloj s1 = reloj s
                             ∧ rastro s [] [] s1)).
  { unfold get_linkMiteco_log. destruct ver; repeat wp_paso; eexists; (split; [reflexivity |]);
      (split; [done |]); (split; [done |]); repeat rastro_paso; by apply rastro_inicio. }
  intros r s1 (l & -> & Ho & Hr & Hras).
  apply wp_bind, wp_registrar. apply wp_bind, wp_registrar.
  apply wp_bind, wp_externo.
  2:{ intros v Hv. simpl in Hv. rewrite Ho, Hr, He in Hv. discriminate. }
  intros d' He'.
  assert (Hras2 : rastro s [] []
                    (tras_llamada configure
                       (anotar (EvLog (INFO_09 l))
                          (anotar (EvLog (INFO_08 (nombre_residuo_de campos)
                                            (nombre_productor_de campos))) s1)))).
  { match goal with
    | |- rastro s [] [] (tras_llamada configure ?sk) =>
        pose proof (rastro_configure s [] [] sk) as Hc
    end.
    rewrite He' in Hc. simpl in He'. rewrite Ho, Hr, He in He'. injection He' as <-.
    simpl in Hc. rewrite Hd in Hc. apply Hc. by repeat rastro_paso. }
  simpl in He'. rewrite Ho, Hr, He in He'. injection He' as <-.
  apply wp_bind, wp_asignar. apply wp_bind, wp_leer. simpl default.
  rewrite lookup_insert_eq. simpl default. rewrite Hd. cbn [negb].
  repeat wp_paso. simpl. rewrite lookup_insert_eq. simpl. rewrite Hd.
  apply wp_ret. subst Φ. cbv beta.
  split; [done |]. split; [simpl; by rewrite last_snoc |].
  split; [simpl; by rewrite Hr |].
  by repeat rastro_paso.
Qed.

Lemma sin_driver_no_hay_sesion_witness :
  (procesar_registro Raiz registro_de_P (estado_de (λ _, Devuelve VNone))).1 = Normal VNone
  ∧ n_llamadas es_quit
      (nuevos (estado_de (λ _, Devuelve VNone))
         (procesar_registro Raiz registro_de_P (estado_de (λ _, Devuelve VNone))).2) = 0.
Proof.
  destruct (sin_driver_no_hay_sesion Raiz
              [("regage", JStr "NT2"); ("nombre_productor", JStr "P")]
              (estado_de (λ _, Devuelve VNone)) VNone)
    as (H1 & _ & _ & H4); [reflexivity | reflexivity | reflexivity |].
  split; [exact H1 | exact H4].
Defined.

(** X7: when [output] holds no folder, only files,
    [procesar_multiple_regages] logs that no producer folder was found
    and returns; no file is read and nothing is changed. *)
Theorem lote_sin_carpetas_de_productor (ver : version) (max_registros : Z)
    (out : gmap string nodo) (s : estado) :
  raiz s !! "output" = Some (Directorio out) →
  out !! "" = None →
  carpetas_de out = [] →
  procesar_multiple_regages ver max_registros s
  = (Normal VNone, anotar (EvLog (ERR_13 ["output"])) s).
Proof.
  intros Ho Hvac Hcarp.
  enough (wp (procesar_multiple_regages ver max_registros)
            (λ r s', r = Normal VNone ∧ s' = anotar (EvLog (ERR_13 ["output"])) s) s)
    as [H1 H2] by (by apply injective_projections).
  unfold procesar_multiple_regages. apply wp_def. cbv zeta.
  set (s0 := con_locales ∅ s).
  change (os_path_join [] "output") with ["output"].
  assert (Hex : buscar ["output"] (raiz_nodo s0) = Some (Directorio out)).
  { unfold raiz_nodo. simpl. by rewrite Ho. }
  apply wp_bind. unfold wp at 1, os_path_exists, existe. cbn [fst snd].
  rewrite Hex, bool_decide_eq_true_2 by eauto. cbn [negb].
  apply wp_bind, wp_ret.
  apply wp_bind. unfold wp at 1. rewrite (os_listdir_directorio _ _ _ Hex). cbn [fst snd].
  apply wp_bind. unfold wp at 1. cbn [fst snd].
  assert (Hfil : List.filter (λ d, es_directorio s0 (os_path_join ["output"] d))
                   (map_to_list out).*1 = carpetas_de out).
  { unfold carpetas_de. apply List.filter_ext_in. intros d Hin.
    apply list_elem_of_In, list_elem_of_fmap in Hin as ([d' n] & -> & Hin).
    apply elem_of_map_to_list in Hin. simpl in *.
    unfold os_path_join. destruct (String.eqb_spec d' "") as [->|_].
    - by rewrite Hvac in Hin.
    - unfold es_directorio, raiz_nodo. simpl. rewrite Ho. simpl. rewrite Hin. simpl.
      by destruct n. }
  rewrite Hfil, Hcarp. cbn [fmap list_fmap]. rewrite bool_decide_eq_true_2 by done.
  repeat wp_paso. split; [done |]. by destruct s.
Qed.

Lemma lote_sin_carpetas_de_productor_witness :
  procesar_multiple_regages Mains 100
    (estado_con {[ "output" := Directorio {[ "suelto.json" := Fichero (Registro registro_de_P) ]} ]}
       siempre_falla)
  = (Normal VNone,
     anotar (EvLog (ERR_13 ["output"]))
       (estado_con {[ "output" := Directorio {[ "suelto.json" := Fichero (Registro registro_de_P) ]} ]}
          siempre_falla)).
Proof.
  apply (lote_sin_carpetas_de_productor Mains 100
           {[ "suelto.json" := Fichero (Registro registro_de_P) ]}).
  - vm_compute. reflexivity.
  - vm_compute. reflexivity.
  - vm_compute. reflexivity.
Defined.

(** X8: [descargar_documentos] when the snapshot of the download folder
    is taken but clicking the links raises: the failure is logged, the
    browser is quit in the [finally] (whether or not [quit] itself
    raises), and the function returns the empty list. Exactly three
    helper calls are made: snapshot, click, quit; the wait for downloads
    is never started. *)
Theorem descarga_fallida_devuelve_lista_vacia (driver download_path : valor)
    (numDownloads : Z) (s : estado) (old_state : valor) (e : excepcion) :
  oraculo s (reloj s) = Devuelve old_state →
  oraculo s (S (reloj s)) = Lanza e →
  (descargar_documentos driver download_path numDownloads s).1 = Normal (VLista [])
  ∧ (∃ fin,
       traza (descargar_documentos driver download_path numDownloads s).2
       = traza s
         ++ [EvLlamada (snapshot_folder_state download_path) (Devuelve old_state);
             EvLlamada (clickar_todos_los_links driver ".pdf") (Lanza e);
             EvLog (ERR_02 e);
             EvLlamada (quit driver) (oraculo s (S (S (reloj s))));
             EvLog fin]
       ∧ (fin = INFO_06 ∨ ∃ quit_error, fin = ERR_03 quit_error))
  ∧ reloj (descargar_documentos driver download_path numDownloads s).2 = 3 + reloj s
  ∧ locales (descargar_documentos driver download_path numDownloads s).2 = locales s.
Proof.
  intros H0 H1.
  unfold descargar_documentos. rewrite def_eq.
  unfold mbind, M_bind, bind, asignar, externo, try_finally, try_except, registrar, leer,
    return_. simpl.
  rewrite H0. simpl. rewrite H1. simpl.
  destruct (oraculo s (S (S (reloj s)))) as [v|e2]; simpl;
    rewrite lookup_insert_eq; simpl;
    (split; [done |]); (split; [| done]);
    eexists; (split; [rewrite <- !app_assoc; reflexivity |]); [by left | right; by eexists].
Qed.

Lemma descarga_fallida_devuelve_lista_vacia_witness :
  (descargar_documentos (VObjeto 1) (VStr "descargas") 2
     (estado_de (λ i, if i =? 0 then Devuelve VNone
                      else Lanza (Exc TimeoutException "timeout")))).1
  = Normal (VLista []).
Proof.
  destruct (descarga_fallida_devuelve_lista_vacia (VObjeto 1) (VStr "descargas") 2
              (estado_de (λ i, if i =? 0 then Devuelve VNone
                               else Lanza (Exc TimeoutException "timeout")))
              VNone (Exc TimeoutException "timeout")) as [H _];
    [reflexivity | reflexivity | exact H].
Defined.

Lemma buscar_app_hijo (p : ruta) (f : string) (a : gmap string nodo) :
  ∀ T, buscar p T = Some (Directorio a) → buscar (p ++ [f]) T = a !! f.
Proof.
  induction p as [|y r IH]; intros T Ha; simpl in *.
  - injection Ha as ->. by destruct (a !! f).
  - destruct T as [c|m0]; [done |]. destruct (m0 !! y) as [h|]; [| done].
    simpl in *. by apply IH.
Qed.

(** [shutil.move] refuses when the destination is a directory that
    already holds an entry of the file's name: the error is logged, the
    turn goes on, and only [os.makedirs] has touched the tree. *)
Lemma archivar_rechazado (rest : ruta) (d f : string) (n n' : nodo)
    (out m : gmap string nodo) (T1 : nodo) (a u : gmap string nodo) (s : estado) :
  raiz s !! "output" = Some (Directorio out) →
  out !! d = Some (Directorio m) → m !! f = Some n → f ≠ "" →
  os_makedirs ("trash" :: rest) s
    = (Normal tt, con_raiz (<["trash" := T1]> (raiz s)) s) →
  buscar rest T1 = Some (Directorio a) →
  a !! f = Some (Directorio u) → u !! f = Some n' →
  archivar ("trash" :: rest) ["output"; d; f] s
  = (Normal tt,
     anotar (EvSleep 10000)
       (anotar (EvLog INFO_20)
          (anotar (EvLog (ERR_15 ["output"; d; f]
                            (Exc ShutilError "Destination path already exists")))
             (con_raiz (<["trash" := T1]> (raiz s)) s)))).
Proof.
  intros Ho Hd Hf Hfn Hmk Ha Haf Huf.
  assert (Hj : os_path_join ("trash" :: rest) (os_path_basename ["output"; d; f])
               = "trash" :: rest ++ [f]).
  { unfold os_path_join, os_path_basename. simpl.
    by destruct (String.eqb_spec f ""). }
  set (s1 := con_raiz (<["trash" := T1]> (raiz s)) s) in *.
  assert (Ho1 : raiz s1 !! "output" = Some (Directorio out)).
  { subst s1. simpl. by rewrite lookup_insert_ne. }
  assert (Ht1 : raiz s1 !! "trash" = Some T1).
  { subst s1. simpl. by rewrite lookup_insert_eq. }
  assert (Hbf : buscar (rest ++ [f]) T1 = Some (Directorio u)).
  { by rewrite (buscar_app_hijo rest f a T1 Ha). }
  assert (Hbff : buscar ((rest ++ [f]) ++ [f]) T1 = Some n').
  { by rewrite (buscar_app_hijo (rest ++ [f]) f u T1 Hbf). }
  pose proof (shutil_move_a_trash s1 d f n out m T1 (rest ++ [f]) Ho1 Hd Hf Ht1) as Hm.
  specialize (Hm ltac:(by destruct rest)). cbv zeta in Hm.
  rewrite Hbf in Hm. cbv iota in Hm. rewrite Hbff in Hm.
  cbn [andb] in Hm. rewrite bool_decide_eq_true_2 in Hm by eauto.
  rewrite <- Hj in Hm. by rewrite (archivar_no_movido _ _ s s1 s1 _ Hmk Hm).
Qed.

(** X9: a failed move does not stop the batch. When the archive
    destination of a record file is an existing directory that already
    holds an entry of the file's name, [shutil.move] refuses: the turn of
    the loop logs the move error, counts the record as processed, pauses
    and ends normally, and the record file is still in its folder. *)
Theorem mover_rechazado_se_registra (ver : version) (max_registros : Z) (d f : string)
    (campos : list (string * json)) (out m u : gmap string nodo) (n' : nodo)
    (s : estado) :
  (var_contador s < max_registros)%Z →
  raiz s !! "output" = Some (Directorio out) →
  out !! d = Some (Directorio m) →
  m !! f = Some (Fichero (Registro (JObj campos))) →
  f ≠ "" →
  registro_admisible ver (Registro (JObj campos)) = true →
  archivo_despejado ver (raiz s) →
  buscar (carpeta_de_archivo ver campos ++ [f]) (raiz_nodo s) = Some (Directorio u) →
  u !! f = Some n' →
  ∃ (s' : estado) (t : list evento),
    procesar_archivo ver max_registros ["output"; d] f s = (Normal tt, s')
    ∧ traza s'
      = traza s ++ t
        ++ [EvLog (ERR_15 ["output"; d; f]
                     (Exc ShutilError "Destination path already exists"));
            EvLog INFO_20; EvSleep 10000]
    ∧ var_contador s' = (var_contador s + 1)%Z
    ∧ buscar ["output"; d; f] (raiz_nodo s') = Some (Fichero (Registro (JObj campos))).
Proof.
  intros Hn Ho Hd Hf Hfn Hadm Hdes Hdest Huf.
  assert (Hruta : os_path_join ["output"; d] f = ["output"; d; f]).
  { unfold os_path_join. by destruct (String.eqb_spec f ""). }
  assert (Hb : buscar (os_path_join ["output"; d] f) (raiz_nodo s)
               = Some (Fichero (Registro (JObj campos)))).
  { rewrite Hruta. unfold raiz_nodo. simpl. rewrite Ho. simpl. rewrite Hd. simpl.
    by rewrite Hf. }
  destruct (registro_admisible_legible ver _ Hadm) as (campos' & [= <-] & Hleg & Hnp).
  rewrite (procesar_archivo_registro ver max_registros _ f campos s Hn Hb Hleg).
  rewrite Hruta.
  destruct (procesar_registro_marco ver campos
              (anotar (EvLog (INFO_18 (var_contador s + 1) max_registros f)) s) Hleg)
    as (_ & Hl & HR & _ & _ & (t & Et & Ft)).
  set (s1 := (procesar_registro ver (JObj campos) _).2) in *.
  set (s2 := con_locales (<["registros_procesados" := VInt (var_contador s + 1)]>
                            (locales s)) s1).
  assert (HR2 : raiz s2 = raiz s) by (change (raiz s2) with (raiz s1); by rewrite HR).
  assert (Ho2 : raiz s2 !! "output" = Some (Directorio out)) by (by rewrite HR2).
  assert (Hdes2 : archivo_despejado ver (raiz s2)) by (by rewrite HR2).
  assert (Hdest2 : buscar (carpeta_de_archivo ver campos ++ [f]) (raiz_nodo s2)
                   = Some (Directorio u)).
  { unfold raiz_nodo. by rewrite HR2. }
  assert (∃ rest T1 a,
            carpeta_de_archivo ver campos = "trash" :: rest
            ∧ os_makedirs ("trash" :: rest) s2
              = (Normal tt, con_raiz (<["trash" := T1]> (raiz s2)) s2)
            ∧ buscar rest T1 = Some (Directorio a)
            ∧ a !! f = Some (Directorio u)) as (rest & T1 & a & Etd & Hmk & Ha & Haf).
  { destruct ver.
    - exists [], (Directorio match raiz s2 !! "trash" with
                            | Some (Directorio t) => t | _ => ∅ end),
             match raiz s2 !! "trash" with Some (Directorio t) => t | _ => ∅ end.
      split; [done |]. split.
      { apply os_makedirs_trash. unfold archivo_despejado in Hdes2.
        by destruct (raiz s2 !! "trash") as [[]|]. }
      split; [done |].
      unfold carpeta_de_archivo, raiz_nodo in Hdest2. cbn [app buscar] in Hdest2.
      destruct (raiz s2 !! "trash") as [[c|t0]|]; cbn in Hdest2; try done.
      destruct (t0 !! f) as [nn|]; cbn in *; [by injection Hdest2 as -> | done].
    - specialize (Hnp eq_refl).
      unfold carpeta_de_archivo, os_path_join in *.
      destruct (String.eqb_spec (nombre_productor_de campos) "") as [|_]; [done |].
      set (np := nombre_productor_de campos) in *. simpl app in *.
      exists [np],
             (Directorio (<[np := Directorio
                                    (hijos_de (hijos_de (raiz s2 !! "trash") !! np))]>
                            (hijos_de (raiz s2 !! "trash")))),
             (hijos_de (hijos_de (raiz s2 !! "trash") !! np)).
      split; [done |].
      split; [by apply os_makedirs_trash_productor |].
      split; [simpl; by rewrite lookup_insert_eq |].
      unfold raiz_nodo in Hdest2. cbn [app buscar] in Hdest2.
      destruct (raiz s2 !! "trash") as [[c|t0]|]; cbn in Hdest2; try done.
      cbn [hijos_de].
      destruct (t0 !! np) as [[c|p]|]; cbn in Hdest2; try done.
      cbn [hijos_de].
      destruct (p !! f) as [nn|]; cbn in *; [by injection Hdest2 as -> | done]. }
  rewrite Etd.
  rewrite (archivar_rechazado rest d f _ n' out m T1 a u s2 Ho2 Hd Hf Hfn Hmk Ha Haf Huf).
  eexists _, (_ :: _ :: t). split; [reflexivity |].
  split.
  { simpl. rewrite Et. simpl. rewrite <- !app_assoc. reflexivity. }
  split; [simpl; apply var_contador_asignar |].
  unfold raiz_nodo. simpl. rewrite lookup_insert_ne by done.
  change (raiz s1) with (raiz s2). rewrite Ho2. simpl. rewrite Hd. simpl. by rewrite Hf.
Qed.

Lemma mover_rechazado_se_registra_witness :
  ∃ s',
    procesar_archivo Raiz 100 ["output"; "P"] "a.json"
      (estado_con
         (<[ "output" := Directorio
                           {[ "P" := Directorio
                                       {[ "a.json" := Fichero (Registro registro_de_P) ]} ]} ]>
            {[ "trash" := Directorio
                            {[ "a.json" := Directorio
                                             {[ "a.json" := Fichero (Registro registro_viejo) ]} ]} ]})
         siempre_falla)
    = (Normal tt, s')
    ∧ buscar ["output"; "P"; "a.json"] (raiz_nodo s')
      = Some (Fichero (Registro registro_de_P)).
Proof.
  destruct (mover_rechazado_se_registra Raiz 100 "P" "a.json"
              [("regage", JStr "NT2"); ("nombre_productor", JStr "P")]
              {[ "P" := Directorio {[ "a.json" := Fichero (Registro registro_de_P) ]} ]}
              {[ "a.json" := Fichero (Registro registro_de_P) ]}
              {[ "a.json" := Fichero (Registro registro_viejo) ]}
              (Fichero (Registro registro_viejo))
              (estado_con
                 (<[ "output" := Directorio
                                   {[ "P" := Directorio
                                               {[ "a.json" := Fichero (Registro registro_de_P) ]} ]} ]>
                    {[ "trash" := Directorio
                                    {[ "a.json" := Directorio
                                                     {[ "a.json" := Fichero (Registro registro_viejo) ]} ]} ]})
                 siempre_falla))
    as (s' & t & E & _ & _ & B).
  - reflexivity.
  - vm_compute. reflexivity.
  - vm_compute. reflexivity.
  - vm_compute. reflexivity.
  - discriminate.
  - reflexivity.
  - vm_compute. exact I.
  - vm_compute. reflexivity.
  - vm_compute. reflexivity.
  - exists s'. split; [exact E | exact B].
Defined.

(** ** config.py: [cargar_variables] *)

Lemma lstrip_cabeza (s : string) (a : ascii) (r : string) :
  lstrip s = String a r → es_espacio a = false.
Proof.
  induction s as [|b s IH]; [done |]. simpl.
  destruct (es_espacio b) eqn:E; [done |]. by intros [= <- <-].
Qed.

Lemma lstrip_limpia (a : ascii) (r : string) :
  es_espacio a = false → lstrip (String a r) = String a r.
Proof. intros H. simpl. by rewrite H. Qed.

Lemma rstrip_cons (a : ascii) (s : string) :
  es_espacio a = false → rstrip (String a s) = String a (rstrip s).
Proof. intros H. simpl. destruct (rstrip s); [by rewrite H | done]. Qed.

Lemma rstrip_idem (s : string) : rstrip (rstrip s) = rstrip s.
Proof.
  induction s as [|a s IH]; [done |]. simpl.
  destruct (rstrip s) as [|b r] eqn:E.
  - destruct (es_espacio a) eqn:Ea; [done |]. simpl. by rewrite Ea.
  - change (rstrip (String a (String b r))) with
      (match rstrip (String b r) with
       | EmptyString => if es_espacio a then EmptyString else String a EmptyString
       | r' => String a r'
       end).
    by rewrite IH.
Qed.

Lemma rstrip_cabeza (a : ascii) (s : string) :
  es_espacio a = false → ∃ r, rstrip (String a s) = String a r.
Proof. intros H. rewrite rstrip_cons by done. by eexists. Qed.

(** What [strip] returns starts with a character that is not whitespace,
    and stripping it again changes nothing. *)
Lemma strip_cabeza (s : string) (a : ascii) (r : string) :
  strip s = String a r → es_espacio a = false.
Proof.
  unfold strip. destruct (lstrip s) as [|b t] eqn:E; [done |].
  pose proof (lstrip_cabeza _ _ _ E) as Hb.
  rewrite rstrip_cons by done. by intros [= <- _].
Qed.

Lemma strip_idem (s : string) : strip (strip s) = strip s.
Proof.
  destruct (strip s) as [|a r] eqn:E; [done |].
  pose proof (strip_cabeza _ _ _ E) as Ha.
  unfold strip. rewrite lstrip_limpia by done.
  rewrite <- E. unfold strip. apply rstrip_idem.
Qed.

Lemma aparece_rstrip (c : ascii) (s : string) :
  aparece c (rstrip s) = true → aparece c s = true.
Proof.
  induction s as [|a s IH]; [done |]. simpl.
  destruct (rstrip s) as [|b r] eqn:E.
  - destruct (es_espacio a); [done |]. simpl. by destruct (Ascii.eqb a c).
  - change (aparece c (String a (String b r)))
      with (if Ascii.eqb a c then true else aparece c (String b r)).
    destruct (Ascii.eqb a c); [done |]. exact IH.
Qed.

Lemma aparece_lstrip (c : ascii) (s : string) :
  aparece c (lstrip s) = true → aparece c s = true.
Proof.
  induction s as [|a s IH]; [done |]. simpl.
  destruct (es_espacio a); [| done].
  intros H. rewrite (IH H). by destruct (Ascii.eqb a c).
Qed.

Lemma aparece_strip (c : ascii) (s : string) :
  aparece c (strip s) = true → aparece c s = true.
Proof. intros H. by apply aparece_lstrip, aparece_rstrip. Qed.

Lemma prefijo_de_uno (c b : ascii) (r t : string) :
  String.prefix (String c EmptyString) (String b r)
  = String.prefix (String c EmptyString) (String b t).
Proof.
  change (String.prefix (String c EmptyString) (String b r))
    with (if ascii_dec c b then String.prefix EmptyString r else false).
  change (String.prefix (String c EmptyString) (String b t))
    with (if ascii_dec c b then String.prefix EmptyString t else false).
  destruct (ascii_dec c b); [| done]. by destruct r, t.
Qed.

Lemma cargar_variables_app (l1 l2 : list string) :
  cargar_variables (l1 ++ l2) = foldl cargar_linea (cargar_variables l1) l2.
Proof. apply foldl_app. Qed.

(** X10: [cargar_variables] passes over every line that is blank, is a
    comment (starts with [#] once stripped), or holds no [=]: dropping
    such a line from the file changes nothing in the dictionary. *)
Theorem linea_sin_asignacion_se_ignora (antes despues : list string) (line : string) :
  String.eqb (strip line) "" || String.prefix "#" (strip line)
    || negb (aparece "=" (strip line)) = true →
  cargar_variables (antes ++ line :: despues) = cargar_variables (antes ++ despues).
Proof.
  intros H. rewrite !cargar_variables_app. simpl. f_equal.
  unfold cargar_linea. cbv zeta.
  destruct (String.eqb (strip line) ""); [done |].
  destruct (String.prefix "#" (strip line)); [done |].
  simpl in *. by destruct (aparece "=" (strip line)).
Qed.

Lemma linea_sin_asignacion_se_ignora_witness :
  cargar_variables ["# certificados"; "NOMBRE_CERT = ACME"; "   "; "sin signo igual"]
  = cargar_variables ["# certificados"; "NOMBRE_CERT = ACME"; "sin signo igual"].
Proof.
  apply (linea_sin_asignacion_se_ignora ["# certificados"; "NOMBRE_CERT = ACME"]
           ["sin signo igual"] "   ").
  reflexivity.
Defined.

(** X11: whatever the file holds, the keys and values of the dictionary
    [cargar_variables] returns carry no whitespace at either end, and no
    key holds [=] or starts with [#]. *)
Theorem cargar_variables_claves_limpias (lineas : list string) (k v : string) :
  cargar_variables lineas !! k = Some v →
  strip k = k ∧ strip v = v ∧ aparece "=" k = false ∧ String.prefix "#" k = false.
Proof.
  unfold cargar_variables.
  assert (H : ∀ (m : gmap string string),
            (∀ k v, m !! k = Some v →
                    strip k = k ∧ strip v = v ∧ aparece "=" k = false
                    ∧ String.prefix "#" k = false) →
            ∀ k v, foldl cargar_linea m lineas !! k = Some v →
                   strip k = k ∧ strip v = v ∧ aparece "=" k = false
                   ∧ String.prefix "#" k = false).
  { induction lineas as [|line lineas IH]; intros m Hm; [exact Hm |].
    simpl. apply IH. clear IH k v. intros k v.
    unfold cargar_linea. cbv zeta.
    destruct (String.eqb_spec (strip line) "") as [|Hne]; [apply Hm |].
    destruct (String.prefix "#" (strip line)) eqn:Hcom; [apply Hm |].
    simpl. destruct (aparece "=" (strip line)) eqn:Hig; [| apply Hm].
    intros [[<- <-]|[_ Hk]]%lookup_insert_Some; [| by apply Hm].
    split; [apply strip_idem |]. split; [apply strip_idem |].
    split.
    - destruct (aparece "=" (strip (hasta "=" (strip line)))) eqn:E; [| done].
      apply aparece_strip in E. by rewrite hasta_sin in E.
    - destruct (strip (hasta "=" (strip line))) as [|a r] eqn:E; [done |].
      destruct (strip line) as [|b t] eqn:El; [done |].
      pose proof (strip_cabeza _ _ _ El) as Hb.
      simpl in E. destruct (Ascii.eqb b "=") eqn:Eb; [done |].
      unfold strip in E. rewrite lstrip_limpia in E by done.
      rewrite rstrip_cons in E by done. injection E as <- _.
      by rewrite (prefijo_de_uno "#" b _ t). }
  apply H. intros k' v'. by rewrite lookup_empty.
Qed.

Lemma cargar_variables_claves_limpias_witness :
  strip "NOMBRE_CERT" = "NOMBRE_CERT" ∧ strip "ACME SL" = "ACME SL".
Proof.
  destruct (cargar_variables_claves_limpias
              ["# certificados"; "  NOMBRE_CERT =  ACME SL  "] "NOMBRE_CERT" "ACME SL")
    as (H1 & H2 & _); [vm_compute; reflexivity |].
  split; [exact H1 | exact H2].
Defined.






(** ** [get_linkMiteco] once more *)

(** X13: on identifiers that hold neither [&] nor [#] the link determines
    the record: two triples of identifiers that give the same link are the
    same triple, and the fragment of the link is always
    [no-back-button]. *)
Theorem get_linkMiteco_inyectiva (c p r c' p' r' : string) :
  sin_separadores c → sin_separadores p → sin_separadores r →
  sin_separadores c' → sin_separadores p' → sin_separadores r' →
  get_linkMiteco c p r = get_linkMiteco c' p' r' →
  (c = c' ∧ p = p' ∧ r = r')
  ∧ fragmento (get_linkMiteco c p r) = "no-back-button".
Proof.
  intros Hc Hp Hr Hc' Hp' Hr' H. split; [| by apply get_linkMiteco_fragmento].
  assert (E : estructura c p r = estructura c' p' r').
  { rewrite <- (get_linkMiteco_parametros c p r), <- (get_linkMiteco_parametros c' p' r')
      by done. by rewrite H. }
  unfold estructura in E. by injection E as -> -> ->.
Qed.

Lemma get_linkMiteco_inyectiva_witness :
  fragmento (get_linkMiteco "NT1" "B1" "X1") = "no-back-button".
Proof.
  destruct (get_linkMiteco_inyectiva "NT1" "B1" "X1" "NT1" "B1" "X1") as [_ H];
    [by split | by split | by split | by split | by split | by split | reflexivity |].
  exact H.
Defined.
